(** * A read-only trade query service (main.py)

    The service keeps one list of trades in memory, built once by
    [generate_db], and answers three kinds of request over it:
    [get_trades] (filter, paginate, sort), [get_trade_by_id] and
    [search_trades] (free-text search, paginate, sort).

    The development has three parts.
    - The model.  [Py] holds the Python values and built-ins the program
      uses (str.lower, the substring test, float comparison and truthiness,
      datetime construction and comparison, slicing, indexing, list.sort).
      The generator runs over the state of the random number generator.
      The handlers run in a state-and-exception monad over a store of list
      objects, so that aliasing ([filtered_trades = trades_db]) and in-place
      mutation ([paginated_trades.sort]) are what the source makes them.
    - Derived definitions: the handlers as functions of the collection, the
      predicate a request stands for, and a small collection to run on.
    - Properties: each handler computes its functional form and leaves the
      stored lists alone; from there, the sort order, size and content of a
      page, the search rules, lookup by id and the shape of the generated
      collection. *)

From Stdlib Require Import ZArith QArith String Ascii Sorted Permutation.
From stdpp Require Import base list sorting gmap strings pretty.
Close Scope Q_scope.

(** ** Exceptions *)

(** A computation either returns a value or raises an exception; only the
    message [str(e)] of an exception is ever observed by the handlers. *)
Inductive result (A : Type) : Type :=
| Ok (a : A)
| Raise (msg : string).
Arguments Ok {A} a.
Arguments Raise {A} msg.

Definition result_bind {A B} (r : result A) (k : A → result B) : result B :=
  match r with
  | Ok a => k a
  | Raise m => Raise m
  end.

(** ** Python values *)

Module Py.

(** *** Strings

    A [str] is a sequence of Unicode code points.  It is kept here as its
    UTF-8 bytes: the empty string, equality and the substring test of two
    strings are the same on the bytes as on the code points.  [str.lower]
    works on the code points, so the bytes are decoded, lower-cased and
    encoded again. *)

Definition is_continuation (b : N) : bool := ((128 <=? b) && (b <? 192))%N.

(** The code points of a string.  A byte that does not start a
    well-formed sequence stands for itself; no [str] has such bytes. *)
Fixpoint code_points (s : string) : list N :=
  match s with
  | EmptyString => []
  | String b0 s1 =>
    let n0 := N_of_ascii b0 in
    match s1 with
    | EmptyString => [n0]
    | String b1 s2 =>
      let n1 := N_of_ascii b1 in
      if ((192 <=? n0) && (n0 <? 224))%N && is_continuation n1
      then ((n0 - 192) * 64 + (n1 - 128))%N :: code_points s2
      else
        match s2 with
        | EmptyString => n0 :: code_points s1
        | String b2 s3 =>
          let n2 := N_of_ascii b2 in
          if ((224 <=? n0) && (n0 <? 240))%N
             && is_continuation n1 && is_continuation n2
          then ((n0 - 224) * 4096 + (n1 - 128) * 64 + (n2 - 128))%N
               :: code_points s3
          else
            match s3 with
            | EmptyString => n0 :: code_points s1
            | String b3 s4 =>
              let n3 := N_of_ascii b3 in
              if ((240 <=? n0) && (n0 <? 248))%N && is_continuation n1
                 && is_continuation n2 && is_continuation n3
              then ((n0 - 240) * 262144 + (n1 - 128) * 4096
                    + (n2 - 128) * 64 + (n3 - 128))%N :: code_points s4
              else n0 :: code_points s1
            end
        end
    end
  end.

(** The UTF-8 bytes of one code point. *)
Definition utf8 (c : N) : string :=
  let byte (n : N) (s : string) := String (ascii_of_N n) s in
  if (c <? 128)%N then byte c ""
  else if (c <? 2048)%N then
    byte (192 + c / 64)%N (byte (128 + c mod 64)%N "")
  else if (c <? 65536)%N then
    byte (224 + c / 4096)%N
      (byte (128 + (c / 64) mod 64)%N (byte (128 + c mod 64)%N ""))
  else
    byte (240 + c / 262144)%N
      (byte (128 + (c / 4096) mod 64)%N
         (byte (128 + (c / 64) mod 64)%N (byte (128 + c mod 64)%N ""))).

Fixpoint encode (l : list N) : string :=
  match l with
  | [] => ""
  | c :: l' => utf8 c +:+ encode l'
  end.

(** The case data of the Unicode character database (version 14.0, the
    one CPython 3.11 carries): for every code point that has one, its full
    lower-case mapping; the ranges of the cased code points; the ranges of
    the case-ignorable ones.  All three are in increasing order. *)
Definition lower_table : list (N * list N) :=
  [(65, [97]); (66, [98]); (67, [99]); (68, [100]); (69, [101]); (70, [102]);
   (71, [103]); (72, [104]); (73, [105]); (74, [106]); (75, [107]);
   (76, [108]); (77, [109]); (78, [110]); (79, [111]); (80, [112]);
   (81, [113]); (82, [114]); (83, [115]); (84, [116]); (85, [117]);
   (86, [118]); (87, [119]); (88, [120]); (89, [121]); (90, [122]);
   (192, [224]); (193, [225]); (194, [226]); (195, [227]); (196, [228]);
   (197, [229]); (198, [230]); (199, [231]); (200, [232]); (201, [233]);
   (202, [234]); (203, [235]); (204, [236]); (205, [237]); (206, [238]);
   (207, [239]); (208, [240]); (209, [241]); (210, [242]); (211, [243]);
   (212, [244]); (213, [245]); (214, [246]); (216, [248]); (217, [249]);
   (218, [250]); (219, [251]); (220, [252]); (221, [253]); (222, [254]);
   (256, [257]); (258, [259]); (260, [261]); (262, [263]); (264, [265]);
   (266, [267]); (268, [269]); (270, [271]); (272, [273]); (274, [275]);
   (276, [277]); (278, [279]); (280, [281]); (282, [283]); (284, [285]);
   (286, [287]); (288, [289]); (290, [291]); (292, [293]); (294, [295]);
   (296, [297]); (298, [299]); (300, [301]); (302, [303]); (304, [105; 775]);
   (306, [307]); (308, [309]); (310, [311]); (313, [314]); (315, [316]);
   (317, [318]); (319, [320]); (321, [322]); (323, [324]); (325, [326]);
   (327, [328]); (330, [331]); (332, [333]); (334, [335]); (336, [337]);
   (338, [339]); (340, [341]); (342, [343]); (344, [345]); (346, [347]);
   (348, [349]); (350, [351]); (352, [353]); (354, [355]); (356, [357]);
   (358, [359]); (360, [361]); (362, [363]); (364, [365]); (366, [367]);
   (368, [369]); (370, [371]); (372, [373]); (374, [375]); (376, [255]);
   (377, [378]); (379, [380]); (381, [382]); (385, [595]); (386, [387]);
   (388, [389]); (390, [596]); (391, [392]); (393, [598]); (394, [599]);
   (395, [396]); (398, [477]); (399, [601]); (400, [603]); (401, [402]);
   (403, [608]); (404, [611]); (406, [617]); (407, [616]); (408, [409]);
   (412, [623]); (413, [626]); (415, [629]); (416, [417]); (418, [419]);
   (420, [421]); (422, [640]); (423, [424]); (425, [643]); (428, [429]);
   (430, [648]); (431, [432]); (433, [650]); (434, [651]); (435, [436]);
   (437, [438]); (439, [658]); (440, [441]); (444, [445]); (452, [454]);
   (453, [454]); (455, [457]); (456, [457]); (458, [460]); (459, [460]);
   (461, [462]); (463, [464]); (465, [466]); (467, [468]); (469, [470]);
   (471, [472]); (473, [474]); (475, [476]); (478, [479]); (480, [481]);
   (482, [483]); (484, [485]); (486, [487]); (488, [489]); (490, [491]);
   (492, [493]); (494, [495]); (497, [499]); (498, [499]); (500, [501]);
   (502, [405]); (503, [447]); (504, [505]); (506, [507]); (508, [509]);
   (510, [511]); (512, [513]); (514, [515]); (516, [517]); (518, [519]);
   (520, [521]); (522, [523]); (524, [525]); (526, [527]); (528, [529]);
   (530, [531]); (532, [533]); (534, [535]); (536, [537]); (538, [539]);
   (540, [541]); (542, [543]); (544, [414]); (546, [547]); (548, [549]);
   (550, [551]); (552, [553]); (554, [555]); (556, [557]); (558, [559]);
   (560, [561]); (562, [563]); (570, [11365]); (571, [572]); (573, [410]);
   (574, [11366]); (577, [578]); (579, [384]); (580, [649]); (581, [652]);
   (582, [583]); (584, [585]); (586, [587]); (588, [589]); (590, [591]);
   (880, [881]); (882, [883]); (886, [887]); (895, [1011]); (902, [940]);
   (904, [941]); (905, [942]); (906, [943]); (908, [972]); (910, [973]);
   (911, [974]); (913, [945]); (914, [946]); (915, [947]); (916, [948]);
   (917, [949]); (918, [950]); (919, [951]); (920, [952]); (921, [953]);
   (922, [954]); (923, [955]); (924, [956]); (925, [957]); (926, [958]);
   (927, [959]); (928, [960]); (929, [961]); (931, [963]); (932, [964]);
   (933, [965]); (934, [966]); (935, [967]); (936, [968]); (937, [969]);
   (938, [970]); (939, [971]); (975, [983]); (984, [985]); (986, [987]);
   (988, [989]); (990, [991]); (992, [993]); (994, [995]); (996, [997]);
   (998, [999]); (1000, [1001]); (1002, [1003]); (1004, [1005]);
   (1006, [1007]); (1012, [952]); (1015, [1016]); (1017, [1010]);
   (1018, [1019]); (1021, [891]); (1022, [892]); (1023, [893]);
   (1024, [1104]); (1025, [1105]); (1026, [1106]); (1027, [1107]);
   (1028, [1108]); (1029, [1109]); (1030, [1110]); (1031, [1111]);
   (1032, [1112]); (1033, [1113]); (1034, [1114]); (1035, [1115]);
   (1036, [1116]); (1037, [1117]); (1038, [1118]); (1039, [1119]);
   (1040, [1072]); (1041, [1073]); (1042, [1074]); (1043, [1075]);
   (1044, [1076]); (1045, [1077]); (1046, [1078]); (1047, [1079]);
   (1048, [1080]); (1049, [1081]); (1050, [1082]); (1051, [1083]);
   (1052, [1084]); (1053, [1085]); (1054, [1086]); (1055, [1087]);
   (1056, [1088]); (1057, [1089]); (1058, [1090]); (1059, [1091]);
   (1060, [1092]); (1061, [1093]); (1062, [1094]); (1063, [1095]);
   (1064, [1096]); (1065, [1097]); (1066, [1098]); (1067, [1099]);
   (1068, [1100]); (1069, [1101]); (1070, [1102]); (1071, [1103]);
   (1120, [1121]); (1122, [1123]); (1124, [1125]); (1126, [1127]);
   (1128, [1129]); (1130, [1131]); (1132, [1133]); (1134, [1135]);
   (1136, [1137]); (1138, [1139]); (1140, [1141]); (1142, [1143]);
   (1144, [1145]); (1146, [1147]); (1148, [1149]); (1150, [1151]);
   (1152, [1153]); (1162, [1163]); (1164, [1165]); (1166, [1167]);
   (1168, [1169]); (1170, [1171]); (1172, [1173]); (1174, [1175]);
   (1176, [1177]); (1178, [1179]); (1180, [1181]); (1182, [1183]);
   (1184, [1185]); (1186, [1187]); (1188, [1189]); (1190, [1191]);
   (1192, [1193]); (1194, [1195]); (1196, [1197]); (1198, [1199]);
   (1200, [1201]); (1202, [1203]); (1204, [1205]); (1206, [1207]);
   (1208, [1209]); (1210, [1211]); (1212, [1213]); (1214, [1215]);
   (1216, [1231]); (1217, [1218]); (1219, [1220]); (1221, [1222]);
   (1223, [1224]); (1225, [1226]); (1227, [1228]); (1229, [1230]);
   (1232, [1233]); (1234, [1235]); (1236, [1237]); (1238, [1239]);
   (1240, [1241]); (1242, [1243]); (1244, [1245]); (1246, [1247]);
   (1248, [1249]); (1250, [1251]); (1252, [1253]); (1254, [1255]);
   (1256, [1257]); (1258, [1259]); (1260, [1261]); (1262, [1263]);
   (1264, [1265]); (1266, [1267]); (1268, [1269]); (1270, [1271]);
   (1272, [1273]); (1274, [1275]); (1276, [1277]); (1278, [1279]);
   (1280, [1281]); (1282, [1283]); (1284, [1285]); (1286, [1287]);
   (1288, [1289]); (1290, [1291]); (1292, [1293]); (1294, [1295]);
   (1296, [1297]); (1298, [1299]); (1300, [1301]); (1302, [1303]);
   (1304, [1305]); (1306, [1307]); (1308, [1309]); (1310, [1311]);
   (1312, [1313]); (1314, [1315]); (1316, [1317]); (1318, [1319]);
   (1320, [1321]); (1322, [1323]); (1324, [1325]); (1326, [1327]);
   (1329, [1377]); (1330, [1378]); (1331, [1379]); (1332, [1380]);
   (1333, [1381]); (1334, [1382]); (1335, [1383]); (1336, [1384]);
   (1337, [1385]); (1338, [1386]); (1339, [1387]); (1340, [1388]);
   (1341, [1389]); (1342, [1390]); (1343, [1391]); (1344, [1392]);
   (1345, [1393]); (1346, [1394]); (1347, [1395]); (1348, [1396]);
   (1349, [1397]); (1350, [1398]); (1351, [1399]); (1352, [1400]);
   (1353, [1401]); (1354, [1402]); (1355, [1403]); (1356, [1404]);
   (1357, [1405]); (1358, [1406]); (1359, [1407]); (1360, [1408]);
   (1361, [1409]); (1362, [1410]); (1363, [1411]); (1364, [1412]);
   (1365, [1413]); (1366, [1414]); (4256, [11520]); (4257, [11521]);
   (4258, [11522]); (4259, [11523]); (4260, [11524]); (4261, [11525]);
   (4262, [11526]); (4263, [11527]); (4264, [11528]); (4265, [11529]);
   (4266, [11530]); (4267, [11531]); (4268, [11532]); (4269, [11533]);
   (4270, [11534]); (4271, [11535]); (4272, [11536]); (4273, [11537]);
   (4274, [11538]); (4275, [11539]); (4276, [11540]); (4277, [11541]);
   (4278, [11542]); (4279, [11543]); (4280, [11544]); (4281, [11545]);
   (4282, [11546]); (4283, [11547]); (4284, [11548]); (4285, [11549]);
   (4286, [11550]); (4287, [11551]); (4288, [11552]); (4289, [11553]);
   (4290, [11554]); (4291, [11555]); (4292, [11556]); (4293, [11557]);
   (4295, [11559]); (4301, [11565]); (5024, [43888]); (5025, [43889]);
   (5026, [43890]); (5027, [43891]); (5028, [43892]); (5029, [43893]);
   (5030, [43894]); (5031, [43895]); (5032, [43896]); (5033, [43897]);
   (5034, [43898]); (5035, [43899]); (5036, [43900]); (5037, [43901]);
   (5038, [43902]); (5039, [43903]); (5040, [43904]); (5041, [43905]);
   (5042, [43906]); (5043, [43907]); (5044, [43908]); (5045, [43909]);
   (5046, [43910]); (5047, [43911]); (5048, [43912]); (5049, [43913]);
   (5050, [43914]); (5051, [43915]); (5052, [43916]); (5053, [43917]);
   (5054, [43918]); (5055, [43919]); (5056, [43920]); (5057, [43921]);
   (5058, [43922]); (5059, [43923]); (5060, [43924]); (5061, [43925]);
   (5062, [43926]); (5063, [43927]); (5064, [43928]); (5065, [43929]);
   (5066, [43930]); (5067, [43931]); (5068, [43932]); (5069, [43933]);
   (5070, [43934]); (5071, [43935]); (5072, [43936]); (5073, [43937]);
   (5074, [43938]); (5075, [43939]); (5076, [43940]); (5077, [43941]);
   (5078, [43942]); (5079, [43943]); (5080, [43944]); (5081, [43945]);
   (5082, [43946]); (5083, [43947]); (5084, [43948]); (5085, [43949]);
   (5086, [43950]); (5087, [43951]); (5088, [43952]); (5089, [43953]);
   (5090, [43954]); (5091, [43955]); (5092, [43956]); (5093, [43957]);
   (5094, [43958]); (5095, [43959]); (5096, [43960]); (5097, [43961]);
   (5098, [43962]); (5099, [43963]); (5100, [43964]); (5101, [43965]);
   (5102, [43966]); (5103, [43967]); (5104, [5112]); (5105, [5113]);
   (5106, [5114]); (5107, [5115]); (5108, [5116]); (5109, [5117]);
   (7312, [4304]); (7313, [4305]); (7314, [4306]); (7315, [4307]);
   (7316, [4308]); (7317, [4309]); (7318, [4310]); (7319, [4311]);
   (7320, [4312]); (7321, [4313]); (7322, [4314]); (7323, [4315]);
   (7324, [4316]); (7325, [4317]); (7326, [4318]); (7327, [4319]);
   (7328, [4320]); (7329, [4321]); (7330, [4322]); (7331, [4323]);
   (7332, [4324]); (7333, [4325]); (7334, [4326]); (7335, [4327]);
   (7336, [4328]); (7337, [4329]); (7338, [4330]); (7339, [4331]);
   (7340, [4332]); (7341, [4333]); (7342, [4334]); (7343, [4335]);
   (7344, [4336]); (7345, [4337]); (7346, [4338]); (7347, [4339]);
   (7348, [4340]); (7349, [4341]); (7350, [4342]); (7351, [4343]);
   (7352, [4344]); (7353, [4345]); (7354, [4346]); (7357, [4349]);
   (7358, [4350]); (7359, [4351]); (7680, [7681]); (7682, [7683]);
   (7684, [7685]); (7686, [7687]); (7688, [7689]); (7690, [7691]);
   (7692, [7693]); (7694, [7695]); (7696, [7697]); (7698, [7699]);
   (7700, [7701]); (7702, [7703]); (7704, [7705]); (7706, [7707]);
   (7708, [7709]); (7710, [7711]); (7712, [7713]); (7714, [7715]);
   (7716, [7717]); (7718, [7719]); (7720, [7721]); (7722, [7723]);
   (7724, [7725]); (7726, [7727]); (7728, [7729]); (7730, [7731]);
   (7732, [7733]); (7734, [7735]); (7736, [7737]); (7738, [7739]);
   (7740, [7741]); (7742, [7743]); (7744, [7745]); (7746, [7747]);
   (7748, [7749]); (7750, [7751]); (7752, [7753]); (7754, [7755]);
   (7756, [7757]); (7758, [7759]); (7760, [7761]); (7762, [7763]);
   (7764, [7765]); (7766, [7767]); (7768, [7769]); (7770, [7771]);
   (7772, [7773]); (7774, [7775]); (7776, [7777]); (7778, [7779]);
   (7780, [7781]); (7782, [7783]); (7784, [7785]); (7786, [7787]);
   (7788, [7789]); (7790, [7791]); (7792, [7793]); (7794, [7795]);
   (7796, [7797]); (7798, [7799]); (7800, [7801]); (7802, [7803]);
   (7804, [7805]); (7806, [7807]); (7808, [7809]); (7810, [7811]);
   (7812, [7813]); (7814, [7815]); (7816, [7817]); (7818, [7819]);
   (7820, [7821]); (7822, [7823]); (7824, [7825]); (7826, [7827]);
   (7828, [7829]); (7838, [223]); (7840, [7841]); (7842, [7843]);
   (7844, [7845]); (7846, [7847]); (7848, [7849]); (7850, [7851]);
   (7852, [7853]); (7854, [7855]); (7856, [7857]); (7858, [7859]);
   (7860, [7861]); (7862, [7863]); (7864, [7865]); (7866, [7867]);
   (7868, [7869]); (7870, [7871]); (7872, [7873]); (7874, [7875]);
   (7876, [7877]); (7878, [7879]); (7880, [7881]); (7882, [7883]);
   (7884, [7885]); (7886, [7887]); (7888, [7889]); (7890, [7891]);
   (7892, [7893]); (7894, [7895]); (7896, [7897]); (7898, [7899]);
   (7900, [7901]); (7902, [7903]); (7904, [7905]); (7906, [7907]);
   (7908, [7909]); (7910, [7911]); (7912, [7913]); (7914, [7915]);
   (7916, [7917]); (7918, [7919]); (7920, [7921]); (7922, [7923]);
   (7924, [7925]); (7926, [7927]); (7928, [7929]); (7930, [7931]);
   (7932, [7933]); (7934, [7935]); (7944, [7936]); (7945, [7937]);
   (7946, [7938]); (7947, [7939]); (7948, [7940]); (7949, [7941]);
   (7950, [7942]); (7951, [7943]); (7960, [7952]); (7961, [7953]);
   (7962, [7954]); (7963, [7955]); (7964, [7956]); (7965, [7957]);
   (7976, [7968]); (7977, [7969]); (7978, [7970]); (7979, [7971]);
   (7980, [7972]); (7981, [7973]); (7982, [7974]); (7983, [7975]);
   (7992, [7984]); (7993, [7985]); (7994, [7986]); (7995, [7987]);
   (7996, [7988]); (7997, [7989]); (7998, [7990]); (7999, [7991]);
   (8008, [8000]); (8009, [8001]); (8010, [8002]); (8011, [8003]);
   (8012, [8004]); (8013, [8005]); (8025, [8017]); (8027, [8019]);
   (8029, [8021]); (8031, [8023]); (8040, [8032]); (8041, [8033]);
   (8042, [8034]); (8043, [8035]); (8044, [8036]); (8045, [8037]);
   (8046, [8038]); (8047, [8039]); (8072, [8064]); (8073, [8065]);
   (8074, [8066]); (8075, [8067]); (8076, [8068]); (8077, [8069]);
   (8078, [8070]); (8079, [8071]); (8088, [8080]); (8089, [8081]);
   (8090, [8082]); (8091, [8083]); (8092, [8084]); (8093, [8085]);
   (8094, [8086]); (8095, [8087]); (8104, [8096]); (8105, [8097]);
   (8106, [8098]); (8107, [8099]); (8108, [8100]); (8109, [8101]);
   (8110, [8102]); (8111, [8103]); (8120, [8112]); (8121, [8113]);
   (8122, [8048]); (8123, [8049]); (8124, [8115]); (8136, [8050]);
   (8137, [8051]); (8138, [8052]); (8139, [8053]); (8140, [8131]);
   (8152, [8144]); (8153, [8145]); (8154, [8054]); (8155, [8055]);
   (8168, [8160]); (8169, [8161]); (8170, [8058]); (8171, [8059]);
   (8172, [8165]); (8184, [8056]); (8185, [8057]); (8186, [8060]);
   (8187, [8061]); (8188, [8179]); (8486, [969]); (8490, [107]);
   (8491, [229]); (8498, [8526]); (8544, [8560]); (8545, [8561]);
   (8546, [8562]); (8547, [8563]); (8548, [8564]); (8549, [8565]);
   (8550, [8566]); (8551, [8567]); (8552, [8568]); (8553, [8569]);
   (8554, [8570]); (8555, [8571]); (8556, [8572]); (8557, [8573]);
   (8558, [8574]); (8559, [8575]); (8579, [8580]); (9398, [9424]);
   (9399, [9425]); (9400, [9426]); (9401, [9427]); (9402, [9428]);
   (9403, [9429]); (9404, [9430]); (9405, [9431]); (9406, [9432]);
   (9407, [9433]); (9408, [9434]); (9409, [9435]); (9410, [9436]);
   (9411, [9437]); (9412, [9438]); (9413, [9439]); (9414, [9440]);
   (9415, [9441]); (9416, [9442]); (9417, [9443]); (9418, [9444]);
   (9419, [9445]); (9420, [9446]); (9421, [9447]); (9422, [9448]);
   (9423, [9449]); (11264, [11312]); (11265, [11313]); (11266, [11314]);
   (11267, [11315]); (11268, [11316]); (11269, [11317]); (11270, [11318]);
   (11271, [11319]); (11272, [11320]); (11273, [11321]); (11274, [11322]);
   (11275, [11323]); (11276, [11324]); (11277, [11325]); (11278, [11326]);
   (11279, [11327]); (11280, [11328]); (11281, [11329]); (11282, [11330]);
   (11283, [11331]); (11284, [11332]); (11285, [11333]); (11286, [11334]);
   (11287, [11335]); (11288, [11336]); (11289, [11337]); (11290, [11338]);
   (11291, [11339]); (11292, [11340]); (11293, [11341]); (11294, [11342]);
   (11295, [11343]); (11296, [11344]); (11297, [11345]); (11298, [11346]);
   (11299, [11347]); (11300, [11348]); (11301, [11349]); (11302, [11350]);
   (11303, [11351]); (11304, [11352]); (11305, [11353]); (11306, [11354]);
   (11307, [11355]); (11308, [11356]); (11309, [11357]); (11310, [11358]);
   (11311, [11359]); (11360, [11361]); (11362, [619]); (11363, [7549]);
   (11364, [637]); (11367, [11368]); (11369, [11370]); (11371, [11372]);
   (11373, [593]); (11374, [625]); (11375, [592]); (11376, [594]);
   (11378, [11379]); (11381, [11382]); (11390, [575]); (11391, [576]);
   (11392, [11393]); (11394, [11395]); (11396, [11397]); (11398, [11399]);
   (11400, [11401]); (11402, [11403]); (11404, [11405]); (11406, [11407]);
   (11408, [11409]); (11410, [11411]); (11412, [11413]); (11414, [11415]);
   (11416, [11417]); (11418, [11419]); (11420, [11421]); (11422, [11423]);
   (11424, [11425]); (11426, [11427]); (11428, [11429]); (11430, [11431]);
   (11432, [11433]); (11434, [11435]); (11436, [11437]); (11438, [11439]);
   (11440, [11441]); (11442, [11443]); (11444, [11445]); (11446, [11447]);
   (11448, [11449]); (11450, [11451]); (11452, [11453]); (11454, [11455]);
   (11456, [11457]); (11458, [11459]); (11460, [11461]); (11462, [11463]);
   (11464, [11465]); (11466, [11467]); (11468, [11469]); (11470, [11471]);
   (11472, [11473]); (11474, [11475]); (11476, [11477]); (11478, [11479]);
   (11480, [11481]); (11482, [11483]); (11484, [11485]); (11486, [11487]);
   (11488, [11489]); (11490, [11491]); (11499, [11500]); (11501, [11502]);
   (11506, [11507]); (42560, [42561]); (42562, [42563]); (42564, [42565]);
   (42566, [42567]); (42568, [42569]); (42570, [42571]); (42572, [42573]);
   (42574, [42575]); (42576, [42577]); (42578, [42579]); (42580, [42581]);
   (42582, [42583]); (42584, [42585]); (42586, [42587]); (42588, [42589]);
   (42590, [42591]); (42592, [42593]); (42594, [42595]); (42596, [42597]);
   (42598, [42599]); (42600, [42601]); (42602, [42603]); (42604, [42605]);
   (42624, [42625]); (42626, [42627]); (42628, [42629]); (42630, [42631]);
   (42632, [42633]); (42634, [42635]); (42636, [42637]); (42638, [42639]);
   (42640, [42641]); (42642, [42643]); (42644, [42645]); (42646, [42647]);
   (42648, [42649]); (42650, [42651]); (42786, [42787]); (42788, [42789]);
   (42790, [42791]); (42792, [42793]); (42794, [42795]); (42796, [42797]);
   (42798, [42799]); (42802, [42803]); (42804, [42805]); (42806, [42807]);
   (42808, [42809]); (42810, [42811]); (42812, [42813]); (42814, [42815]);
   (42816, [42817]); (42818, [42819]); (42820, [42821]); (42822, [42823]);
   (42824, [42825]); (42826, [42827]); (42828, [42829]); (42830, [42831]);
   (42832, [42833]); (42834, [42835]); (42836, [42837]); (42838, [42839]);
   (42840, [42841]); (42842, [42843]); (42844, [42845]); (42846, [42847]);
   (42848, [42849]); (42850, [42851]); (42852, [42853]); (42854, [42855]);
   (42856, [42857]); (42858, [42859]); (42860, [42861]); (42862, [42863]);
   (42873, [42874]); (42875, [42876]); (42877, [7545]); (42878, [42879]);
   (42880, [42881]); (42882, [42883]); (42884, [42885]); (42886, [42887]);
   (42891, [42892]); (42893, [613]); (42896, [42897]); (42898, [42899]);
   (42902, [42903]); (42904, [42905]); (42906, [42907]); (42908, [42909]);
   (42910, [42911]); (42912, [42913]); (42914, [42915]); (42916, [42917]);
   (42918, [42919]); (42920, [42921]); (42922, [614]); (42923, [604]);
   (42924, [609]); (42925, [620]); (42926, [618]); (42928, [670]);
   (42929, [647]); (42930, [669]); (42931, [43859]); (42932, [42933]);
   (42934, [42935]); (42936, [42937]); (42938, [42939]); (42940, [42941]);
   (42942, [42943]); (42944, [42945]); (42946, [42947]); (42948, [42900]);
   (42949, [642]); (42950, [7566]); (42951, [42952]); (42953, [42954]);
   (42960, [42961]); (42966, [42967]); (42968, [42969]); (42997, [42998]);
   (65313, [65345]); (65314, [65346]); (65315, [65347]); (65316, [65348]);
   (65317, [65349]); (65318, [65350]); (65319, [65351]); (65320, [65352]);
   (65321, [65353]); (65322, [65354]); (65323, [65355]); (65324, [65356]);
   (65325, [65357]); (65326, [65358]); (65327, [65359]); (65328, [65360]);
   (65329, [65361]); (65330, [65362]); (65331, [65363]); (65332, [65364]);
   (65333, [65365]); (65334, [65366]); (65335, [65367]); (65336, [65368]);
   (65337, [65369]); (65338, [65370]); (66560, [66600]); (66561, [66601]);
   (66562, [66602]); (66563, [66603]); (66564, [66604]); (66565, [66605]);
   (66566, [66606]); (66567, [66607]); (66568, [66608]); (66569, [66609]);
   (66570, [66610]); (66571, [66611]); (66572, [66612]); (66573, [66613]);
   (66574, [66614]); (66575, [66615]); (66576, [66616]); (66577, [66617]);
   (66578, [66618]); (66579, [66619]); (66580, [66620]); (66581, [66621]);
   (66582, [66622]); (66583, [66623]); (66584, [66624]); (66585, [66625]);
   (66586, [66626]); (66587, [66627]); (66588, [66628]); (66589, [66629]);
   (66590, [66630]); (66591, [66631]); (66592, [66632]); (66593, [66633]);
   (66594, [66634]); (66595, [66635]); (66596, [66636]); (66597, [66637]);
   (66598, [66638]); (66599, [66639]); (66736, [66776]); (66737, [66777]);
   (66738, [66778]); (66739, [66779]); (66740, [66780]); (66741, [66781]);
   (66742, [66782]); (66743, [66783]); (66744, [66784]); (66745, [66785]);
   (66746, [66786]); (66747, [66787]); (66748, [66788]); (66749, [66789]);
   (66750, [66790]); (66751, [66791]); (66752, [66792]); (66753, [66793]);
   (66754, [66794]); (66755, [66795]); (66756, [66796]); (66757, [66797]);
   (66758, [66798]); (66759, [66799]); (66760, [66800]); (66761, [66801]);
   (66762, [66802]); (66763, [66803]); (66764, [66804]); (66765, [66805]);
   (66766, [66806]); (66767, [66807]); (66768, [66808]); (66769, [66809]);
   (66770, [66810]); (66771, [66811]); (66928, [66967]); (66929, [66968]);
   (66930, [66969]); (66931, [66970]); (66932, [66971]); (66933, [66972]);
   (66934, [66973]); (66935, [66974]); (66936, [66975]); (66937, [66976]);
   (66938, [66977]); (66940, [66979]); (66941, [66980]); (66942, [66981]);
   (66943, [66982]); (66944, [66983]); (66945, [66984]); (66946, [66985]);
   (66947, [66986]); (66948, [66987]); (66949, [66988]); (66950, [66989]);
   (66951, [66990]); (66952, [66991]); (66953, [66992]); (66954, [66993]);
   (66956, [66995]); (66957, [66996]); (66958, [66997]); (66959, [66998]);
   (66960, [66999]); (66961, [67000]); (66962, [67001]); (66964, [67003]);
   (66965, [67004]); (68736, [68800]); (68737, [68801]); (68738, [68802]);
   (68739, [68803]); (68740, [68804]); (68741, [68805]); (68742, [68806]);
   (68743, [68807]); (68744, [68808]); (68745, [68809]); (68746, [68810]);
   (68747, [68811]); (68748, [68812]); (68749, [68813]); (68750, [68814]);
   (68751, [68815]); (68752, [68816]); (68753, [68817]); (68754, [68818]);
   (68755, [68819]); (68756, [68820]); (68757, [68821]); (68758, [68822]);
   (68759, [68823]); (68760, [68824]); (68761, [68825]); (68762, [68826]);
   (68763, [68827]); (68764, [68828]); (68765, [68829]); (68766, [68830]);
   (68767, [68831]); (68768, [68832]); (68769, [68833]); (68770, [68834]);
   (68771, [68835]); (68772, [68836]); (68773, [68837]); (68774, [68838]);
   (68775, [68839]); (68776, [68840]); (68777, [68841]); (68778, [68842]);
   (68779, [68843]); (68780, [68844]); (68781, [68845]); (68782, [68846]);
   (68783, [68847]); (68784, [68848]); (68785, [68849]); (68786, [68850]);
   (71840, [71872]); (71841, [71873]); (71842, [71874]); (71843, [71875]);
   (71844, [71876]); (71845, [71877]); (71846, [71878]); (71847, [71879]);
   (71848, [71880]); (71849, [71881]); (71850, [71882]); (71851, [71883]);
   (71852, [71884]); (71853, [71885]); (71854, [71886]); (71855, [71887]);
   (71856, [71888]); (71857, [71889]); (71858, [71890]); (71859, [71891]);
   (71860, [71892]); (71861, [71893]); (71862, [71894]); (71863, [71895]);
   (71864, [71896]); (71865, [71897]); (71866, [71898]); (71867, [71899]);
   (71868, [71900]); (71869, [71901]); (71870, [71902]); (71871, [71903]);
   (93760, [93792]); (93761, [93793]); (93762, [93794]); (93763, [93795]);
   (93764, [93796]); (93765, [93797]); (93766, [93798]); (93767, [93799]);
   (93768, [93800]); (93769, [93801]); (93770, [93802]); (93771, [93803]);
   (93772, [93804]); (93773, [93805]); (93774, [93806]); (93775, [93807]);
   (93776, [93808]); (93777, [93809]); (93778, [93810]); (93779, [93811]);
   (93780, [93812]); (93781, [93813]); (93782, [93814]); (93783, [93815]);
   (93784, [93816]); (93785, [93817]); (93786, [93818]); (93787, [93819]);
   (93788, [93820]); (93789, [93821]); (93790, [93822]); (93791, [93823]);
   (125184, [125218]); (125185, [125219]); (125186, [125220]);
   (125187, [125221]); (125188, [125222]); (125189, [125223]);
   (125190, [125224]); (125191, [125225]); (125192, [125226]);
   (125193, [125227]); (125194, [125228]); (125195, [125229]);
   (125196, [125230]); (125197, [125231]); (125198, [125232]);
   (125199, [125233]); (125200, [125234]); (125201, [125235]);
   (125202, [125236]); (125203, [125237]); (125204, [125238]);
   (125205, [125239]); (125206, [125240]); (125207, [125241]);
   (125208, [125242]); (125209, [125243]); (125210, [125244]);
   (125211, [125245]); (125212, [125246]); (125213, [125247]);
   (125214, [125248]); (125215, [125249]); (125216, [125250]);
   (125217, [125251])]%N.

Definition cased_ranges : list (N * N) :=
  [(65, 90); (97, 122); (170, 170); (181, 181); (186, 186); (192, 214);
   (216, 246); (248, 442); (444, 447); (452, 659); (661, 696); (704, 705);
   (736, 740); (837, 837); (880, 883); (886, 887); (890, 893); (895, 895);
   (902, 902); (904, 906); (908, 908); (910, 929); (931, 1013); (1015, 1153);
   (1162, 1327); (1329, 1366); (1376, 1416); (4256, 4293); (4295, 4295);
   (4301, 4301); (4304, 4346); (4349, 4351); (5024, 5109); (5112, 5117);
   (7296, 7304); (7312, 7354); (7357, 7359); (7424, 7615); (7680, 7957);
   (7960, 7965); (7968, 8005); (8008, 8013); (8016, 8023); (8025, 8025);
   (8027, 8027); (8029, 8029); (8031, 8061); (8064, 8116); (8118, 8124);
   (8126, 8126); (8130, 8132); (8134, 8140); (8144, 8147); (8150, 8155);
   (8160, 8172); (8178, 8180); (8182, 8188); (8305, 8305); (8319, 8319);
   (8336, 8348); (8450, 8450); (8455, 8455); (8458, 8467); (8469, 8469);
   (8473, 8477); (8484, 8484); (8486, 8486); (8488, 8488); (8490, 8493);
   (8495, 8500); (8505, 8505); (8508, 8511); (8517, 8521); (8526, 8526);
   (8544, 8575); (8579, 8580); (9398, 9449); (11264, 11492); (11499, 11502);
   (11506, 11507); (11520, 11557); (11559, 11559); (11565, 11565);
   (42560, 42605); (42624, 42653); (42786, 42887); (42891, 42894);
   (42896, 42954); (42960, 42961); (42963, 42963); (42965, 42969);
   (42997, 42998); (43000, 43002); (43824, 43866); (43868, 43880);
   (43888, 43967); (64256, 64262); (64275, 64279); (65313, 65338);
   (65345, 65370); (66560, 66639); (66736, 66771); (66776, 66811);
   (66928, 66938); (66940, 66954); (66956, 66962); (66964, 66965);
   (66967, 66977); (66979, 66993); (66995, 67001); (67003, 67004);
   (67456, 67456); (67459, 67461); (67463, 67504); (67506, 67514);
   (68736, 68786); (68800, 68850); (71840, 71903); (93760, 93823);
   (119808, 119892); (119894, 119964); (119966, 119967); (119970, 119970);
   (119973, 119974); (119977, 119980); (119982, 119993); (119995, 119995);
   (119997, 120003); (120005, 120069); (120071, 120074); (120077, 120084);
   (120086, 120092); (120094, 120121); (120123, 120126); (120128, 120132);
   (120134, 120134); (120138, 120144); (120146, 120485); (120488, 120512);
   (120514, 120538); (120540, 120570); (120572, 120596); (120598, 120628);
   (120630, 120654); (120656, 120686); (120688, 120712); (120714, 120744);
   (120746, 120770); (120772, 120779); (122624, 122633); (122635, 122654);
   (125184, 125251); (127280, 127305); (127312, 127337); (127344, 127369)]%N.

Definition case_ignorable_ranges : list (N * N) :=
  [(39, 39); (46, 46); (58, 58); (94, 94); (96, 96); (168, 168); (173, 173);
   (175, 175); (180, 180); (183, 184); (688, 879); (884, 885); (890, 890);
   (900, 901); (903, 903); (1155, 1161); (1369, 1369); (1375, 1375);
   (1425, 1469); (1471, 1471); (1473, 1474); (1476, 1477); (1479, 1479);
   (1524, 1524); (1536, 1541); (1552, 1562); (1564, 1564); (1600, 1600);
   (1611, 1631); (1648, 1648); (1750, 1757); (1759, 1768); (1770, 1773);
   (1807, 1807); (1809, 1809); (1840, 1866); (1958, 1968); (2027, 2037);
   (2042, 2042); (2045, 2045); (2070, 2093); (2137, 2139); (2184, 2184);
   (2192, 2193); (2200, 2207); (2249, 2306); (2362, 2362); (2364, 2364);
   (2369, 2376); (2381, 2381); (2385, 2391); (2402, 2403); (2417, 2417);
   (2433, 2433); (2492, 2492); (2497, 2500); (2509, 2509); (2530, 2531);
   (2558, 2558); (2561, 2562); (2620, 2620); (2625, 2626); (2631, 2632);
   (2635, 2637); (2641, 2641); (2672, 2673); (2677, 2677); (2689, 2690);
   (2748, 2748); (2753, 2757); (2759, 2760); (2765, 2765); (2786, 2787);
   (2810, 2815); (2817, 2817); (2876, 2876); (2879, 2879); (2881, 2884);
   (2893, 2893); (2901, 2902); (2914, 2915); (2946, 2946); (3008, 3008);
   (3021, 3021); (3072, 3072); (3076, 3076); (3132, 3132); (3134, 3136);
   (3142, 3144); (3146, 3149); (3157, 3158); (3170, 3171); (3201, 3201);
   (3260, 3260); (3263, 3263); (3270, 3270); (3276, 3277); (3298, 3299);
   (3328, 3329); (3387, 3388); (3393, 3396); (3405, 3405); (3426, 3427);
   (3457, 3457); (3530, 3530); (3538, 3540); (3542, 3542); (3633, 3633);
   (3636, 3642); (3654, 3662); (3761, 3761); (3764, 3772); (3782, 3782);
   (3784, 3789); (3864, 3865); (3893, 3893); (3895, 3895); (3897, 3897);
   (3953, 3966); (3968, 3972); (3974, 3975); (3981, 3991); (3993, 4028);
   (4038, 4038); (4141, 4144); (4146, 4151); (4153, 4154); (4157, 4158);
   (4184, 4185); (4190, 4192); (4209, 4212); (4226, 4226); (4229, 4230);
   (4237, 4237); (4253, 4253); (4348, 4348); (4957, 4959); (5906, 5908);
   (5938, 5939); (5970, 5971); (6002, 6003); (6068, 6069); (6071, 6077);
   (6086, 6086); (6089, 6099); (6103, 6103); (6109, 6109); (6155, 6159);
   (6211, 6211); (6277, 6278); (6313, 6313); (6432, 6434); (6439, 6440);
   (6450, 6450); (6457, 6459); (6679, 6680); (6683, 6683); (6742, 6742);
   (6744, 6750); (6752, 6752); (6754, 6754); (6757, 6764); (6771, 6780);
   (6783, 6783); (6823, 6823); (6832, 6862); (6912, 6915); (6964, 6964);
   (6966, 6970); (6972, 6972); (6978, 6978); (7019, 7027); (7040, 7041);
   (7074, 7077); (7080, 7081); (7083, 7085); (7142, 7142); (7144, 7145);
   (7149, 7149); (7151, 7153); (7212, 7219); (7222, 7223); (7288, 7293);
   (7376, 7378); (7380, 7392); (7394, 7400); (7405, 7405); (7412, 7412);
   (7416, 7417); (7468, 7530); (7544, 7544); (7579, 7679); (8125, 8125);
   (8127, 8129); (8141, 8143); (8157, 8159); (8173, 8175); (8189, 8190);
   (8203, 8207); (8216, 8217); (8228, 8228); (8231, 8231); (8234, 8238);
   (8288, 8292); (8294, 8303); (8305, 8305); (8319, 8319); (8336, 8348);
   (8400, 8432); (11388, 11389); (11503, 11505); (11631, 11631);
   (11647, 11647); (11744, 11775); (11823, 11823); (12293, 12293);
   (12330, 12333); (12337, 12341); (12347, 12347); (12441, 12446);
   (12540, 12542); (40981, 40981); (42232, 42237); (42508, 42508);
   (42607, 42610); (42612, 42621); (42623, 42623); (42652, 42655);
   (42736, 42737); (42752, 42785); (42864, 42864); (42888, 42890);
   (42994, 42996); (43000, 43001); (43010, 43010); (43014, 43014);
   (43019, 43019); (43045, 43046); (43052, 43052); (43204, 43205);
   (43232, 43249); (43263, 43263); (43302, 43309); (43335, 43345);
   (43392, 43394); (43443, 43443); (43446, 43449); (43452, 43453);
   (43471, 43471); (43493, 43494); (43561, 43566); (43569, 43570);
   (43573, 43574); (43587, 43587); (43596, 43596); (43632, 43632);
   (43644, 43644); (43696, 43696); (43698, 43700); (43703, 43704);
   (43710, 43711); (43713, 43713); (43741, 43741); (43756, 43757);
   (43763, 43764); (43766, 43766); (43867, 43871); (43881, 43883);
   (44005, 44005); (44008, 44008); (44013, 44013); (64286, 64286);
   (64434, 64450); (65024, 65039); (65043, 65043); (65056, 65071);
   (65106, 65106); (65109, 65109); (65279, 65279); (65287, 65287);
   (65294, 65294); (65306, 65306); (65342, 65342); (65344, 65344);
   (65392, 65392); (65438, 65439); (65507, 65507); (65529, 65531);
   (66045, 66045); (66272, 66272); (66422, 66426); (67456, 67461);
   (67463, 67504); (67506, 67514); (68097, 68099); (68101, 68102);
   (68108, 68111); (68152, 68154); (68159, 68159); (68325, 68326);
   (68900, 68903); (69291, 69292); (69446, 69456); (69506, 69509);
   (69633, 69633); (69688, 69702); (69744, 69744); (69747, 69748);
   (69759, 69761); (69811, 69814); (69817, 69818); (69821, 69821);
   (69826, 69826); (69837, 69837); (69888, 69890); (69927, 69931);
   (69933, 69940); (70003, 70003); (70016, 70017); (70070, 70078);
   (70089, 70092); (70095, 70095); (70191, 70193); (70196, 70196);
   (70198, 70199); (70206, 70206); (70367, 70367); (70371, 70378);
   (70400, 70401); (70459, 70460); (70464, 70464); (70502, 70508);
   (70512, 70516); (70712, 70719); (70722, 70724); (70726, 70726);
   (70750, 70750); (70835, 70840); (70842, 70842); (70847, 70848);
   (70850, 70851); (71090, 71093); (71100, 71101); (71103, 71104);
   (71132, 71133); (71219, 71226); (71229, 71229); (71231, 71232);
   (71339, 71339); (71341, 71341); (71344, 71349); (71351, 71351);
   (71453, 71455); (71458, 71461); (71463, 71467); (71727, 71735);
   (71737, 71738); (71995, 71996); (71998, 71998); (72003, 72003);
   (72148, 72151); (72154, 72155); (72160, 72160); (72193, 72202);
   (72243, 72248); (72251, 72254); (72263, 72263); (72273, 72278);
   (72281, 72283); (72330, 72342); (72344, 72345); (72752, 72758);
   (72760, 72765); (72767, 72767); (72850, 72871); (72874, 72880);
   (72882, 72883); (72885, 72886); (73009, 73014); (73018, 73018);
   (73020, 73021); (73023, 73029); (73031, 73031); (73104, 73105);
   (73109, 73109); (73111, 73111); (73459, 73460); (78896, 78904);
   (92912, 92916); (92976, 92982); (92992, 92995); (94031, 94031);
   (94095, 94111); (94176, 94177); (94179, 94180); (110576, 110579);
   (110581, 110587); (110589, 110590); (113821, 113822); (113824, 113827);
   (118528, 118573); (118576, 118598); (119143, 119145); (119155, 119170);
   (119173, 119179); (119210, 119213); (119362, 119364); (121344, 121398);
   (121403, 121452); (121461, 121461); (121476, 121476); (121499, 121503);
   (121505, 121519); (122880, 122886); (122888, 122904); (122907, 122913);
   (122915, 122916); (122918, 122922); (123184, 123197); (123566, 123566);
   (123628, 123631); (125136, 125142); (125252, 125259); (127995, 127999);
   (917505, 917505); (917536, 917631); (917760, 917999)]%N.

(** The full lower-case mapping of one code point; a code point without
    an entry is its own. *)
Fixpoint lookup_lower (c : N) (table : list (N * list N)) : list N :=
  match table with
  | [] => [c]
  | (c', mapped) :: table' =>
    if (c <? c')%N then [c]
    else if (c =? c')%N then mapped
    else lookup_lower c table'
  end.

Definition to_lower_full (c : N) : list N := lookup_lower c lower_table.

Fixpoint in_ranges (c : N) (ranges : list (N * N)) : bool :=
  match ranges with
  | [] => false
  | (lo, hi) :: ranges' =>
    if (c <? lo)%N then false
    else if (c <=? hi)%N then true
    else in_ranges c ranges'
  end.

Definition is_cased (c : N) : bool := in_ranges c cased_ranges.
Definition is_case_ignorable (c : N) : bool := in_ranges c case_ignorable_ranges.

(** A capital sigma becomes the final small sigma (U+03C2) when the
    nearest code point before it that is not case-ignorable is cased and
    the nearest such code point after it is not, or there is none after
    it; the small sigma (U+03C3) otherwise.  [before] is nearest first. *)
Definition handle_capital_sigma (before after : list N) : N :=
  let solid (c : N) := negb (is_case_ignorable c) in
  let final_sigma :=
    match List.find solid before with
    | None => false
    | Some c =>
      is_cased c &&
      match List.find solid after with
      | None => true
      | Some c' => negb (is_cased c')
      end
    end in
  if final_sigma then 962%N else 963%N.

Fixpoint do_lower (before l : list N) : list N :=
  match l with
  | [] => []
  | c :: after =>
    (if (c =? 931)%N then [handle_capital_sigma before after]
     else to_lower_full c) ++ do_lower (c :: before) after
  end.

(** [s.lower()] *)
Definition lower (s : string) : string := encode (do_lower [] (code_points s)).

(** [s.startswith(a)], the test the substring search repeats at every
    position. *)
Fixpoint starts_with (a s : string) : bool :=
  match a, s with
  | EmptyString, _ => true
  | String _ _, EmptyString => false
  | String x a', String y s' => Ascii.eqb x y && starts_with a' s'
  end.

(** [a in s] for two strings: [a] occurs in [s] at some position. *)
Fixpoint str_in (a s : string) : bool :=
  starts_with a s ||
  match s with
  | EmptyString => false
  | String _ s' => str_in a s'
  end.

(** Truthiness of a string: [bool(s)] is false exactly for the empty one. *)
Definition str_truthy (s : string) : bool :=
  match s with
  | EmptyString => false
  | String _ _ => true
  end.

(** *** Floats

    Only comparison and truthiness of floats are used.  Every finite
    binary64 value is a rational, and comparison of finite floats is
    comparison of those rationals; the two infinities and NaN are kept
    apart.  Both zeros are [FNum 0]. *)
Inductive pyfloat : Type :=
| FNum (q : Q)
| FInf (negative : bool)
| FNaN.

(** [a <= b] *)
Definition float_le (a b : pyfloat) : bool :=
  match a, b with
  | FNaN, _ | _, FNaN => false
  | FNum x, FNum y => Qle_bool x y
  | FInf true, _ => true
  | _, FInf false => true
  | FInf false, _ => false
  | _, FInf true => false
  end.

(** [a >= b] *)
Definition float_ge (a b : pyfloat) : bool := float_le b a.

(** [a == b] *)
Definition float_eq (a b : pyfloat) : bool :=
  match a, b with
  | FNum x, FNum y => Qeq_bool x y
  | FInf s, FInf s' => Bool.eqb s s'
  | _, _ => false
  end.

(** [bool(a)]: false for zero only (NaN and the infinities are true). *)
Definition float_truthy (a : pyfloat) : bool :=
  match a with
  | FNum q => negb (Qeq_bool q 0)
  | _ => true
  end.

(** *** Datetimes

    [dt_wall] counts the microseconds of the wall-clock reading since
    0001-01-01T00:00; [dt_utcoffset] is [None] for a naive datetime and
    the offset from UTC, in microseconds, for an aware one. *)
Record datetime : Type := mk_dt {
  dt_wall : Z;
  dt_utcoffset : option Z
}.

Definition naive_aware_msg : string :=
  "can't compare offset-naive and offset-aware datetimes".

(** Ordering comparisons ([<], [<=], [>=]) of two datetimes: wall clocks
    for two naive ones, instants for two aware ones, TypeError for one of
    each. *)
Definition dt_compare (op : Z → Z → bool) (a b : datetime) : result bool :=
  match dt_utcoffset a, dt_utcoffset b with
  | None, None => Ok (op (dt_wall a) (dt_wall b))
  | Some oa, Some ob => Ok (op (dt_wall a - oa) (dt_wall b - ob))%Z
  | _, _ => Raise naive_aware_msg
  end.

Definition dt_le : datetime → datetime → result bool := dt_compare Z.leb.
Definition dt_ge : datetime → datetime → result bool := dt_compare Z.geb.
Definition dt_lt : datetime → datetime → result bool := dt_compare Z.ltb.

(** The point a datetime is ordered by among datetimes of its own kind. *)
Definition dt_instant (a : datetime) : Z :=
  match dt_utcoffset a with
  | None => dt_wall a
  | Some o => (dt_wall a - o)%Z
  end.

Definition is_aware (a : datetime) : bool :=
  match dt_utcoffset a with Some _ => true | None => false end.

(** The calendar arithmetic of [datetime(year, month, day, hour, minute)]:
    days before the year, days before the month, then the time of day. *)
Definition is_leap (y : Z) : bool :=
  ((y mod 4 =? 0) && (negb (y mod 100 =? 0) || (y mod 400 =? 0)))%Z.

Definition days_before_year (y : Z) : Z :=
  ((y - 1) * 365 + (y - 1) / 4 - (y - 1) / 100 + (y - 1) / 400)%Z.

Definition days_before_month (y m : Z) : Z :=
  (nth (Z.to_nat (m - 1))
       [0; 31; 59; 90; 120; 151; 181; 212; 243; 273; 304; 334] 0
   + (if (2 <? m) && is_leap y then 1 else 0))%Z.

Definition datetime_of (year month day hour minute : Z) : datetime :=
  let ordinal := (days_before_year year + days_before_month year month + day)%Z in
  mk_dt ((((ordinal - 1) * 24 + hour) * 60 + minute) * 60 * 1000000)%Z None.

Definition days_in_month (y m : Z) : Z :=
  (if (m =? 2) && is_leap y then 29
   else nth (Z.to_nat (m - 1)) [31; 28; 31; 30; 31; 30; 31; 31; 30; 31; 30; 31] 0)%Z.

(** [datetime(year, month, day, hour, minute)]: ValueError when a field
    is out of range, a naive datetime otherwise. *)
Definition datetime_new (year month day hour minute : Z) : result datetime :=
  if negb ((1 <=? year) && (year <=? 9999))%Z then Raise "year is out of range"
  else if negb ((1 <=? month) && (month <=? 12))%Z then Raise "month must be in 1..12"
  else if negb ((1 <=? day) && (day <=? days_in_month year month))%Z
       then Raise "day is out of range for month"
  else if negb ((0 <=? hour) && (hour <=? 23))%Z then Raise "hour must be in 0..23"
  else if negb ((0 <=? minute) && (minute <=? 59))%Z then Raise "minute must be in 0..59"
  else Ok (datetime_of year month day hour minute).

(** [str(i)] for an integer: its decimal digits, with a sign when
    negative. *)
Definition str_of_int (i : Z) : string := pretty i.

(** *** Lists *)

(** [l[start:stop]] with Python's treatment of negative and
    out-of-range bounds. *)
Definition clamp_index (len i : Z) : Z :=
  (if i <? 0 then Z.max (i + len) 0 else Z.min i len)%Z.

Definition slice {A} (l : list A) (start stop : Z) : list A :=
  let len := Z.of_nat (length l) in
  let lo := clamp_index len start in
  let hi := clamp_index len stop in
  take (Z.to_nat (hi - lo)) (drop (Z.to_nat lo) l).

(** [l[i]]: IndexError outside [-len, len). *)
Definition index {A} (l : list A) (i : Z) : result A :=
  let len := Z.of_nat (length l) in
  let j := (if i <? 0 then i + len else i)%Z in
  if (j <? 0)%Z then Raise "list index out of range"
  else match l !! Z.to_nat j with
       | Some x => Ok x
       | None => Raise "list index out of range"
       end.

(** [list.sort(key=..., reverse=...)] is a stable sort that compares keys
    with [<] only.  A stable sort is determined by its specification, so
    the model is the simplest one, insertion from the right; with
    [reverse=True] the list is reversed, sorted and reversed again, which
    keeps equal keys in their original order. *)
Section Sorting.
  Context {A : Type} (key : A → Z).

Fixpoint insert_sorted (x : A) (l : list A) : list A :=
  match l with
  | [] => [x]
  | y :: l' => if (key y <? key x)%Z then y :: insert_sorted x l'
               else x :: y :: l'
  end.

Fixpoint stable_sort (l : list A) : list A :=
  match l with
  | [] => []
  | x :: l' => insert_sorted x (stable_sort l')
  end.

Definition sort_with (reverse : bool) (l : list A) : list A :=
  if reverse then rev (stable_sort (rev l)) else stable_sort l.
End Sorting.

End Py.

(** ** The record schema *)

Record TradeDetails : Type := {
  buySellIndicator : string;
  price : Py.pyfloat;
  quantity : Z
}.

(** Optional fields are [option]s; [trade_id] is declared [str] with
    default [None], so it may be absent too. *)
Record Trade : Type := {
  asset_class : option string;
  counterparty : option string;
  instrument_id : string;
  instrument_name : string;
  trade_date_time : Py.datetime;
  trade_details : TradeDetails;
  trade_id : option string;
  trader : string
}.

(** [field == s] for an optional string field and a string [s]. *)
Definition opt_str_eqb (field : option string) (s : string) : bool :=
  match field with
  | Some x => String.eqb x s
  | None => false
  end.

(** The key every sort uses: [lambda trade: trade.trade_date_time]. *)
Definition date_key (t : Trade) : Z := Py.dt_instant (trade_date_time t).

(** ** The store and the handler monad

    List objects live in a store indexed by location; a variable holds a
    location, so two variables may name one list.  Trade objects are never
    written to and are kept by value.  [stdout] collects what is printed. *)

Abbreviation loc := nat (only parsing).

Record world : Type := mk_world {
  objects : gmap nat (list Trade);
  stdout : list string
}.

(** A computation over a state [S] that may raise; an exception keeps the
    state reached so far. *)
Definition ST (S A : Type) : Type := S → result A * S.

Definition ret {S A} (a : A) : ST S A := λ s, (Ok a, s).

Definition bind {S A B} (m : ST S A) (k : A → ST S B) : ST S B :=
  λ s, match m s with
       | (Ok a, s') => k a s'
       | (Raise e, s') => (Raise e, s')
       end.

Definition lift {S A} (r : result A) : ST S A := λ s, (r, s).

(** The handlers run over the store. *)
Abbreviation M := (ST world).

Declare Scope handler_scope.
Delimit Scope handler_scope with handler.
Notation "x <~ m ;; k" := (bind m (λ x, k))
  (at level 100, m at next level, right associativity) : handler_scope.
Notation "m ;;; k" := (bind m (λ _, k))
  (at level 100, right associativity) : handler_scope.
Local Open Scope handler_scope.

(** A new list object at an unused location. *)
Definition new_list (l : list Trade) : M loc :=
  λ w, let r := fresh (dom (objects w)) in
       (Ok r, mk_world (<[r := l]> (objects w)) (stdout w)).

(** The current contents of a list object; a location that holds no list
    is a name that was never bound. *)
Definition read (r : loc) : M (list Trade) :=
  λ w, match objects w !! r with
       | Some l => (Ok l, w)
       | None => (Raise "name is not defined", w)
       end.

(** In-place replacement of the contents of a list object. *)
Definition write (r : loc) (l : list Trade) : M unit :=
  λ w, (Ok tt, mk_world (<[r := l]> (objects w)) (stdout w)).

Definition print (s : string) : M unit :=
  λ w, (Ok tt, mk_world (objects w) (stdout w ++ [s])).

(** [[trade for trade in src if cond(trade)]]: the condition is evaluated
    on the elements from left to right and the first exception ends the
    comprehension. *)
Fixpoint filter_r (cond : Trade → result bool) (l : list Trade) : result (list Trade) :=
  match l with
  | [] => Ok []
  | t :: l' =>
      result_bind (cond t) (λ b,
      result_bind (filter_r cond l') (λ rest,
      Ok (if b then t :: rest else rest)))
  end.

Definition comprehension (src : loc) (cond : Trade → result bool) : M loc :=
  l <~ read src ;;
  kept <~ lift (filter_r cond l) ;;
  new_list kept.

(** [if param: filtered_trades = [... if cond]]: the filter runs when the
    parameter is present and truthy, and rebinds the variable to the new
    list; otherwise the variable keeps the location it had. *)
Definition narrow {P} (param : option P) (truthy : P → bool)
    (cond : P → Trade → result bool) (filtered_trades : loc) : M loc :=
  match param with
  | Some p => if truthy p then comprehension filtered_trades (cond p)
              else ret filtered_trades
  | None => ret filtered_trades
  end.

(** [src[start:stop]]: always a new list object. *)
Definition get_slice (src : loc) (start stop : Z) : M loc :=
  l <~ read src ;;
  new_list (Py.slice l start stop).

(** Whether some of the dates are naive and some aware. *)
Definition mixed_awareness (l : list Trade) : bool :=
  existsb (λ t, Py.is_aware (trade_date_time t)) l &&
  existsb (λ t, negb (Py.is_aware (trade_date_time t))) l.

(** [r.sort(key=lambda trade: trade.trade_date_time, reverse=reverse)],
    in place.  A comparison sort has to compare, at some point, two
    elements that end up next to each other, so it compares a naive date
    with an aware one, and raises, exactly when the list has both. *)
Definition sort_by_date (r : loc) (reverse : bool) : M unit :=
  l <~ read r ;;
  if mixed_awareness l then lift (Raise Py.naive_aware_msg)
  else write r (Py.sort_with date_key reverse l).

(** [except Exception as e: return {"error": str(e)}] *)
Inductive response : Type :=
| PageReply (total_count : nat) (page : Z) (trades : list Trade)
| TradeReply (t : Trade)
| ErrorReply (error : string).

Definition try_except (body : M response) : world → response * world :=
  λ w, match body w with
       | (Ok r, w') => (r, w')
       | (Raise e, w') => (ErrorReply e, w')
       end.

(** ** The dataset generator

    [random.randint] is a function of the generator state; the only thing
    assumed of it is its documented range, a <= N <= b. *)

Section Generator.
  Context {rng : Type} (randint : Z → Z → rng → Z * rng).

Definition assetClasses : list string := ["Equity"; "Bond"; "FX"].
Definition counterParties : list string :=
  ["ABC Bank"; "XYZ Investment"; "DEF Forex"; "XYZ Bank"; "PQR Investment"].
Definition instrumentIds : list string := ["TSLA"; "AAPL"; "EURUSD"; "AMZN"; "GOOG"].
Definition instrumentNames : list string :=
  ["Tesla"; "Apple"; "Euro/USD"; "Amazon"; "Google"].
Definition buySellIndicators : list string := ["BUY"; "SELL"].
Definition traders : list string :=
  ["John Doe"; "Jane Smith"; "Bob Johnson"; "Alice Williams"; "Robert Johnson"].

(** [random.randint(a, b)] *)
Definition draw (a b : Z) : ST rng Z :=
  λ g, let (k, g') := randint a b g in (Ok k, g').

(** [l[random.randint(0, len(l) - 1)]] *)
Definition pick (l : list string) : ST rng string :=
  k <~ draw 0 (Z.of_nat (length l) - 1) ;;
  lift (Py.index l k).

(** The body of the loop: the keyword arguments of [Trade(...)] are
    evaluated in the order they are written. *)
Definition generate_trade (i : Z) : ST rng Trade :=
  assetClass <~ pick assetClasses ;;
  counterparty_ <~ pick counterParties ;;
  instrumentId <~ pick instrumentIds ;;
  instrumentName <~ pick instrumentNames ;;
  month <~ draw 1 12 ;;
  day <~ draw 1 28 ;;
  tradeDateTime <~ lift (Py.datetime_new 2022 month day 14 30) ;;
  buySell <~ pick buySellIndicators ;;
  price_ <~ draw 1 1000 ;;
  quantity_ <~ draw 1 50 ;;
  trader_ <~ lift (Py.index traders (i mod Z.of_nat (length traders))) ;;
  ret {| asset_class := Some assetClass;
         counterparty := Some counterparty_;
         instrument_id := instrumentId;
         instrument_name := instrumentName;
         trade_date_time := tradeDateTime;
         trade_details := {| buySellIndicator := buySell;
                             price := Py.FNum (inject_Z price_);
                             quantity := quantity_ |};
         trade_id := Some (Py.str_of_int i);
         trader := trader_ |}.

(** [for i in indices: trades_db.append(Trade(...))] *)
Fixpoint generate_loop (indices : list Z) (trades_db : list Trade)
    : ST rng (list Trade) :=
  match indices with
  | [] => ret trades_db
  | i :: rest =>
      trade <~ generate_trade i ;;
      generate_loop rest (trades_db ++ [trade])
  end.

(** [range(100)] is 0, 1, ..., 99. *)
Definition generate_db : ST rng (list Trade) :=
  generate_loop (seqZ 0 100) [].

End Generator.

(** ** GET /trades *)

Record TradesQuery : Type := {
  q_asset_class : option string;
  q_end : option Py.datetime;
  q_max_price : option Py.pyfloat;
  q_min_price : option Py.pyfloat;
  q_start : option Py.datetime;
  q_trade_type : option string;
  q_page : Z;
  q_limit : Z;
  q_sort : string
}.

Definition always {P} (_ : P) : bool := true.

Definition get_trades_body (trades_db : loc) (q : TradesQuery) : M response :=
  let filtered_trades := trades_db in
  filtered_trades <~ narrow (q_asset_class q) Py.str_truthy
    (λ a trade, Ok (opt_str_eqb (asset_class trade) a)) filtered_trades ;;
  filtered_trades <~ narrow (q_end q) always
    (λ e trade, Py.dt_le (trade_date_time trade) e) filtered_trades ;;
  filtered_trades <~ narrow (q_max_price q) Py.float_truthy
    (λ m trade, Ok (Py.float_le (price (trade_details trade)) m)) filtered_trades ;;
  filtered_trades <~ narrow (q_min_price q) Py.float_truthy
    (λ m trade, Ok (Py.float_ge (price (trade_details trade)) m)) filtered_trades ;;
  filtered_trades <~ narrow (q_start q) always
    (λ s trade, Py.dt_ge (trade_date_time trade) s) filtered_trades ;;
  filtered_trades <~ narrow (q_trade_type q) Py.str_truthy
    (λ ty trade, Ok (String.eqb (buySellIndicator (trade_details trade)) ty))
    filtered_trades ;;
  all <~ read filtered_trades ;;
  let total_trades := length all in
  let start_index := ((q_page q - 1) * q_limit q)%Z in
  let end_index := (start_index + q_limit q)%Z in
  paginated_trades <~ get_slice filtered_trades start_index end_index ;;
  let reverse := String.eqb (Py.lower (q_sort q)) "desc" in
  sort_by_date paginated_trades reverse ;;;
  trades <~ read paginated_trades ;;
  ret (PageReply total_trades (q_page q) trades).

Definition get_trades (trades_db : loc) (q : TradesQuery) : world → response * world :=
  try_except (get_trades_body trades_db q).

(** ** GET /trades/id/{trade_id} *)

Fixpoint first_with_id (tid : string) (l : list Trade) : option Trade :=
  match l with
  | [] => None
  | trade :: l' => if opt_str_eqb (trade_id trade) tid then Some trade
                   else first_with_id tid l'
  end.

Definition get_trade_by_id (trades_db : loc) (tid : string) : M response :=
  print "Here" ;;;
  l <~ read trades_db ;;
  match first_with_id tid l with
  | Some trade => ret (TradeReply trade)
  | None => ret (ErrorReply "Trade not found")
  end.

(** ** GET /trades/search *)

Definition search_hit (q : string) (trade : Trade) : bool :=
  match counterparty trade with
  | Some c => Py.str_in (Py.lower q) (Py.lower c)
  | None => false
  end
  || Py.str_in (Py.lower q) (Py.lower (instrument_id trade))
  || Py.str_in (Py.lower q) (Py.lower (instrument_name trade))
  || Py.str_in (Py.lower q) (Py.lower (trader trade)).

(** [r.append(x)] *)
Definition append (r : loc) (x : Trade) : M unit :=
  l <~ read r ;;
  write r (l ++ [x]).

(** [for trade in items: body(trade)].  The loop of [search_trades] never
    writes to the list it walks, so it walks the elements that were
    there when it started. *)
Fixpoint for_each (items : list Trade) (body : Trade → M unit) : M unit :=
  match items with
  | [] => ret tt
  | x :: rest => body x ;;; for_each rest body
  end.

Definition search_trades_body (trades_db : loc) (q : string) (page limit : Z)
    (sort : string) : M response :=
  searched_trades <~ new_list [] ;;
  items <~ read trades_db ;;
  for_each items (λ trade,
    if search_hit q trade then append searched_trades trade else ret tt) ;;;
  all <~ read searched_trades ;;
  let total_trades := length all in
  let start_index := ((page - 1) * limit)%Z in
  let end_index := (start_index + limit)%Z in
  paginated_trades <~ get_slice searched_trades start_index end_index ;;
  let reverse := String.eqb (Py.lower sort) "desc" in
  sort_by_date paginated_trades reverse ;;;
  trades <~ read paginated_trades ;;
  ret (PageReply total_trades page trades).

Definition search_trades (trades_db : loc) (q : string) (page limit : Z)
    (sort : string) : world → response * world :=
  try_except (search_trades_body trades_db q page limit sort).

(** * Derived definitions

    What the statements below are written with: the handlers as functions
    of the collection, the predicates a request stands for, and a small
    collection to run the handlers on. *)

(** ** What a handler may do to the store *)

(** [extends w w']: every list object of [w] is in [w'] with the contents it
    had, and nothing was printed.  A handler that only creates and sorts
    lists of its own takes [w] to such a [w']. *)
Definition extends (w w' : world) : Prop :=
  objects w ⊆ objects w' ∧ stdout w' = stdout w.

(** [handles w0 m w out]: run from [w] inside [try: ... except], [m]
    replies [out] and leaves a world that extends [w0]. *)
Definition handles (w0 : world) (m : M response) (w : world) (out : response) : Prop :=
  ∃ w', try_except m w = (out, w') ∧ extends w0 w'.

(** ** The handlers as functions of the collection *)

(** One narrowing step on the list itself. *)
Definition narrowed {P} (param : option P) (truthy : P → bool)
    (cond : P → Trade → result bool) (l : list Trade) : result (list Trade) :=
  match param with
  | Some p => if truthy p then filter_r (cond p) l else Ok l
  | None => Ok l
  end.

(** The six filters of [get_trades], in the order the source applies them. *)
Definition filtered_of (q : TradesQuery) (l : list Trade) : result (list Trade) :=
  result_bind (narrowed (q_asset_class q) Py.str_truthy
    (λ a trade, Ok (opt_str_eqb (asset_class trade) a)) l) (λ l,
  result_bind (narrowed (q_end q) always
    (λ e trade, Py.dt_le (trade_date_time trade) e) l) (λ l,
  result_bind (narrowed (q_max_price q) Py.float_truthy
    (λ m trade, Ok (Py.float_le (price (trade_details trade)) m)) l) (λ l,
  result_bind (narrowed (q_min_price q) Py.float_truthy
    (λ m trade, Ok (Py.float_ge (price (trade_details trade)) m)) l) (λ l,
  result_bind (narrowed (q_start q) always
    (λ s trade, Py.dt_ge (trade_date_time trade) s) l) (λ l,
  narrowed (q_trade_type q) Py.str_truthy
    (λ ty trade, Ok (String.eqb (buySellIndicator (trade_details trade)) ty)) l))))).

(** Slice, then sort the slice. *)
Definition page_of (l : list Trade) (page limit : Z) (sort : string) : result (list Trade) :=
  let start_index := ((page - 1) * limit)%Z in
  let paginated := Py.slice l start_index (start_index + limit) in
  if mixed_awareness paginated then Raise Py.naive_aware_msg
  else Ok (Py.sort_with date_key (String.eqb (Py.lower sort) "desc") paginated).

Definition reply_of (found : result (list Trade)) (page limit : Z) (sort : string) : response :=
  match found with
  | Raise e => ErrorReply e
  | Ok l => match page_of l page limit sort with
            | Raise e => ErrorReply e
            | Ok trades => PageReply (length l) page trades
            end
  end.

(** The last lines of [get_trades] and of [search_trades] are the same
    (count, slice, sort in place, reply); this is that tail as a
    computation of its own, run on the location of the filtered list. *)
Definition paginate_sort_reply (src : loc) (page limit : Z) (sort : string) : M response :=
  all <~ read src ;;
  let total_trades := length all in
  let start_index := ((page - 1) * limit)%Z in
  let end_index := (start_index + limit)%Z in
  paginated_trades <~ get_slice src start_index end_index ;;
  let reverse := String.eqb (Py.lower sort) "desc" in
  sort_by_date paginated_trades reverse ;;;
  trades <~ read paginated_trades ;;
  ret (PageReply total_trades page trades).

(** ** The filters as one predicate *)

(** A comparison that raised keeps nothing. *)
Definition ok_true (r : result bool) : bool :=
  match r with
  | Ok b => b
  | Raise _ => false
  end.

(** What one [if param: ...] step requires of a trade: the condition when
    the parameter is present and truthy, nothing otherwise. *)
Definition applied {P} (param : option P) (truthy : P → bool)
    (cond : P → Trade → result bool) (t : Trade) : bool :=
  match param with
  | Some p => if truthy p then ok_true (cond p t) else true
  | None => true
  end.

(** The conjunction of the filters [get_trades] applies for [q]. *)
Definition keeps (q : TradesQuery) (t : Trade) : bool :=
  applied (q_asset_class q) Py.str_truthy
    (λ a trade, Ok (opt_str_eqb (asset_class trade) a)) t
  && applied (q_end q) always
    (λ e trade, Py.dt_le (trade_date_time trade) e) t
  && applied (q_max_price q) Py.float_truthy
    (λ m trade, Ok (Py.float_le (price (trade_details trade)) m)) t
  && applied (q_min_price q) Py.float_truthy
    (λ m trade, Ok (Py.float_ge (price (trade_details trade)) m)) t
  && applied (q_start q) always
    (λ s trade, Py.dt_ge (trade_date_time trade) s) t
  && applied (q_trade_type q) Py.str_truthy
    (λ ty trade, Ok (String.eqb (buySellIndicator (trade_details trade)) ty)) t.

(** ** Supplied parameters and applied filters *)

(** What a supplied parameter asks of a trade, whatever its value. *)
Definition supplied {P} (param : option P) (cond : P → Trade → result bool)
    (t : Trade) : bool :=
  match param with
  | Some p => ok_true (cond p t)
  | None => true
  end.

(** The four parameters other than the price bounds. *)
Definition satisfies_other (q : TradesQuery) (t : Trade) : bool :=
  supplied (q_asset_class q) (λ a trade, Ok (opt_str_eqb (asset_class trade) a)) t
  && supplied (q_end q) (λ e trade, Py.dt_le (trade_date_time trade) e) t
  && supplied (q_start q) (λ s trade, Py.dt_ge (trade_date_time trade) s) t
  && supplied (q_trade_type q)
       (λ ty trade, Ok (String.eqb (buySellIndicator (trade_details trade)) ty)) t.

(** A trade satisfies every predicate whose parameter the request
    supplies. *)
Definition satisfies_supplied (q : TradesQuery) (t : Trade) : bool :=
  satisfies_other q t
  && supplied (q_max_price q)
       (λ m trade, Ok (Py.float_le (price (trade_details trade)) m)) t
  && supplied (q_min_price q)
       (λ m trade, Ok (Py.float_ge (price (trade_details trade)) m)) t.

(** A parameter that is absent, or present and truthy. *)
Definition effective {P} (truthy : P → bool) (param : option P) : bool :=
  match param with
  | Some p => truthy p
  | None => true
  end.

(** No supplied parameter is an empty string or a zero. *)
Definition every_parameter_effective (q : TradesQuery) : bool :=
  effective Py.str_truthy (q_asset_class q)
  && effective Py.float_truthy (q_max_price q)
  && effective Py.float_truthy (q_min_price q)
  && effective Py.str_truthy (q_trade_type q).

(** ** Variants of a request *)

(** The same request for another page. *)
Definition with_page (page limit : Z) (q : TradesQuery) : TradesQuery :=
  {| q_asset_class := q_asset_class q; q_end := q_end q;
     q_max_price := q_max_price q; q_min_price := q_min_price q;
     q_start := q_start q; q_trade_type := q_trade_type q;
     q_page := page; q_limit := limit; q_sort := q_sort q |}.

Definition with_max_price (v : option Py.pyfloat) (q : TradesQuery) : TradesQuery :=
  {| q_asset_class := q_asset_class q; q_end := q_end q;
     q_max_price := v; q_min_price := q_min_price q;
     q_start := q_start q; q_trade_type := q_trade_type q;
     q_page := q_page q; q_limit := q_limit q; q_sort := q_sort q |}.

Definition with_min_price (v : option Py.pyfloat) (q : TradesQuery) : TradesQuery :=
  {| q_asset_class := q_asset_class q; q_end := q_end q;
     q_max_price := q_max_price q; q_min_price := v;
     q_start := q_start q; q_trade_type := q_trade_type q;
     q_page := q_page q; q_limit := q_limit q; q_sort := q_sort q |}.

Definition with_asset_class (v : option string) (q : TradesQuery) : TradesQuery :=
  {| q_asset_class := v; q_end := q_end q;
     q_max_price := q_max_price q; q_min_price := q_min_price q;
     q_start := q_start q; q_trade_type := q_trade_type q;
     q_page := q_page q; q_limit := q_limit q; q_sort := q_sort q |}.

(** ** Slices *)

(** The elements of [l] at the zero-based positions [start], ...,
    [stop - 1], in the order of [l]; a number below zero is no position
    of the list. *)
Definition zero_based_slice {A} (l : list A) (start stop : Z) : list A :=
  take (Z.to_nat stop - Z.to_nat start) (drop (Z.to_nat start) l).

(** ** Sort orders *)

(** The two orders a sorted list can be in. *)
Definition ascending {A} (key : A → Z) (a b : A) : Prop := (key a ≤ key b)%Z.
Definition descending {A} (key : A → Z) (a b : A) : Prop := (key b ≤ key a)%Z.

(** The order the handlers give a page: descending by date when the
    lower-cased [sort] is "desc", ascending for every other value. *)
Definition in_sort_order (sort : string) (a b : Trade) : Prop :=
  (Py.lower sort = "desc" →
     Py.dt_ge (trade_date_time a) (trade_date_time b) = Ok true) ∧
  (Py.lower sort ≠ "desc" →
     Py.dt_le (trade_date_time a) (trade_date_time b) = Ok true).

(** The order as first stated: ascending for "asc", descending for
    "desc" and for every other value. *)
Definition stated_sort_order (sort : string) (a b : Trade) : Prop :=
  (Py.lower sort = "asc" →
     Py.dt_le (trade_date_time a) (trade_date_time b) = Ok true) ∧
  (Py.lower sort ≠ "asc" →
     Py.dt_ge (trade_date_time a) (trade_date_time b) = Ok true).

(** ** Letter case and matching *)




(** [q] occurs in [s] when case is ignored. *)
Definition occurs_ignoring_case (q s : string) : Prop :=
  ∃ pre post, Py.lower s = pre +:+ Py.lower q +:+ post.

(** The match rule in words: [q] occurs, case ignored, in the
    counterparty when there is one, or in the instrument id, the
    instrument name or the trader. *)
Definition matches_a_field (q : string) (t : Trade) : Prop :=
  (∃ c, counterparty t = Some c ∧ occurs_ignoring_case q c)
  ∨ occurs_ignoring_case q (instrument_id t)
  ∨ occurs_ignoring_case q (instrument_name t)
  ∨ occurs_ignoring_case q (trader t).

(** ** Generated trades and naive dates *)

(** What every generated trade has, whatever was drawn. *)
Definition generated_as (i : Z) (t : Trade) : Prop :=
  trade_id t = Some (Py.str_of_int i)
  ∧ traders !! Z.to_nat (i mod 5) = Some (trader t)
  ∧ Py.dt_utcoffset (trade_date_time t) = None.

(** A linear congruential generator, to run the generator on. *)
Definition lcg_randint (a b : Z) (g : Z) : Z * Z :=
  ((a + g mod (b - a + 1))%Z, ((g * 1103515245 + 12345) mod 2147483648)%Z).

Definition naive (d : Py.datetime) : Prop := Py.dt_utcoffset d = None.

Definition naive_bound (d : option Py.datetime) : Prop :=
  match d with
  | Some x => naive x
  | None => True
  end.

Definition all_naive (l : list Trade) : Prop :=
  Forall (λ t, naive (trade_date_time t)) l.

(** ** A small collection for worked examples *)

Definition trade_of (tid : string) (asset : string) (cp : option string)
    (instr name : string) (month day : Z) (side : string) (p : Z)
    (who : string) : Trade :=
  {| asset_class := Some asset;
     counterparty := cp;
     instrument_id := instr;
     instrument_name := name;
     trade_date_time := Py.datetime_of 2022 month day 14 30;
     trade_details := {| buySellIndicator := side;
                         price := Py.FNum (inject_Z p);
                         quantity := 10 |};
     trade_id := Some tid;
     trader := who |}.

Definition trade0 : Trade :=
  trade_of "0" "Equity" (Some "ABC Bank") "TSLA" "Tesla" 5 17 "BUY" 100 "John Doe".
Definition trade1 : Trade :=
  trade_of "1" "Bond" (Some "XYZ Bank") "AAPL" "Apple" 3 2 "SELL" 250 "Jane Smith".
Definition trade2 : Trade :=
  trade_of "2" "FX" None "EURUSD" "Euro/USD" 9 28 "BUY" 5 "Bob Johnson".
Definition trade3 : Trade :=
  trade_of "3" "Equity" (Some "DEF Forex") "AMZN" "Amazon" 1 9 "SELL" 999 "Alice Williams".
Definition trade4 : Trade :=
  trade_of "4" "Equity" (Some "PQR Investment") "TSLA" "Tesla" 7 4 "BUY" 250 "Robert Johnson".

Definition sample_db : list Trade := [trade0; trade1; trade2; trade3; trade4].

(** The store after start-up: the collection is the one list object. *)
Definition sample_world : world := mk_world {[ 0 := sample_db ]} [].

Definition list_query (page limit : Z) (sort : string) : TradesQuery :=
  {| q_asset_class := None; q_end := None; q_max_price := None;
     q_min_price := None; q_start := None; q_trade_type := None;
     q_page := page; q_limit := limit; q_sort := sort |}.

Definition price_query (lo hi : Py.pyfloat) : TradesQuery :=
  {| q_asset_class := None; q_end := None; q_max_price := Some hi;
     q_min_price := Some lo; q_start := None; q_trade_type := None;
     q_page := 1; q_limit := 4; q_sort := "desc" |}.

(** [trade1] with a date that carries a time zone (UTC), and a
    collection that holds it next to a trade with a naive date. *)
Definition trade1_utc : Trade :=
  {| asset_class := asset_class trade1;
     counterparty := counterparty trade1;
     instrument_id := instrument_id trade1;
     instrument_name := instrument_name trade1;
     trade_date_time :=
       Py.mk_dt (Py.dt_wall (trade_date_time trade1)) (Some 0%Z);
     trade_details := trade_details trade1;
     trade_id := trade_id trade1;
     trader := trader trade1 |}.

Definition mixed_db : list Trade := [trade0; trade1_utc].
Definition mixed_world : world := mk_world {[ 0 := mixed_db ]} [].



(** ** Notions for the further properties *)

(** [q'] supplies every filter parameter that [q] supplies, with the same
    value, and possibly more. *)
Definition supplies_more (q q' : TradesQuery) : Prop :=
  (q_asset_class q = None ∨ q_asset_class q = q_asset_class q')
  ∧ (q_end q = None ∨ q_end q = q_end q')
  ∧ (q_max_price q = None ∨ q_max_price q = q_max_price q')
  ∧ (q_min_price q = None ∨ q_min_price q = q_min_price q')
  ∧ (q_start q = None ∨ q_start q = q_start q')
  ∧ (q_trade_type q = None ∨ q_trade_type q = q_trade_type q').

(** The same request with another sort parameter. *)
Definition with_sort (sort : string) (q : TradesQuery) : TradesQuery :=
  {| q_asset_class := q_asset_class q; q_end := q_end q;
     q_max_price := q_max_price q; q_min_price := q_min_price q;
     q_start := q_start q; q_trade_type := q_trade_type q;
     q_page := q_page q; q_limit := q_limit q; q_sort := sort |}.

(** The trades that are still in [filtered_trades] when the [end] filter
    runs: those the asset class filter keeps. *)
Definition reaches_end (q : TradesQuery) (t : Trade) : bool :=
  applied (q_asset_class q) Py.str_truthy
    (λ a trade, Ok (opt_str_eqb (asset_class trade) a)) t.

(** The trades that are still in [filtered_trades] when the [start]
    filter runs: those the four filters before it keep. *)
Definition reaches_start (q : TradesQuery) (t : Trade) : bool :=
  applied (q_asset_class q) Py.str_truthy
    (λ a trade, Ok (opt_str_eqb (asset_class trade) a)) t
  && applied (q_end q) always
    (λ e trade, Py.dt_le (trade_date_time trade) e) t
  && applied (q_max_price q) Py.float_truthy
    (λ m trade, Ok (Py.float_le (price (trade_details trade)) m)) t
  && applied (q_min_price q) Py.float_truthy
    (λ m trade, Ok (Py.float_ge (price (trade_details trade)) m)) t.

(** Every field of a generated trade comes from its vocabulary or range. *)
Definition in_vocabulary (t : Trade) : Prop :=
  (∃ a, asset_class t = Some a ∧ a ∈ assetClasses)
  ∧ (∃ c, counterparty t = Some c ∧ c ∈ counterParties)
  ∧ instrument_id t ∈ instrumentIds
  ∧ instrument_name t ∈ instrumentNames
  ∧ buySellIndicator (trade_details t) ∈ buySellIndicators
  ∧ trader t ∈ traders
  ∧ (∃ p, price (trade_details t) = Py.FNum (inject_Z p) ∧ (1 ≤ p ≤ 1000)%Z)
  ∧ (1 ≤ quantity (trade_details t) ≤ 50)%Z
  ∧ (∃ month day, (1 ≤ month ≤ 12)%Z ∧ (1 ≤ day ≤ 28)%Z
       ∧ trade_date_time t = Py.datetime_of 2022 month day 14 30).

(** A collection with two trades of one day, to see ties. *)
Definition tie_a : Trade :=
  trade_of "a" "Equity" None "TSLA" "Tesla" 6 1 "BUY" 10 "John Doe".
Definition tie_b : Trade :=
  trade_of "b" "Equity" None "AAPL" "Apple" 6 1 "BUY" 20 "Jane Smith".
Definition tie_c : Trade :=
  trade_of "c" "Equity" None "AMZN" "Amazon" 2 1 "BUY" 30 "Bob Johnson".
Definition tie_db : list Trade := [tie_a; tie_b; tie_c].
Definition tie_world : world := mk_world {[ 0 := tie_db ]} [].

(** A list request whose end carries a time zone (UTC). *)
Definition aware_end_query : TradesQuery :=
  {| q_asset_class := Some "Equity";
     q_end := Some (Py.mk_dt 63800000000000000 (Some 0%Z));
     q_max_price := None; q_min_price := None; q_start := None;
     q_trade_type := None; q_page := 1; q_limit := 4; q_sort := "desc" |}.

(** A list request that filters on the side of the trade only. *)
Definition side_query (side : string) : TradesQuery :=
  {| q_asset_class := None; q_end := None; q_max_price := None;
     q_min_price := None; q_start := None; q_trade_type := Some side;
     q_page := 1; q_limit := 4; q_sort := "desc" |}.

(** What the generator fixes of the i-th trade, and the lists the rest of
    it comes from. *)
Definition generated_trade (i : Z) (t : Trade) : Prop :=
  generated_as i t ∧ in_vocabulary t.

(** * Properties *)

(** ** The store *)

Lemma extends_refl w : extends w w.
Proof. split; done. Qed.

Lemma extends_trans w1 w2 w3 : extends w1 w2 → extends w2 w3 → extends w1 w3.
Proof.
  intros [Ho Hs] [Ho' Hs']. split.
  - by etrans.
  - congruence.
Qed.

Lemma extends_lookup w w' r l :
  extends w w' → objects w !! r = Some l → objects w' !! r = Some l.
Proof. intros [Ho _] Hr. by eapply lookup_weaken. Qed.

Lemma fresh_unused (w : world) : objects w !! fresh (dom (objects w)) = None.
Proof. apply not_elem_of_dom, is_fresh. Qed.

Lemma new_list_spec l w :
  ∃ r w', new_list l w = (Ok r, w') ∧ objects w !! r = None ∧
          objects w' = <[r := l]> (objects w) ∧ stdout w' = stdout w.
Proof.
  eexists _, _. split; [reflexivity|]. simpl.
  split; [apply fresh_unused | done].
Qed.

Lemma new_list_extends l w r w' :
  new_list l w = (Ok r, w') → objects w' !! r = Some l ∧ extends w w'.
Proof.
  unfold new_list. intros [= <- <-]. simpl. split.
  - apply lookup_insert_eq.
  - split; [|done]. simpl. apply insert_subseteq, fresh_unused.
Qed.

Lemma read_spec r l w : objects w !! r = Some l → read r w = (Ok l, w).
Proof. unfold read. by intros ->. Qed.

(** Sorting a list that was created after [w0] keeps [w0]'s objects. *)
Lemma write_own_extends w0 w r l' :
  objects w0 !! r = None → extends w0 w →
  extends w0 (mk_world (<[r := l']> (objects w)) (stdout w)) ∧
  <[r := l']> (objects w) !! r = Some l'.
Proof.
  intros Hfresh [Ho Hs]. split; [split; simpl|].
  - apply map_subseteq_spec. intros i x Hi.
    destruct (decide (r = i)) as [->|Hne]; [congruence|].
    rewrite lookup_insert_ne by done. by eapply lookup_weaken.
  - done.
  - apply lookup_insert_eq.
Qed.

(** ** The handlers as functions of the collection *)

Lemma narrow_spec {P} (param : option P) truthy cond src l w :
  objects w !! src = Some l →
  match narrowed param truthy cond l with
  | Ok l' => ∃ r' w', narrow param truthy cond src w = (Ok r', w') ∧
                      objects w' !! r' = Some l' ∧ extends w w'
  | Raise e => narrow param truthy cond src w = (Raise e, w)
  end.
Proof.
  intros Hsrc. unfold narrowed, narrow.
  destruct param as [p|]; [destruct (truthy p)|].
  - unfold comprehension, bind, lift. rewrite (read_spec _ _ _ Hsrc).
    destruct (filter_r (cond p) l) as [l'|e]; [|done].
    destruct (new_list_spec l' w) as (r' & w' & Hnew & _).
    exists r', w'. split; [done|]. by apply new_list_extends.
  - exists src, w. split; [done|]. split; [done|apply extends_refl].
  - exists src, w. split; [done|]. split; [done|apply extends_refl].
Qed.

Lemma paginate_sort_reply_spec src l page limit sort w :
  objects w !! src = Some l →
  ∃ w', try_except (paginate_sort_reply src page limit sort) w
          = (reply_of (Ok l) page limit sort, w') ∧ extends w w'.
Proof.
  intros Hsrc. unfold try_except, paginate_sort_reply, get_slice, bind.
  rewrite (read_spec _ _ _ Hsrc). rewrite (read_spec _ _ _ Hsrc).
  set (sl := Py.slice l _ _).
  destruct (new_list_spec sl w) as (p & w1 & Hnew & Hfresh & Hobj & Hout).
  rewrite Hnew. destruct (new_list_extends _ _ _ _ Hnew) as [Hp Hext].
  unfold sort_by_date, bind. rewrite (read_spec _ _ _ Hp).
  unfold reply_of, page_of. fold sl.
  destruct (mixed_awareness sl).
  - exists w1. by split.
  - unfold write, lift, read. simpl. rewrite lookup_insert_eq.
    eexists. split; [reflexivity|].
    by apply write_own_extends.
Qed.

Lemma handles_narrow {P} w0 (param : option P) truthy cond src l w
    (k : loc → M response) (f : list Trade → response) :
  extends w0 w → objects w !! src = Some l →
  (∀ l' r' w', objects w' !! r' = Some l' → extends w0 w' →
               handles w0 (k r') w' (f l')) →
  handles w0 (bind (narrow param truthy cond src) k) w
    (match narrowed param truthy cond l with
     | Ok l' => f l'
     | Raise e => ErrorReply e
     end).
Proof.
  intros Hext Hsrc Hk. pose proof (narrow_spec param truthy cond src l w Hsrc) as Hn.
  unfold handles, try_except, bind in *.
  destruct (narrowed param truthy cond l) as [l'|e].
  - destruct Hn as (r' & w' & -> & Hr' & Hext').
    apply Hk; [done|]. by eapply extends_trans.
  - rewrite Hn. by exists w.
Qed.

Lemma handles_paginate w0 src l page limit sort w :
  extends w0 w → objects w !! src = Some l →
  handles w0 (paginate_sort_reply src page limit sort) w
    (reply_of (Ok l) page limit sort).
Proof.
  intros Hext Hsrc.
  destruct (paginate_sort_reply_spec src l page limit sort w Hsrc) as (w' & Hrun & Hext').
  exists w'. split; [done|]. by eapply extends_trans.
Qed.

Lemma reply_of_bind (a : result (list Trade)) g page limit sort :
  reply_of (result_bind a g) page limit sort
  = match a with
    | Ok l' => reply_of (g l') page limit sort
    | Raise e => ErrorReply e
    end.
Proof. by destruct a. Qed.

Lemma reply_of_id (a : result (list Trade)) page limit sort :
  reply_of a page limit sort
  = match a with
    | Ok l' => reply_of (Ok l') page limit sort
    | Raise e => ErrorReply e
    end.
Proof. by destruct a. Qed.

Ltac narrow_step w :=
  rewrite reply_of_bind;
  apply (handles_narrow w);
  [first [apply extends_refl | assumption] | assumption |];
  let l' := fresh "l" in let r' := fresh "r" in let w' := fresh "w" in
  intros l' r' w' ? ?.

(** [get_trades] computes [reply_of (filtered_of q l)] over the collection
    [l] that [trades_db] holds, and keeps the world's objects. *)
Lemma get_trades_spec trades_db l q w :
  objects w !! trades_db = Some l →
  ∃ w', get_trades trades_db q w
          = (reply_of (filtered_of q l) (q_page q) (q_limit q) (q_sort q), w')
        ∧ extends w w'.
Proof.
  intros Hdb. change (handles w (get_trades_body trades_db q) w
    (reply_of (filtered_of q l) (q_page q) (q_limit q) (q_sort q))).
  unfold get_trades_body, filtered_of.
  do 5 narrow_step w.
  rewrite reply_of_id. apply (handles_narrow w);
    [first [apply extends_refl | assumption] | assumption |].
  intros l' r' w' Hr' Hext. by apply handles_paginate.
Qed.

(** The loop of [search_trades] appends the hits, in order, to the list at
    [s] and touches nothing else. *)
Lemma for_each_append_spec q s items acc w :
  objects w !! s = Some acc →
  for_each items (λ trade,
    if search_hit q trade then append s trade else ret tt) w
  = (Ok tt, mk_world (<[s := acc ++ List.filter (search_hit q) items]> (objects w))
                     (stdout w)).
Proof.
  revert acc w. induction items as [|x rest IH]; intros acc w Hs; simpl.
  - unfold ret. destruct w as [objs out]; simpl in *.
    by rewrite app_nil_r, insert_id.
  - unfold bind at 1. destruct (search_hit q x).
    + unfold append, bind, write. rewrite (read_spec _ _ _ Hs).
      rewrite (IH (acc ++ [x])) by apply lookup_insert_eq. simpl.
      by rewrite insert_insert_eq, <- app_assoc.
    + unfold ret at 1. by apply IH.
Qed.

(** [search_trades] computes [reply_of] over the hits, in collection
    order, and keeps the world's objects. *)
Lemma search_trades_spec trades_db l q page limit sort w :
  objects w !! trades_db = Some l →
  ∃ w', search_trades trades_db q page limit sort w
          = (reply_of (Ok (List.filter (search_hit q) l)) page limit sort, w')
        ∧ extends w w'.
Proof.
  intros Hdb. change (handles w (search_trades_body trades_db q page limit sort) w
    (reply_of (Ok (List.filter (search_hit q) l)) page limit sort)).
  destruct (new_list_spec [] w) as (s & w1 & Hnew & Hfresh & Hobj & Hout).
  destruct (new_list_extends _ _ _ _ Hnew) as [Hs Hext].
  pose proof (extends_lookup _ _ _ _ Hext Hdb) as Hdb1.
  destruct (write_own_extends w w1 s (List.filter (search_hit q) l) Hfresh Hext)
    as [Hext2 Hs2].
  destruct (handles_paginate w s _ page limit sort _ Hext2 Hs2) as (w' & Hrun & Hext').
  exists w'. split; [|done]. rewrite <- Hrun.
  unfold try_except, search_trades_body.
  unfold bind at 1. rewrite Hnew.
  unfold bind at 1. rewrite (read_spec _ _ _ Hdb1).
  unfold bind at 1. rewrite (for_each_append_spec q s l [] w1 Hs).
  reflexivity.
Qed.

(** [get_trade_by_id] prints one line, scans the collection and changes no
    object. *)
Lemma get_trade_by_id_spec trades_db l tid w :
  objects w !! trades_db = Some l →
  get_trade_by_id trades_db tid w
  = (Ok (match first_with_id tid l with
         | Some trade => TradeReply trade
         | None => ErrorReply "Trade not found"
         end),
     mk_world (objects w) (stdout w ++ ["Here"])).
Proof.
  intros Hdb. unfold get_trade_by_id, bind, print, read. simpl. rewrite Hdb.
  by destruct (first_with_id tid l).
Qed.

(** ** Properties of the Python built-ins *)

(** The built-ins on small inputs. *)
Example lower_mixed_case : Py.lower "TeSLa/USD 42" = "tesla/usd 42".
Proof. reflexivity. Qed.

(** Beyond ASCII: accented letters; the capital sigma at the end of a
    word and inside it; the dotted capital I, which becomes two code
    points. *)
Example lower_beyond_ascii :
  Py.lower "SOCIÉTÉ Générale" = "société générale"
  ∧ Py.lower "ΟΔΥΣΣΕΥΣ" = "οδυσσευς"
  ∧ Py.lower "Σ" = "σ"
  ∧ Py.code_points (Py.lower "İ") = [105; 775]%N.
Proof. repeat split; vm_compute; reflexivity. Qed.

(** A string of well-formed UTF-8 is the encoding of its code points. *)
Example encode_code_points :
  Py.code_points "aé€𐐀" = [97; 233; 8364; 66560]%N
  ∧ Py.encode [97; 233; 8364; 66560]%N = "aé€𐐀".
Proof. split; vm_compute; reflexivity. Qed.

Example str_in_middle : Py.str_in "sla" "tesla" = true ∧ Py.str_in "slo" "tesla" = false.
Proof. split; reflexivity. Qed.

Example slice_from_the_end :
  Py.slice [10; 20; 30; 40; 50]%Z (-4) (-1) = [20; 30; 40]%Z
  ∧ Py.slice [10; 20; 30; 40; 50]%Z 3 100 = [40; 50]%Z
  ∧ Py.slice [10; 20; 30; 40; 50]%Z 8 12 = [].
Proof. repeat split; reflexivity. Qed.

Example index_wraps_and_raises :
  Py.index ["a"; "b"; "c"] (-1) = Ok "c"
  ∧ Py.index ["a"; "b"; "c"] 3 = Raise "list index out of range".
Proof. split; reflexivity. Qed.

Example sort_keeps_ties_in_order :
  Py.sort_with fst false [(2, "a"); (1, "b"); (2, "c"); (1, "d")]%Z
    = [(1, "b"); (1, "d"); (2, "a"); (2, "c")]%Z
  ∧ Py.sort_with fst true [(2, "a"); (1, "b"); (2, "c"); (1, "d")]%Z
    = [(2, "a"); (2, "c"); (1, "b"); (1, "d")]%Z.
Proof. split; reflexivity. Qed.

Example float_order :
  Py.float_le (Py.FNum 1) (Py.FInf false) = true
  ∧ Py.float_le Py.FNaN Py.FNaN = false
  ∧ Py.float_truthy Py.FNaN = true
  ∧ Py.float_truthy (Py.FNum 0) = false.
Proof. repeat split; reflexivity. Qed.

Example new_year_2022 :
  Py.datetime_new 2022 1 1 0 0 = Ok (Py.mk_dt 63776592000000000 None)
  ∧ Py.datetime_new 2022 2 29 14 30 = Raise "day is out of range for month".
Proof. split; reflexivity. Qed.

Example str_of_small_ints :
  Py.str_of_int 0 = "0" ∧ Py.str_of_int 7 = "7" ∧ Py.str_of_int 99 = "99".
Proof. repeat split; reflexivity. Qed.

Section SortingFacts.
  Context {A : Type} (key : A → Z).

#[local] Instance ascending_trans : Transitive (ascending key).
Proof. unfold ascending. intros a b c ? ?. lia. Qed.

Lemma insert_sorted_perm x l : Py.insert_sorted key x l ≡ₚ x :: l.
Proof.
  induction l as [|y l IH]; simpl; [done|].
  destruct (key y <? key x)%Z; [|done].
  rewrite IH. apply Permutation_swap.
Qed.

Lemma stable_sort_perm l : Py.stable_sort key l ≡ₚ l.
Proof.
  induction l as [|x l IH]; simpl; [done|].
  by rewrite insert_sorted_perm, IH.
Qed.

Lemma sort_with_perm reverse l : Py.sort_with key reverse l ≡ₚ l.
Proof.
  unfold Py.sort_with. destruct reverse.
  - rewrite <- Permutation_rev, stable_sort_perm. symmetry. apply Permutation_rev.
  - apply stable_sort_perm.
Qed.

Lemma insert_sorted_hd x y l :
  (key y ≤ key x)%Z → HdRel (ascending key) y l →
  HdRel (ascending key) y (Py.insert_sorted key x l).
Proof.
  intros Hyx Hhd. destruct l as [|z l]; simpl.
  - by constructor.
  - destruct (key z <? key x)%Z; constructor; [|done].
    by inversion Hhd.
Qed.

Lemma insert_sorted_Sorted x l :
  Sorted (ascending key) l → Sorted (ascending key) (Py.insert_sorted key x l).
Proof.
  induction 1 as [|y l Hs IH Hhd]; simpl.
  - repeat constructor.
  - destruct (key y <? key x)%Z eqn:Hlt.
    + constructor; [done|]. apply insert_sorted_hd; [|done].
      apply Z.ltb_lt in Hlt. lia.
    + apply Z.ltb_ge in Hlt. repeat constructor; done.
Qed.

Lemma stable_sort_Sorted l : Sorted (ascending key) (Py.stable_sort key l).
Proof.
  induction l as [|x l IH]; simpl; [constructor|].
  by apply insert_sorted_Sorted.
Qed.

Lemma StronglySorted_rev (R : relation A) l :
  StronglySorted R l → StronglySorted (flip R) (rev l).
Proof.
  induction 1 as [|x l Hs IH Hall]; simpl; [constructor|].
  apply StronglySorted_app_2; [|done|repeat constructor].
  intros x1 x2 Hx1 Hx2. apply list_elem_of_singleton in Hx2 as ->.
  rewrite Forall_forall in Hall. apply Hall.
  apply list_elem_of_In, in_rev. by apply list_elem_of_In.
Qed.

Lemma sort_with_Sorted (reverse : bool) l :
  Sorted (if reverse then descending key else ascending key) (Py.sort_with key reverse l).
Proof.
  unfold Py.sort_with. destruct reverse; [|apply stable_sort_Sorted].
  apply StronglySorted_Sorted.
  apply (StronglySorted_rev (ascending key)).
  apply Sorted_StronglySorted; [apply _|apply stable_sort_Sorted].
Qed.

(** A sorted list has every adjacent pair in order. *)
Lemma Sorted_adjacent (R : relation A) l i a b :
  Sorted R l → l !! i = Some a → l !! S i = Some b → R a b.
Proof.
  intros Hs. revert i. induction Hs as [|x l Hs IH Hhd]; intros i Ha Hb; [done|].
  destruct i as [|i]; simpl in *.
  - injection Ha as ->. destruct l as [|y l]; [done|].
    injection Hb as ->. by inversion Hhd.
  - by eapply IH.
Qed.

(** Stability: the elements of any one key keep the order they had. *)
Lemma insert_sorted_stable k x l :
  List.filter (λ a, key a =? k)%Z (Py.insert_sorted key x l)
  = List.filter (λ a, key a =? k)%Z (x :: l).
Proof.
  induction l as [|y l IH]; [done|]. simpl in *.
  destruct (key y <? key x)%Z eqn:Hlt; [|done]. simpl. rewrite IH.
  apply Z.ltb_lt in Hlt.
  destruct (key x =? k)%Z eqn:Hx, (key y =? k)%Z eqn:Hy; try done.
  apply Z.eqb_eq in Hx, Hy. lia.
Qed.

Lemma stable_sort_stable k l :
  List.filter (λ a, key a =? k)%Z (Py.stable_sort key l)
  = List.filter (λ a, key a =? k)%Z l.
Proof.
  induction l as [|x l IH]; [done|]. simpl Py.stable_sort.
  rewrite insert_sorted_stable. simpl. by rewrite IH.
Qed.

Lemma filter_rev (p : A → bool) l : List.filter p (rev l) = rev (List.filter p l).
Proof.
  induction l as [|x l IH]; [done|]. simpl.
  rewrite List.filter_app, IH. simpl. destruct (p x); simpl.
  - done.
  - by rewrite app_nil_r.
Qed.

Lemma sort_with_stable reverse k l :
  List.filter (λ a, key a =? k)%Z (Py.sort_with key reverse l)
  = List.filter (λ a, key a =? k)%Z l.
Proof.
  unfold Py.sort_with. destruct reverse; [|apply stable_sort_stable].
  by rewrite filter_rev, stable_sort_stable, filter_rev, rev_involutive.
Qed.

End SortingFacts.

(** *** Substring test and case folding *)

Lemma starts_with_spec a s :
  Py.starts_with a s = true ↔ ∃ post, s = a +:+ post.
Proof.
  revert s. induction a as [|x a IH]; intros s; simpl.
  - split; [intros _; by exists s|done].
  - destruct s as [|y s].
    + split; [done|]. by intros [post [=]].
    + rewrite andb_true_iff, Ascii.eqb_eq, IH. split.
      * intros [-> [post ->]]. by exists post.
      * intros [post [= -> ->]]. split; [done|]. by exists post.
Qed.

(** [a in s] holds exactly when [s] is some prefix, then [a], then some
    suffix. *)
Lemma str_in_spec a s :
  Py.str_in a s = true ↔ ∃ pre post, s = pre +:+ a +:+ post.
Proof.
  split.
  - induction s as [|c s IH]; simpl; rewrite orb_true_iff.
    + intros [H|H]; [|done]. apply starts_with_spec in H as [post ->].
      by exists "", post.
    + intros [H|H].
      * apply starts_with_spec in H as [post ->]. by exists "", post.
      * destruct (IH H) as (pre & post & ->). by exists (String c pre), post.
  - intros (pre & post & ->). induction pre as [|c pre IH]; simpl.
    + assert (Py.starts_with a (a +:+ post) = true) as Hs
        by (apply starts_with_spec; by exists post).
      destruct (a +:+ post); simpl; by rewrite Hs.
    + by rewrite IH, orb_true_r.
Qed.

(** The empty string occurs in every string. *)
Lemma str_in_empty s : Py.str_in "" s = true.
Proof. by destruct s. Qed.




(** *** Slicing *)

Lemma slice_length_le {A} (l : list A) (start limit : Z) :
  (0 ≤ limit)%Z →
  (Z.of_nat (length (Py.slice l start (start + limit))) ≤ limit)%Z.
Proof.
  intros Hlimit. unfold Py.slice, Py.clamp_index. rewrite length_take.
  destruct (start <? 0)%Z eqn:Hs, (start + limit <? 0)%Z eqn:He;
    rewrite ?Z.ltb_lt, ?Z.ltb_ge in Hs, He; lia.
Qed.

(** From a non-negative offset the slice is the plain zero-based one. *)
Lemma slice_zero_based {A} (l : list A) (start limit : Z) :
  (0 ≤ start)%Z → (0 ≤ limit)%Z →
  Py.slice l start (start + limit)
  = take (Z.to_nat limit) (drop (Z.to_nat start) l).
Proof.
  intros Hstart Hlimit. unfold Py.slice, Py.clamp_index.
  replace (start <? 0)%Z with false by (symmetry; apply Z.ltb_ge; lia).
  replace (start + limit <? 0)%Z with false by (symmetry; apply Z.ltb_ge; lia).
  destruct (decide (Z.of_nat (length l) ≤ start)%Z) as [Hge|Hlt].
  - rewrite !drop_ge by lia. by rewrite !take_nil.
  - replace (Z.to_nat (Z.min start (Z.of_nat (length l)))) with (Z.to_nat start) by lia.
    destruct (decide (start + limit ≤ Z.of_nat (length l))%Z).
    + f_equal. lia.
    + rewrite !take_ge; [done| |]; rewrite length_drop; lia.
Qed.

(** A slice that starts at or after the end is empty. *)
Lemma slice_beyond {A} (l : list A) (start stop : Z) :
  (Z.of_nat (length l) ≤ start)%Z → Py.slice l start stop = [].
Proof.
  intros Hge. unfold Py.slice, Py.clamp_index.
  replace (start <? 0)%Z with false by (symmetry; apply Z.ltb_ge; lia).
  rewrite drop_ge by lia. apply take_nil.
Qed.

Lemma slice_sublist {A} (l : list A) (start stop : Z) :
  sublist (Py.slice l start stop) l.
Proof.
  unfold Py.slice. etrans; [apply sublist_take|apply sublist_drop].
Qed.

(** ** The filters as one predicate *)

Lemma filter_r_Ok cond l kept :
  filter_r cond l = Ok kept → kept = List.filter (λ t, ok_true (cond t)) l.
Proof.
  revert kept. induction l as [|t l IH]; simpl; intros kept.
  - by intros [= <-].
  - destruct (cond t) as [b|e]; simpl; [|done].
    destruct (filter_r cond l) as [rest|e]; simpl; [|done].
    intros [= <-]. by rewrite (IH rest).
Qed.

Lemma filter_r_pure (p : Trade → bool) l :
  filter_r (λ t, Ok (p t)) l = Ok (List.filter p l).
Proof.
  induction l as [|t l IH]; simpl; [done|]. by rewrite IH.
Qed.

Lemma filter_all {A} (l : list A) : List.filter (λ _, true) l = l.
Proof. induction l as [|x l IH]; simpl; [done|]. by rewrite IH. Qed.

Lemma filter_filter {A} (p1 p2 : A → bool) l :
  List.filter p2 (List.filter p1 l) = List.filter (λ x, p1 x && p2 x) l.
Proof.
  induction l as [|x l IH]; simpl; [done|].
  destruct (p1 x); simpl; [destruct (p2 x)|]; by rewrite IH.
Qed.

Lemma narrowed_Ok {P} (param : option P) truthy cond l kept :
  narrowed param truthy cond l = Ok kept →
  kept = List.filter (applied param truthy cond) l.
Proof.
  unfold narrowed, applied. destruct param as [p|]; [destruct (truthy p)|].
  - apply filter_r_Ok.
  - intros [= <-]. by rewrite filter_all.
  - intros [= <-]. by rewrite filter_all.
Qed.

Lemma filtered_of_Ok q l kept :
  filtered_of q l = Ok kept → kept = List.filter (keeps q) l.
Proof.
  unfold filtered_of, keeps.
  repeat (
    match goal with
    | |- result_bind ?a _ = _ → _ =>
        let l' := fresh "l" in let H := fresh "H" in
        destruct a as [l'|] eqn:H; simpl; [|done];
        apply narrowed_Ok in H
    end).
  intros H5. apply narrowed_Ok in H5. subst.
  by rewrite !(filter_filter _ _ l).
Qed.

(** What a page reply says about the list it was cut from. *)
Lemma reply_of_page found page limit sort total pg trades :
  reply_of found page limit sort = PageReply total pg trades →
  ∃ kept, found = Ok kept ∧ total = length kept ∧ pg = page ∧
    let paginated := Py.slice kept ((page - 1) * limit) ((page - 1) * limit + limit) in
    mixed_awareness paginated = false ∧
    trades = Py.sort_with date_key (String.eqb (Py.lower sort) "desc") paginated.
Proof.
  unfold reply_of, page_of. destruct found as [kept|e]; [|done].
  simpl. destruct (mixed_awareness _) eqn:Hmixed; [done|].
  intros [= <- <- <-]. by exists kept.
Qed.

Lemma get_trades_page trades_db l q w total pg trades :
  objects w !! trades_db = Some l →
  (get_trades trades_db q w).1 = PageReply total pg trades →
  let kept := List.filter (keeps q) l in
  let paginated := Py.slice kept ((q_page q - 1) * q_limit q)
                                 ((q_page q - 1) * q_limit q + q_limit q) in
  total = length kept ∧ pg = q_page q ∧ mixed_awareness paginated = false ∧
  trades = Py.sort_with date_key (String.eqb (Py.lower (q_sort q)) "desc") paginated.
Proof.
  intros Hdb Hreply.
  destruct (get_trades_spec trades_db l q w Hdb) as (w' & Hrun & _).
  rewrite Hrun in Hreply. cbn [fst] in Hreply.
  apply reply_of_page in Hreply as (kept & Hkept & -> & -> & Hmixed & ->).
  apply filtered_of_Ok in Hkept as ->. done.
Qed.

Lemma search_trades_page trades_db l q page limit sort w total pg trades :
  objects w !! trades_db = Some l →
  (search_trades trades_db q page limit sort w).1 = PageReply total pg trades →
  let kept := List.filter (search_hit q) l in
  let paginated := Py.slice kept ((page - 1) * limit) ((page - 1) * limit + limit) in
  total = length kept ∧ pg = page ∧ mixed_awareness paginated = false ∧
  trades = Py.sort_with date_key (String.eqb (Py.lower sort) "desc") paginated.
Proof.
  intros Hdb Hreply.
  destruct (search_trades_spec trades_db l q page limit sort w Hdb) as (w' & Hrun & _).
  rewrite Hrun in Hreply. cbn [fst] in Hreply.
  apply reply_of_page in Hreply as (kept & [= <-] & -> & -> & Hmixed & ->).
  done.
Qed.

(** *** Comparing the dates of one page *)

Lemma existsb_false_elem {A} (p : A → bool) l x :
  existsb p l = false → x ∈ l → p x = false.
Proof.
  intros Hex Hx. destruct (p x) eqn:Hp; [|done].
  rewrite <- Hex. symmetry. apply existsb_exists. exists x.
  split; [by apply list_elem_of_In|done].
Qed.

(** Within a list that sorted without a TypeError, datetimes compare as
    their sort keys do. *)
Lemma compare_in_page op l a b :
  mixed_awareness l = false → a ∈ l → b ∈ l →
  Py.dt_compare op (trade_date_time a) (trade_date_time b)
  = Ok (op (date_key a) (date_key b)).
Proof.
  intros Hmixed Ha Hb. unfold mixed_awareness in Hmixed.
  apply andb_false_iff in Hmixed as [Hnone|Hnone];
    pose proof (existsb_false_elem _ _ _ Hnone Ha) as Ha';
    pose proof (existsb_false_elem _ _ _ Hnone Hb) as Hb';
    simpl in Ha', Hb'; unfold Py.is_aware in Ha', Hb';
    unfold Py.dt_compare, date_key, Py.dt_instant;
    destruct (Py.dt_utcoffset (trade_date_time a)),
             (Py.dt_utcoffset (trade_date_time b)); done.
Qed.

(** ** Sort order of the returned page *)

Lemma sorted_page_in_order sort paginated i a b :
  mixed_awareness paginated = false →
  Py.sort_with date_key (String.eqb (Py.lower sort) "desc") paginated !! i = Some a →
  Py.sort_with date_key (String.eqb (Py.lower sort) "desc") paginated !! S i = Some b →
  in_sort_order sort a b.
Proof.
  intros Hmixed Ha Hb.
  assert (a ∈ paginated) as Hain.
  { rewrite <- (sort_with_perm date_key (String.eqb (Py.lower sort) "desc")).
    by eapply list_elem_of_lookup_2. }
  assert (b ∈ paginated) as Hbin.
  { rewrite <- (sort_with_perm date_key (String.eqb (Py.lower sort) "desc")).
    by eapply list_elem_of_lookup_2. }
  pose proof (Sorted_adjacent _ _ _ _ _
    (sort_with_Sorted date_key (String.eqb (Py.lower sort) "desc") paginated) Ha Hb)
    as Hord.
  unfold in_sort_order, Py.dt_ge, Py.dt_le.
  rewrite !(compare_in_page _ paginated) by done.
  split; intros Hsort.
  - apply String.eqb_eq in Hsort. rewrite Hsort in Hord.
    f_equal. apply Z.geb_le. exact Hord.
  - apply String.eqb_neq in Hsort. rewrite Hsort in Hord.
    f_equal. apply Z.leb_le. exact Hord.
Qed.

(** C1 (as amended): in the page that the list endpoint or the search
    endpoint returns, every adjacent pair is in date order: date[i] >=
    date[i+1] when sort, lower-cased, is "desc", and date[i] <= date[i+1]
    for every other value of sort ("asc" in any case, and any invalid
    value). *)
Theorem page_sorted_by_date trades_db l w q sq page limit sort total pg trades i a b :
  objects w !! trades_db = Some l →
  trades !! i = Some a → trades !! S i = Some b →
  ((get_trades trades_db q w).1 = PageReply total pg trades →
     in_sort_order (q_sort q) a b) ∧
  ((search_trades trades_db sq page limit sort w).1 = PageReply total pg trades →
     in_sort_order sort a b).
Proof.
  intros Hdb Ha Hb. split; intros Hreply.
  - destruct (get_trades_page _ _ _ _ _ _ _ Hdb Hreply) as (_ & _ & Hmixed & Htrades).
    rewrite Htrades in Ha, Hb. by eapply sorted_page_in_order.
  - destruct (search_trades_page _ _ _ _ _ _ _ _ _ _ Hdb Hreply)
      as (_ & _ & Hmixed & Htrades).
    rewrite Htrades in Ha, Hb. by eapply sorted_page_in_order.
Qed.

Lemma page_sorted_by_date_witness :
  in_sort_order "ASC" trade1 trade0 ∧ in_sort_order "ASC" trade1 trade0.
Proof.
  split.
  - apply (proj1 (page_sorted_by_date 0 sample_db sample_world
        (list_query 1 4 "ASC") "" 1 4 "ASC" 5 1 [trade3; trade1; trade0; trade2]
        1 trade1 trade0 eq_refl eq_refl eq_refl)).
    vm_compute. reflexivity.
  - apply (proj2 (page_sorted_by_date 0 sample_db sample_world
        (list_query 1 4 "ASC") "" 1 4 "ASC" 5 1 [trade3; trade1; trade0; trade2]
        1 trade1 trade0 eq_refl eq_refl eq_refl)).
    vm_compute. reflexivity.
Defined.

(** With sort="sideways", neither "asc" nor "desc", the list endpoint
    returns the first page in ascending order, so its first two trades are
    not in the order first stated for invalid values. *)
Lemma invalid_sort_is_ascending :
  (get_trades 0 (list_query 1 4 "sideways") sample_world).1
    = PageReply 5 1 [trade3; trade1; trade0; trade2]
  ∧ Py.dt_ge (trade_date_time trade3) (trade_date_time trade1) = Ok false
  ∧ ¬ stated_sort_order "sideways" trade3 trade1.
Proof.
  split; [vm_compute; reflexivity|]. split; [vm_compute; reflexivity|].
  intros [_ Hdesc]. assert (Py.lower "sideways" ≠ "asc") as Hne by (vm_compute; congruence).
  specialize (Hdesc Hne). vm_compute in Hdesc. congruence.
Qed.

(** ** Supplied parameters and applied filters *)

Lemma applied_supplied {P} (param : option P) truthy cond t :
  effective truthy param = true → applied param truthy cond t = supplied param cond t.
Proof. unfold effective, applied, supplied. destruct param; [|done]. by intros ->. Qed.

Lemma applied_always {P} (param : option P) cond t :
  applied param always cond t = supplied param cond t.
Proof. by destruct param. Qed.

Lemma keeps_supplied q t :
  every_parameter_effective q = true → keeps q t = satisfies_supplied q t.
Proof.
  unfold every_parameter_effective. rewrite !andb_true_iff.
  intros [[[Ha Hmax] Hmin] Hty].
  unfold keeps, satisfies_supplied, satisfies_other.
  rewrite !applied_always, !applied_supplied by done.
  repeat match goal with |- context [supplied ?p ?c t] =>
    generalize (supplied p c t); intros ? end.
  repeat match goal with b : bool |- _ => destruct b end; reflexivity.
Qed.

Lemma filter_keeps_supplied q l :
  every_parameter_effective q = true →
  List.filter (keeps q) l = List.filter (satisfies_supplied q) l.
Proof.
  intros Heff. apply List.filter_ext. intros t. by apply keeps_supplied.
Qed.

(** ** Page size and total count *)

(** C2 (as amended): for a request to the list endpoint with page >= 1 and
    limit >= 1 that is answered with a page, at most limit trades are
    returned; total_count is the number of records that pass the filters
    the handler applies (those of the supplied parameters that are truthy),
    which is the number satisfying all supplied predicates when no supplied
    parameter is zero or empty; total_count is the same for every page and
    limit; and a page that starts at or beyond total_count is empty. *)
Theorem page_size_and_total_count trades_db l w q total pg trades :
  objects w !! trades_db = Some l →
  (1 ≤ q_page q)%Z → (1 ≤ q_limit q)%Z →
  (get_trades trades_db q w).1 = PageReply total pg trades →
  (Z.of_nat (length trades) ≤ q_limit q)%Z
  ∧ total = length (List.filter (keeps q) l)
  ∧ (every_parameter_effective q = true →
       total = length (List.filter (satisfies_supplied q) l))
  ∧ (∀ page' limit' total' pg' trades',
       (get_trades trades_db (with_page page' limit' q) w).1
         = PageReply total' pg' trades' → total' = total)
  ∧ ((Z.of_nat total ≤ (q_page q - 1) * q_limit q)%Z → trades = []).
Proof.
  intros Hdb Hpage Hlimit Hreply.
  destruct (get_trades_page _ _ _ _ _ _ _ Hdb Hreply) as (Htotal & _ & _ & Htrades).
  split; [|split; [done|split; [|split]]].
  - rewrite Htrades, (Permutation_length (sort_with_perm _ _ _)).
    apply slice_length_le. lia.
  - intros Heff. by rewrite <- filter_keeps_supplied.
  - intros page' limit' total' pg' trades' Hreply'.
    destruct (get_trades_page _ _ _ _ _ _ _ Hdb Hreply') as (-> & _).
    by rewrite Htotal.
  - intros Hbeyond. rewrite Htrades, slice_beyond by (by rewrite <- Htotal).
    by destruct (String.eqb _ _).
Qed.

Lemma page_size_and_total_count_witness :
  (Z.of_nat (length (@nil Trade)) ≤ 4)%Z
  ∧ 5 = length (List.filter (keeps (list_query 1000 4 "desc")) sample_db)
  ∧ (every_parameter_effective (list_query 1000 4 "desc") = true →
       5 = length (List.filter (satisfies_supplied (list_query 1000 4 "desc")) sample_db))
  ∧ (∀ page' limit' total' pg' trades',
       (get_trades 0 (with_page page' limit' (list_query 1000 4 "desc")) sample_world).1
         = PageReply total' pg' trades' → total' = 5)
  ∧ ((Z.of_nat 5 ≤ (1000 - 1) * 4)%Z → @nil Trade = []).
Proof.
  apply (page_size_and_total_count 0 sample_db sample_world
           (list_query 1000 4 "desc") 5 1000 [] eq_refl).
  - vm_compute. congruence.
  - vm_compute. congruence.
  - vm_compute. reflexivity.
Defined.

(** A request with max_price=0 supplies the predicate price <= 0, which no
    trade of the sample satisfies; the handler skips the filter and counts
    all five. *)
Lemma zero_max_price_counts_every_trade :
  let q := {| q_asset_class := None; q_end := None;
              q_max_price := Some (Py.FNum 0); q_min_price := None;
              q_start := None; q_trade_type := None;
              q_page := 1; q_limit := 4; q_sort := "desc" |} in
  (get_trades 0 q sample_world).1 = PageReply 5 1 [trade2; trade0; trade1; trade3]
  ∧ length (List.filter (satisfies_supplied q) sample_db) = 0
  ∧ 5 ≠ length (List.filter (satisfies_supplied q) sample_db).
Proof.
  split; [vm_compute; reflexivity|]. split; [vm_compute; reflexivity|].
  vm_compute. congruence.
Qed.

(** ** The page is a slice of the filtered collection, sorted afterwards *)

Lemma zero_based_slice_valid {A} (l : list A) (start limit : Z) :
  (0 ≤ start)%Z → (0 ≤ limit)%Z →
  zero_based_slice l start (start + limit) = Py.slice l start (start + limit)
  ∧ zero_based_slice l start (start + limit)
    = take (Z.to_nat limit) (drop (Z.to_nat start) l).
Proof.
  intros Hstart Hlimit. rewrite slice_zero_based by done.
  unfold zero_based_slice.
  by replace (Z.to_nat (start + limit) - Z.to_nat start) with (Z.to_nat limit) by lia.
Qed.

(** C3 (as amended): for a request to the list endpoint with page >= 1
    and limit >= 0 that is answered with a page, the filtered collection
    keeps the order of the collection, the trades of the page are those of
    its zero-based slice from (page-1)*limit to (page-1)*limit + limit,
    and only that slice is sorted: the page is the slice sorted by date,
    every adjacent pair of it in the order the sort parameter asks for. *)
Theorem page_is_sorted_slice trades_db l w q total pg trades :
  objects w !! trades_db = Some l →
  (1 ≤ q_page q)%Z → (0 ≤ q_limit q)%Z →
  (get_trades trades_db q w).1 = PageReply total pg trades →
  let filtered := List.filter (keeps q) l in
  let start_index := ((q_page q - 1) * q_limit q)%Z in
  let paginated := zero_based_slice filtered start_index (start_index + q_limit q) in
  sublist filtered l
  ∧ sublist paginated filtered
  ∧ paginated = take (Z.to_nat (q_limit q)) (drop (Z.to_nat start_index) filtered)
  ∧ trades ≡ₚ paginated
  ∧ trades = Py.sort_with date_key (String.eqb (Py.lower (q_sort q)) "desc") paginated
  ∧ (∀ i a b, trades !! i = Some a → trades !! S i = Some b →
       in_sort_order (q_sort q) a b).
Proof.
  intros Hdb Hpage Hlimit Hreply filtered start_index paginated.
  destruct (get_trades_page _ _ _ _ _ _ _ Hdb Hreply) as (_ & _ & Hmixed & Htrades).
  assert (0 ≤ start_index)%Z as Hstart by (subst start_index; nia).
  destruct (zero_based_slice_valid filtered start_index (q_limit q) Hstart Hlimit)
    as [Hslice Htake].
  fold filtered start_index in Hmixed, Htrades.
  rewrite <- Hslice in Hmixed, Htrades. fold paginated in Hmixed, Htrades.
  split; [|split; [|split; [|split; [|split]]]].
  - subst filtered. clear. induction l as [|t l IH]; simpl; [done|].
    destruct (keeps q t); by constructor.
  - subst paginated. rewrite Hslice. apply slice_sublist.
  - exact Htake.
  - rewrite Htrades. apply sort_with_perm.
  - exact Htrades.
  - intros i a b Ha Hb. rewrite Htrades in Ha, Hb.
    by eapply sorted_page_in_order.
Qed.

Lemma page_is_sorted_slice_witness :
  let q := list_query 1 4 "desc" in
  let paginated := zero_based_slice (List.filter (keeps q) sample_db) 0 4 in
  paginated = [trade0; trade1; trade2; trade3]
  ∧ [trade2; trade0; trade1; trade3] ≡ₚ paginated
  ∧ in_sort_order "desc" trade2 trade0
  ∧ in_sort_order "desc" trade0 trade1
  ∧ in_sort_order "desc" trade1 trade3.
Proof.
  intros q paginated. split; [reflexivity|].
  destruct (page_is_sorted_slice 0 sample_db sample_world (list_query 1 4 "desc")
              5 1 [trade2; trade0; trade1; trade3] eq_refl
              ltac:(simpl; lia) ltac:(simpl; lia) eq_refl)
    as (_ & _ & _ & Hperm & _ & Hsorted).
  split; [exact Hperm|].
  split; [exact (Hsorted 0 trade2 trade0 eq_refl eq_refl)|].
  split; [exact (Hsorted 1 trade0 trade1 eq_refl eq_refl)|].
  exact (Hsorted 2 trade1 trade3 eq_refl eq_refl).
Defined.

(** With page=-1 and limit=2 the slice runs from -4 to -2.  No position
    of the collection lies there, yet the page holds two trades: the
    handler counts a negative index from the end of the list. *)
Lemma negative_page_is_not_zero_based :
  let q := list_query (-1) 2 "desc" in
  let filtered := List.filter (keeps q) sample_db in
  let start_index := ((q_page q - 1) * q_limit q)%Z in
  start_index = (-4)%Z
  ∧ (get_trades 0 q sample_world).1 = PageReply 5 (-1) [trade2; trade1]
  ∧ zero_based_slice filtered start_index (start_index + q_limit q) = []
  ∧ ¬ [trade2; trade1]
      ≡ₚ zero_based_slice filtered start_index (start_index + q_limit q).
Proof.
  intros q filtered start_index.
  split; [reflexivity|]. split; [vm_compute; reflexivity|].
  split; [reflexivity|].
  change (zero_based_slice filtered start_index (start_index + q_limit q))
    with (@nil Trade).
  intros Hperm. by apply Permutation_length in Hperm.
Qed.

(** Sorting the whole collection first would put the two latest trades,
    [trade2] and [trade4], on the first page of two; the handler returns
    the first two of the collection instead. *)
Example sort_follows_pagination :
  (get_trades 0 (list_query 1 2 "desc") sample_world).1
    = PageReply 5 1 [trade0; trade1]
  ∧ take 2 (Py.sort_with date_key true sample_db) = [trade2; trade4].
Proof. split; vm_compute; reflexivity. Qed.

(** ** Price bounds *)

Lemma float_eq_le a b : Py.float_eq a b = true → Py.float_le a b = true.
Proof.
  destruct a as [x|[]|], b as [y|[]|]; simpl; try done.
  intros Heq. apply Qeq_bool_iff in Heq. apply Qle_bool_iff.
  rewrite Heq. apply Qle_refl.
Qed.

Lemma float_eq_ge a b : Py.float_eq a b = true → Py.float_ge a b = true.
Proof.
  unfold Py.float_ge.
  destruct a as [x|[]|], b as [y|[]|]; simpl; try done.
  intros Heq. apply Qeq_bool_iff in Heq. apply Qle_bool_iff.
  rewrite Heq. apply Qle_refl.
Qed.

(** C4 (as amended): for a request to the list endpoint that supplies
    min_price and max_price, both non-zero, and no other zero or empty
    parameter, and that is answered with a page, a record is counted in
    total_count if and only if it satisfies every supplied predicate; the
    price bounds are inclusive, min_price <= price <= max_price, so a
    record whose price equals a bound passes that bound. *)
Theorem price_bounds_inclusive trades_db l w q lo hi total pg trades :
  objects w !! trades_db = Some l →
  q_min_price q = Some lo → q_max_price q = Some hi →
  every_parameter_effective q = true →
  (get_trades trades_db q w).1 = PageReply total pg trades →
  total = length (List.filter (satisfies_supplied q) l)
  ∧ (∀ t, satisfies_supplied q t = true ↔
          satisfies_other q t = true
          ∧ Py.float_le lo (price (trade_details t)) = true
          ∧ Py.float_le (price (trade_details t)) hi = true)
  ∧ (∀ t, Py.float_eq (price (trade_details t)) lo = true →
          Py.float_ge (price (trade_details t)) lo = true)
  ∧ (∀ t, Py.float_eq (price (trade_details t)) hi = true →
          Py.float_le (price (trade_details t)) hi = true).
Proof.
  intros Hdb Hlo Hhi Heff Hreply.
  destruct (get_trades_page _ _ _ _ _ _ _ Hdb Hreply) as (Htotal & _).
  split; [by rewrite <- filter_keeps_supplied|]. split; [|split].
  - intros t. unfold satisfies_supplied. rewrite Hlo, Hhi. simpl.
    unfold Py.float_ge. rewrite !andb_true_iff. tauto.
  - intros t. apply float_eq_ge.
  - intros t. apply float_eq_le.
Qed.

Lemma price_bounds_inclusive_witness :
  3 = length (List.filter (satisfies_supplied (price_query (Py.FNum 100) (Py.FNum 250)))
                          sample_db)
  ∧ satisfies_supplied (price_query (Py.FNum 100) (Py.FNum 250)) trade0 = true
  ∧ satisfies_supplied (price_query (Py.FNum 100) (Py.FNum 250)) trade1 = true
  ∧ satisfies_supplied (price_query (Py.FNum 100) (Py.FNum 250)) trade3 = false.
Proof.
  split; [|vm_compute; done].
  apply (price_bounds_inclusive 0 sample_db sample_world
           (price_query (Py.FNum 100) (Py.FNum 250)) (Py.FNum 100) (Py.FNum 250)
           3 1 [trade4; trade0; trade1] eq_refl eq_refl eq_refl eq_refl).
  vm_compute. reflexivity.
Defined.

(** A request with min_price=200 and max_price=0 supplies two bounds that
    no price meets together, yet three trades are counted: the zero bound
    is skipped. *)
Lemma zero_bound_is_not_a_bound :
  (get_trades 0 (price_query (Py.FNum 200) (Py.FNum 0)) sample_world).1
    = PageReply 3 1 [trade4; trade1; trade3]
  ∧ (∀ t, ¬ (Py.float_le (Py.FNum 200) (price (trade_details t)) = true
             ∧ Py.float_le (price (trade_details t)) (Py.FNum 0) = true))
  ∧ length (List.filter (satisfies_supplied (price_query (Py.FNum 200) (Py.FNum 0)))
                        sample_db) = 0.
Proof.
  split; [vm_compute; reflexivity|]. split; [|vm_compute; reflexivity].
  intros t [Hlo Hhi]. destruct (price (trade_details t)) as [p|[]|]; simpl in *; try done.
  apply Qle_bool_iff in Hlo, Hhi.
  pose proof (Qle_trans _ _ _ Hlo Hhi) as H. by vm_compute in H.
Qed.

(** ** Search *)

Lemma lower_empty : Py.lower "" = "".
Proof. reflexivity. Qed.

Lemma search_hit_empty t : search_hit "" t = true.
Proof.
  unfold search_hit. rewrite lower_empty.
  by rewrite (str_in_empty (Py.lower (instrument_id t))), orb_true_r.
Qed.

(** C5 (as amended): a search with q="" matches every record; when it is
    answered with a page, total_count is the size of the collection and
    the page is the pagination slice of the whole collection, sorted as
    every page is. *)
Theorem empty_query_matches_all trades_db l w page limit sort total pg trades :
  objects w !! trades_db = Some l →
  (search_trades trades_db "" page limit sort w).1 = PageReply total pg trades →
  let start_index := ((page - 1) * limit)%Z in
  let paginated := Py.slice l start_index (start_index + limit) in
  (∀ t, search_hit "" t = true)
  ∧ List.filter (search_hit "") l = l
  ∧ total = length l
  ∧ pg = page
  ∧ trades ≡ₚ paginated
  ∧ trades = Py.sort_with date_key (String.eqb (Py.lower sort) "desc") paginated
  ∧ ((1 ≤ page)%Z → (0 ≤ limit)%Z →
       paginated = zero_based_slice l start_index (start_index + limit)).
Proof.
  intros Hdb Hreply start_index paginated.
  assert (List.filter (search_hit "") l = l) as Hall.
  { rewrite <- (filter_all l) at 2. apply List.filter_ext, search_hit_empty. }
  destruct (search_trades_page _ _ _ _ _ _ _ _ _ _ Hdb Hreply)
    as (Htotal & Hpg & _ & Htrades).
  rewrite Hall in Htotal, Htrades. fold start_index paginated in Htrades.
  split; [apply search_hit_empty|]. split; [done|]. split; [done|].
  split; [done|]. split; [|split; [done|]].
  - rewrite Htrades. apply sort_with_perm.
  - intros Hpage Hlimit. subst paginated. symmetry.
    apply zero_based_slice_valid; [|done]. subst start_index. nia.
Qed.

Lemma empty_query_matches_all_witness :
  5 = length sample_db
  ∧ [trade4] ≡ₚ Py.slice sample_db 4 8
  ∧ Py.slice sample_db 4 8 = [trade4].
Proof.
  destruct (empty_query_matches_all 0 sample_db sample_world 2 4 "asc"
              5 2 [trade4] eq_refl eq_refl)
    as (_ & _ & Htotal & _ & Hperm & _).
  split; [exact Htotal|]. split; [exact Hperm|reflexivity].
Defined.

(** Over a collection of two trades, one with a naive date and one with
    an aware date, the search with q="" is answered with the error object
    of the sort's TypeError: there is no total_count and no page. *)
Lemma empty_query_over_mixed_dates_is_an_error :
  length mixed_db = 2
  ∧ (search_trades 0 "" 1 4 "desc" mixed_world).1 = ErrorReply Py.naive_aware_msg
  ∧ (∀ pg trades, (search_trades 0 "" 1 4 "desc" mixed_world).1
                  ≠ PageReply (length mixed_db) pg trades).
Proof.
  split; [reflexivity|].
  assert ((search_trades 0 "" 1 4 "desc" mixed_world).1
          = ErrorReply Py.naive_aware_msg) as Herr by (vm_compute; reflexivity).
  split; [exact Herr|]. intros pg trades. rewrite Herr. discriminate.
Qed.

Lemma search_hit_spec q t : search_hit q t = true ↔ matches_a_field q t.
Proof.
  unfold search_hit, matches_a_field, occurs_ignoring_case.
  rewrite !orb_true_iff. split.
  - intros [[[H|H]|H]|H].
    + destruct (counterparty t) as [c|]; [|done].
      left. exists c. split; [done|]. by apply str_in_spec.
    + right; left. by apply str_in_spec.
    + right; right; left. by apply str_in_spec.
    + right; right; right. by apply str_in_spec.
  - intros [(c & -> & H)|[H|[H|H]]]; apply str_in_spec in H; tauto.
Qed.






(** ** Lookup by id *)

Lemma opt_str_eqb_spec field s : opt_str_eqb field s = true ↔ field = Some s.
Proof.
  destruct field as [x|]; simpl; [|done].
  rewrite String.eqb_eq. split; congruence.
Qed.

Lemma first_with_id_spec tid l :
  match first_with_id tid l with
  | Some t => ∃ before after, l = before ++ t :: after ∧ trade_id t = Some tid
                ∧ Forall (λ u, trade_id u ≠ Some tid) before
  | None => Forall (λ u, trade_id u ≠ Some tid) l
  end.
Proof.
  induction l as [|x l IH]; simpl; [constructor|].
  destruct (opt_str_eqb (trade_id x) tid) eqn:Hx.
  - exists [], l. split; [done|]. split; [by apply opt_str_eqb_spec|constructor].
  - assert (trade_id x ≠ Some tid) as Hne.
    { intros H. apply opt_str_eqb_spec in H. congruence. }
    destruct (first_with_id tid l) as [t|].
    + destruct IH as (before & after & -> & Ht & Hbefore).
      exists (x :: before), after. split; [done|]. split; [done|by constructor].
    + by constructor.
Qed.

(** C7: get-by-id scans the collection in order and replies with the first
    record whose tradeId equals trade_id, or, when no record has it, with
    the object {"error": "Trade not found"}. *)
Theorem get_by_id_first_match trades_db l w tid :
  objects w !! trades_db = Some l →
  (∃ before t after,
      l = before ++ t :: after
      ∧ Forall (λ u, trade_id u ≠ Some tid) before
      ∧ trade_id t = Some tid
      ∧ (get_trade_by_id trades_db tid w).1 = Ok (TradeReply t))
  ∨ (Forall (λ u, trade_id u ≠ Some tid) l
     ∧ (get_trade_by_id trades_db tid w).1 = Ok (ErrorReply "Trade not found")).
Proof.
  intros Hdb. rewrite (get_trade_by_id_spec _ _ _ _ Hdb). cbn [fst].
  pose proof (first_with_id_spec tid l) as Hscan.
  destruct (first_with_id tid l) as [t|].
  - left. destruct Hscan as (before & after & Hl & Ht & Hbefore).
    by exists before, t, after.
  - by right.
Qed.

Lemma get_by_id_first_match_witness :
  ((∃ before t after,
       sample_db = before ++ t :: after
       ∧ Forall (λ u, trade_id u ≠ Some "3") before
       ∧ trade_id t = Some "3"
       ∧ (get_trade_by_id 0 "3" sample_world).1 = Ok (TradeReply t))
   ∨ (Forall (λ u, trade_id u ≠ Some "3") sample_db
      ∧ (get_trade_by_id 0 "3" sample_world).1 = Ok (ErrorReply "Trade not found")))
  ∧ (get_trade_by_id 0 "3" sample_world).1 = Ok (TradeReply trade3)
  ∧ (get_trade_by_id 0 "9999" sample_world).1 = Ok (ErrorReply "Trade not found").
Proof.
  split; [exact (get_by_id_first_match 0 sample_db sample_world "3" eq_refl)|].
  split; vm_compute; reflexivity.
Defined.

(** ** The collection is never written to *)

(** C8: no request changes the stored collection: after a call to the
    list, search or get-by-id endpoint, with any parameters, the list that
    [trades_db] names, and every other list object that existed before the
    call, has the contents it had; sorting the page does not reorder the
    collection. *)
Theorem requests_keep_collection trades_db l w q sq page limit sort tid :
  objects w !! trades_db = Some l →
  (objects (get_trades trades_db q w).2 !! trades_db = Some l
   ∧ objects (search_trades trades_db sq page limit sort w).2 !! trades_db = Some l
   ∧ objects (get_trade_by_id trades_db tid w).2 !! trades_db = Some l)
  ∧ (∀ r l', objects w !! r = Some l' →
       objects (get_trades trades_db q w).2 !! r = Some l'
       ∧ objects (search_trades trades_db sq page limit sort w).2 !! r = Some l'
       ∧ objects (get_trade_by_id trades_db tid w).2 !! r = Some l').
Proof.
  intros Hdb.
  assert (∀ r l', objects w !! r = Some l' →
       objects (get_trades trades_db q w).2 !! r = Some l'
       ∧ objects (search_trades trades_db sq page limit sort w).2 !! r = Some l'
       ∧ objects (get_trade_by_id trades_db tid w).2 !! r = Some l') as Hframe.
  { intros r l' Hr.
    destruct (get_trades_spec trades_db l q w Hdb) as (w1 & -> & Hext1).
    destruct (search_trades_spec trades_db l sq page limit sort w Hdb)
      as (w2 & -> & Hext2).
    rewrite (get_trade_by_id_spec _ _ _ _ Hdb). cbn [snd objects].
    split; [by eapply extends_lookup|]. split; [by eapply extends_lookup|done]. }
  split; [by apply Hframe|done].
Qed.

Lemma requests_keep_collection_witness :
  (get_trades 0 (list_query 1 4 "desc") sample_world).1
    = PageReply 5 1 [trade2; trade0; trade1; trade3]
  ∧ objects (get_trades 0 (list_query 1 4 "desc") sample_world).2 !! 0 = Some sample_db
  ∧ objects (search_trades 0 "john" 1 4 "asc" sample_world).2 !! 0 = Some sample_db
  ∧ objects (get_trade_by_id 0 "3" sample_world).2 !! 0 = Some sample_db.
Proof.
  split; [vm_compute; reflexivity|].
  exact (proj1 (requests_keep_collection 0 sample_db sample_world
                  (list_query 1 4 "desc") "john" 1 4 "asc" "3" eq_refl)).
Defined.

(** ** Parameters that are present but falsy *)

(** C10: at the list endpoint, max_price=0, min_price=0 and asset_class=""
    each behave exactly as the absent parameter: the filter is not applied,
    because the handler tests the parameter's truthiness; the reply and the
    final store are those of the request without the parameter.  The same
    holds for every float that is falsy. *)
Theorem falsy_parameters_are_ignored trades_db q w :
  get_trades trades_db (with_max_price (Some (Py.FNum 0)) q) w
    = get_trades trades_db (with_max_price None q) w
  ∧ get_trades trades_db (with_min_price (Some (Py.FNum 0)) q) w
    = get_trades trades_db (with_min_price None q) w
  ∧ get_trades trades_db (with_asset_class (Some "") q) w
    = get_trades trades_db (with_asset_class None q) w
  ∧ (∀ z, Py.float_truthy z = false →
       get_trades trades_db (with_max_price (Some z) q) w
         = get_trades trades_db (with_max_price None q) w
       ∧ get_trades trades_db (with_min_price (Some z) q) w
         = get_trades trades_db (with_min_price None q) w).
Proof.
  assert (∀ z, Py.float_truthy z = false →
       get_trades trades_db (with_max_price (Some z) q) w
         = get_trades trades_db (with_max_price None q) w
       ∧ get_trades trades_db (with_min_price (Some z) q) w
         = get_trades trades_db (with_min_price None q) w) as Hzero.
  { intros z Hz. unfold get_trades, get_trades_body, narrow.
    cbn [with_max_price with_min_price q_asset_class q_end q_max_price
         q_min_price q_start q_trade_type q_page q_limit q_sort].
    by rewrite Hz. }
  destruct (Hzero (Py.FNum 0) eq_refl) as [Hmax Hmin].
  split; [done|]. split; [done|]. split; [|done].
  unfold get_trades, get_trades_body, narrow.
  cbn [with_asset_class q_asset_class q_end q_max_price q_min_price q_start
       q_trade_type q_page q_limit q_sort Py.str_truthy].
  reflexivity.
Qed.

(** With max_price=0 the sample request is answered as with no max_price. *)
Example zero_max_price_example :
  (get_trades 0 (with_max_price (Some (Py.FNum 0)) (list_query 1 4 "desc"))
     sample_world).1
  = PageReply 5 1 [trade2; trade0; trade1; trade3].
Proof. vm_compute. reflexivity. Qed.

(** ** The generated collection *)

Lemma index_in_range {A} (l : list A) (k : Z) :
  (0 ≤ k < Z.of_nat (length l))%Z →
  ∃ x, Py.index l k = Ok x ∧ l !! Z.to_nat k = Some x.
Proof.
  intros Hk. unfold Py.index. cbv zeta.
  assert ((k <? 0)%Z = false) as Hneg by (apply Z.ltb_ge; lia).
  destruct (lookup_lt_is_Some_2 l (Z.to_nat k)) as [x Hx]; [lia|].
  rewrite Hneg. cbv beta iota. rewrite Hneg, Hx. by exists x.
Qed.

Lemma datetime_new_2022 month day :
  (1 ≤ month ≤ 12)%Z → (1 ≤ day ≤ 28)%Z →
  Py.datetime_new 2022 month day 14 30 = Ok (Py.datetime_of 2022 month day 14 30).
Proof.
  intros Hm Hd. unfold Py.datetime_new.
  assert ((1 <=? month)%Z && (month <=? 12)%Z = true) as ->
    by (apply andb_true_iff; split; apply Z.leb_le; lia).
  assert ((1 <=? day)%Z && (day <=? Py.days_in_month 2022 month)%Z = true) as ->.
  { apply andb_true_iff; split; apply Z.leb_le; [lia|].
    assert (28 ≤ Py.days_in_month 2022 month)%Z as Hlong; [|lia].
    assert (month = 1 ∨ month = 2 ∨ month = 3 ∨ month = 4 ∨ month = 5 ∨ month = 6
            ∨ month = 7 ∨ month = 8 ∨ month = 9 ∨ month = 10 ∨ month = 11
            ∨ month = 12)%Z as Hcases by lia.
    repeat destruct Hcases as [->|Hcases]; try subst month; by vm_compute. }
  reflexivity.
Qed.

Section GeneratorFacts.
  Context {rng : Type} (randint : Z → Z → rng → Z * rng).
  Hypothesis randint_range :
    ∀ a b g, (a ≤ b)%Z → (a ≤ (randint a b g).1 ≤ b)%Z.

Lemma draw_spec a b g :
  (a ≤ b)%Z → ∃ k g', draw randint a b g = (Ok k, g') ∧ (a ≤ k ≤ b)%Z.
Proof.
  intros Hab. unfold draw. pose proof (randint_range a b g Hab) as Hk.
  destruct (randint a b g) as [k g']. by exists k, g'.
Qed.

Lemma pick_spec l g :
  l ≠ [] → ∃ x g', pick randint l g = (Ok x, g') ∧ x ∈ l.
Proof.
  intros Hl. unfold pick, bind, lift.
  assert (0 < length l) by (destruct l; [done|simpl; lia]).
  destruct (draw_spec 0 (Z.of_nat (length l) - 1) g) as (k & g' & -> & Hk); [lia|].
  destruct (index_in_range l k) as (x & -> & Hx); [lia|].
  exists x, g'. split; [done|]. by eapply list_elem_of_lookup_2.
Qed.

Lemma generate_trade_spec i g :
  ∃ t g', generate_trade randint i g = (Ok t, g') ∧ generated_as i t.
Proof.
  unfold generate_trade.
  repeat (unfold bind at 1;
    match goal with
    | |- context [pick randint ?l g] =>
        destruct (pick_spec l g) as (? & ? & -> & _); [done|]
    | |- context [pick randint ?l ?g'] =>
        destruct (pick_spec l g') as (? & ? & -> & _); [done|]
    end).
  unfold bind at 1.
  match goal with |- context [draw randint 1 12 ?g'] =>
    destruct (draw_spec 1 12 g') as (month & ? & -> & Hmonth); [lia|] end.
  unfold bind at 1.
  match goal with |- context [draw randint 1 28 ?g'] =>
    destruct (draw_spec 1 28 g') as (day & ? & -> & Hday); [lia|] end.
  unfold bind at 1, lift at 1. rewrite (datetime_new_2022 month day) by done.
  unfold bind at 1.
  match goal with |- context [pick randint ?l ?g'] =>
    destruct (pick_spec l g') as (? & ? & -> & _); [done|] end.
  unfold bind at 1.
  match goal with |- context [draw randint 1 1000 ?g'] =>
    destruct (draw_spec 1 1000 g') as (? & ? & -> & _); [lia|] end.
  unfold bind at 1.
  match goal with |- context [draw randint 1 50 ?g'] =>
    destruct (draw_spec 1 50 g') as (? & ? & -> & _); [lia|] end.
  unfold bind at 1, lift at 1.
  destruct (index_in_range traders (i mod Z.of_nat (length traders)))
    as (who & -> & Hwho).
  { apply Z.mod_pos_bound. simpl. lia. }
  eexists _, _. split; [reflexivity|]. by split.
Qed.

Lemma generate_loop_spec indices acc g :
  ∃ new g', generate_loop randint indices acc g = (Ok (acc ++ new), g')
            ∧ Forall2 generated_as indices new.
Proof.
  revert acc g. induction indices as [|i rest IH]; intros acc g; simpl.
  - exists [], g. split; [by rewrite app_nil_r|constructor].
  - unfold bind. destruct (generate_trade_spec i g) as (t & g1 & -> & Ht).
    destruct (IH (acc ++ [t]) g1) as (new & g' & -> & Hnew).
    exists (t :: new), g'. split; [by rewrite <- app_assoc|by constructor].
Qed.

(** C9: the generator returns exactly 100 records; for every i in 0..99
    the i-th record has tradeId str(i) and the trader at position i mod 5
    of the trader list; so all tradeIds are distinct. *)
Theorem generate_db_shape g :
  ∃ db g', generate_db randint g = (Ok db, g')
    ∧ length db = 100
    ∧ (∀ i, (0 ≤ i < 100)%Z →
         ∃ t, db !! Z.to_nat i = Some t
              ∧ trade_id t = Some (Py.str_of_int i)
              ∧ traders !! Z.to_nat (i mod 5) = Some (trader t))
    ∧ NoDup (trade_id <$> db).
Proof.
  destruct (generate_loop_spec (seqZ 0 100) [] g) as (db & g' & Hrun & Hall).
  exists db, g'. split; [exact Hrun|].
  assert (length db = 100) as Hlen.
  { rewrite <- (Forall2_length _ _ _ Hall). by rewrite length_seqZ. }
  split; [done|]. split.
  - intros i Hi.
    assert (seqZ 0 100 !! Z.to_nat i = Some i) as Hidx.
    { rewrite lookup_seqZ. split; lia. }
    destruct (Forall2_lookup_l _ _ _ _ _ Hall Hidx) as (t & Ht & Hid & Hwho & _).
    by exists t.
  - assert (trade_id <$> db = (λ i, Some (Py.str_of_int i)) <$> seqZ 0 100) as ->.
    { clear Hrun Hlen. induction Hall as [|i t idxs ts [Hid _] _ IH]; [done|].
      rewrite !fmap_cons. by rewrite Hid, IH. }
    apply NoDup_fmap_2; [|apply NoDup_seqZ].
    intros i j [= Hij]. by apply (inj pretty) in Hij.
Qed.

End GeneratorFacts.

Lemma lcg_randint_range a b g :
  (a ≤ b)%Z → (a ≤ (lcg_randint a b g).1 ≤ b)%Z.
Proof.
  intros Hab. unfold lcg_randint. simpl.
  pose proof (Z.mod_pos_bound g (b - a + 1)). lia.
Qed.

Lemma generate_db_shape_witness :
  ∃ db g', generate_db lcg_randint 42%Z = (Ok db, g')
    ∧ length db = 100
    ∧ (∀ i, (0 ≤ i < 100)%Z →
         ∃ t, db !! Z.to_nat i = Some t
              ∧ trade_id t = Some (Py.str_of_int i)
              ∧ traders !! Z.to_nat (i mod 5) = Some (trader t))
    ∧ NoDup (trade_id <$> db).
Proof. exact (generate_db_shape lcg_randint lcg_randint_range 42%Z). Defined.

(** The first seven ids and traders of one generated collection. *)
Example generate_db_first_seven :
  match generate_db lcg_randint 42%Z with
  | (Ok db, _) =>
      take 7 ((λ t, (trade_id t, trader t)) <$> db)
      = [(Some "0", "John Doe"); (Some "1", "Jane Smith"); (Some "2", "Bob Johnson");
         (Some "3", "Alice Williams"); (Some "4", "Robert Johnson");
         (Some "5", "John Doe"); (Some "6", "Jane Smith")]
      ∧ length db = 100
  | (Raise _, _) => False
  end.
Proof. vm_compute. split; reflexivity. Qed.

(** ** When a page is returned *)

(** The generator builds naive datetimes only.  Over a collection of naive
    dates no comparison raises as long as the date bounds of the request
    are naive or absent, so the list endpoint answers with a page, and the
    search endpoint always does. *)

Lemma all_naive_filter p l : all_naive l → all_naive (List.filter p l).
Proof.
  unfold all_naive. induction 1 as [|t l Ht _ IH]; simpl; [constructor|].
  destruct (p t); [by constructor|done].
Qed.

Lemma all_naive_not_mixed l : all_naive l → mixed_awareness l = false.
Proof.
  intros Hall. unfold mixed_awareness. apply andb_false_iff. left.
  induction Hall as [|t l Ht _ IH]; simpl; [done|].
  unfold Py.is_aware at 1. unfold naive in Ht. by rewrite Ht.
Qed.

Lemma filter_r_naive op bound l :
  naive bound → all_naive l →
  ∃ kept, filter_r (λ t, Py.dt_compare op (trade_date_time t) bound) l = Ok kept
          ∧ all_naive kept.
Proof.
  intros Hbound. induction 1 as [|t l Ht Hl IH]; simpl.
  - exists []. split; [done|constructor].
  - destruct IH as (kept & -> & Hkept). unfold Py.dt_compare at 1.
    unfold naive in *. rewrite Ht, Hbound. simpl.
    destruct (op _ _); eexists; (split; [reflexivity|]); [by constructor|done].
Qed.

Lemma narrowed_pure_naive {P} (param : option P) truthy (p : P → Trade → bool) l :
  all_naive l →
  ∃ kept, narrowed param truthy (λ x t, Ok (p x t)) l = Ok kept ∧ all_naive kept.
Proof.
  intros Hl. unfold narrowed. destruct param as [x|]; [destruct (truthy x)|].
  - rewrite filter_r_pure. eexists. split; [done|]. by apply all_naive_filter.
  - by exists l.
  - by exists l.
Qed.

Lemma narrowed_date_naive op (param : option Py.datetime) l :
  naive_bound param → all_naive l →
  ∃ kept, narrowed param always
            (λ e t, Py.dt_compare op (trade_date_time t) e) l = Ok kept
          ∧ all_naive kept.
Proof.
  intros Hparam Hl. unfold narrowed. destruct param as [e|]; simpl.
  - by apply filter_r_naive.
  - by exists l.
Qed.

Lemma filtered_of_naive q l :
  all_naive l → naive_bound (q_start q) → naive_bound (q_end q) →
  ∃ kept, filtered_of q l = Ok kept ∧ all_naive kept.
Proof.
  intros Hl Hstart Hend. unfold filtered_of.
  destruct (narrowed_pure_naive (q_asset_class q) Py.str_truthy
              (λ a trade, opt_str_eqb (asset_class trade) a) l Hl) as (l1 & -> & H1).
  cbn [result_bind].
  destruct (narrowed_date_naive Z.leb (q_end q) l1 Hend H1) as (l2 & H2eq & H2).
  unfold Py.dt_le. rewrite H2eq. cbn [result_bind].
  destruct (narrowed_pure_naive (q_max_price q) Py.float_truthy
              (λ m trade, Py.float_le (price (trade_details trade)) m) l2 H2)
    as (l3 & -> & H3).
  cbn [result_bind].
  destruct (narrowed_pure_naive (q_min_price q) Py.float_truthy
              (λ m trade, Py.float_ge (price (trade_details trade)) m) l3 H3)
    as (l4 & -> & H4).
  cbn [result_bind].
  destruct (narrowed_date_naive Z.geb (q_start q) l4 Hstart H4) as (l5 & H5eq & H5).
  unfold Py.dt_ge. rewrite H5eq. cbn [result_bind].
  by apply (narrowed_pure_naive (q_trade_type q) Py.str_truthy
              (λ ty trade, String.eqb (buySellIndicator (trade_details trade)) ty)).
Qed.

Lemma all_naive_slice l start stop : all_naive l → all_naive (Py.slice l start stop).
Proof. intros Hl. unfold Py.slice. by apply Forall_take, Forall_drop. Qed.

Lemma reply_of_naive kept page limit sort :
  all_naive kept →
  ∃ trades, reply_of (Ok kept) page limit sort = PageReply (length kept) page trades.
Proof.
  intros Hkept. unfold reply_of, page_of.
  rewrite all_naive_not_mixed by (by apply all_naive_slice). by eexists.
Qed.

(** X13: over naive dates the list endpoint replies with a page. *)
Theorem get_trades_returns_page trades_db l w q :
  objects w !! trades_db = Some l →
  all_naive l → naive_bound (q_start q) → naive_bound (q_end q) →
  ∃ total trades, (get_trades trades_db q w).1 = PageReply total (q_page q) trades.
Proof.
  intros Hdb Hl Hstart Hend.
  destruct (get_trades_spec trades_db l q w Hdb) as (w' & -> & _).
  destruct (filtered_of_naive q l Hl Hstart Hend) as (kept & -> & Hkept).
  destruct (reply_of_naive kept (q_page q) (q_limit q) (q_sort q) Hkept) as [trades ->].
  by eexists _, _.
Qed.

(** X14: over naive dates the search endpoint replies with a page. *)
Theorem search_trades_returns_page trades_db l w q page limit sort :
  objects w !! trades_db = Some l → all_naive l →
  ∃ total trades,
    (search_trades trades_db q page limit sort w).1 = PageReply total page trades.
Proof.
  intros Hdb Hl.
  destruct (search_trades_spec trades_db l q page limit sort w Hdb) as (w' & -> & _).
  destruct (reply_of_naive (List.filter (search_hit q) l) page limit sort) as [trades ->].
  { by apply all_naive_filter. }
  by eexists _, _.
Qed.

(** The generated collection has naive dates only. *)
Theorem generate_db_naive {rng} (randint : Z → Z → rng → Z * rng) g :
  (∀ a b g, (a ≤ b)%Z → (a ≤ (randint a b g).1 ≤ b)%Z) →
  ∃ db g', generate_db randint g = (Ok db, g') ∧ all_naive db.
Proof.
  intros Hrange.
  destruct (generate_loop_spec randint Hrange (seqZ 0 100) [] g)
    as (db & g' & Hrun & Hall).
  exists db, g'. split; [exact Hrun|].
  clear Hrun. induction Hall as [|i t idxs ts (_ & _ & Ht) _ IH]; by constructor.
Qed.

(** * Further properties of the handlers *)

(** ** What a returned page contains *)

Lemma str_truthy_nonempty s : s ≠ ""%string → Py.str_truthy s = true.
Proof. by destruct s. Qed.

Lemma keeps_parts q t :
  keeps q t = true →
  applied (q_asset_class q) Py.str_truthy
    (λ a trade, Ok (opt_str_eqb (asset_class trade) a)) t = true
  ∧ applied (q_end q) always
      (λ e trade, Py.dt_le (trade_date_time trade) e) t = true
  ∧ applied (q_max_price q) Py.float_truthy
      (λ m trade, Ok (Py.float_le (price (trade_details trade)) m)) t = true
  ∧ applied (q_min_price q) Py.float_truthy
      (λ m trade, Ok (Py.float_ge (price (trade_details trade)) m)) t = true
  ∧ applied (q_start q) always
      (λ s trade, Py.dt_ge (trade_date_time trade) s) t = true
  ∧ applied (q_trade_type q) Py.str_truthy
      (λ ty trade, Ok (String.eqb (buySellIndicator (trade_details trade)) ty)) t = true.
Proof. unfold keeps. rewrite !andb_true_iff. tauto. Qed.

Lemma ok_true_Ok (r : result bool) : ok_true r = true → r = Ok true.
Proof. destruct r as [[]|]; simpl; congruence. Qed.

(** A trade of the page was cut from the kept list. *)
Lemma page_elem_kept (kept : list Trade) reverse start stop t :
  t ∈ Py.sort_with date_key reverse (Py.slice kept start stop) → t ∈ kept.
Proof.
  rewrite (sort_with_perm date_key reverse). intros Ht.
  eapply elem_of_sublist; [exact Ht|apply slice_sublist].
Qed.

Lemma page_length_le (kept : list Trade) reverse start stop :
  length (Py.sort_with date_key reverse (Py.slice kept start stop)) ≤ length kept.
Proof.
  rewrite (Permutation_length (sort_with_perm date_key reverse _)).
  apply sublist_length, slice_sublist.
Qed.

(** X1: every trade in a page of the list endpoint is a trade of the
    collection that passes each filter the request applies; the page is
    no longer than total_count, which is no more than the collection. *)
Theorem list_page_is_sound trades_db l w q total pg trades t :
  objects w !! trades_db = Some l →
  (get_trades trades_db q w).1 = PageReply total pg trades →
  t ∈ trades →
  t ∈ l
  ∧ (∀ a, q_asset_class q = Some a → a ≠ ""%string → asset_class t = Some a)
  ∧ (∀ e, q_end q = Some e → Py.dt_le (trade_date_time t) e = Ok true)
  ∧ (∀ m, q_max_price q = Some m → Py.float_truthy m = true →
          Py.float_le (price (trade_details t)) m = true)
  ∧ (∀ m, q_min_price q = Some m → Py.float_truthy m = true →
          Py.float_ge (price (trade_details t)) m = true)
  ∧ (∀ s, q_start q = Some s → Py.dt_ge (trade_date_time t) s = Ok true)
  ∧ (∀ ty, q_trade_type q = Some ty → ty ≠ ""%string →
           buySellIndicator (trade_details t) = ty)
  ∧ length trades ≤ total ∧ total ≤ length l.
Proof.
  intros Hdb Hreply Ht.
  destruct (get_trades_page _ _ _ _ _ _ _ Hdb Hreply) as (Htotal & _ & _ & Htrades).
  assert (t ∈ List.filter (keeps q) l) as Hkept
    by (rewrite Htrades in Ht; by eapply page_elem_kept).
  apply list_elem_of_In, filter_In in Hkept as [Hin Hkeeps].
  apply keeps_parts in Hkeeps as (Ha & He & Hmax & Hmin & Hs & Hty).
  split; [by apply list_elem_of_In|].
  repeat split.
  - intros a Hq Hne. unfold applied in Ha. rewrite Hq, str_truthy_nonempty in Ha by done.
    by apply opt_str_eqb_spec.
  - intros e Hq. unfold applied in He. rewrite Hq in He. by apply ok_true_Ok.
  - intros m Hq Hm. unfold applied in Hmax. by rewrite Hq, Hm in Hmax.
  - intros m Hq Hm. unfold applied in Hmin. by rewrite Hq, Hm in Hmin.
  - intros s Hq. unfold applied in Hs. rewrite Hq in Hs. by apply ok_true_Ok.
  - intros ty Hq Hne. unfold applied in Hty.
    rewrite Hq, str_truthy_nonempty in Hty by done. by apply String.eqb_eq.
  - rewrite Htrades, Htotal. apply page_length_le.
  - rewrite Htotal. apply filter_length_le.
Qed.

Lemma list_page_is_sound_witness :
  Py.float_le (price (trade_details trade1)) (Py.FNum 250) = true
  ∧ Py.float_ge (price (trade_details trade1)) (Py.FNum 100) = true
  ∧ length [trade4; trade0; trade1] ≤ 3 ∧ 3 ≤ length sample_db.
Proof.
  destruct (list_page_is_sound 0 sample_db sample_world
              (price_query (Py.FNum 100) (Py.FNum 250)) 3 1 [trade4; trade0; trade1]
              trade1 eq_refl eq_refl)
    as (_ & _ & _ & Hmax & Hmin & _ & _ & Hlen & Htotal).
  { apply list_elem_of_In. simpl. tauto. }
  split; [by apply Hmax|]. split; [by apply Hmin|]. done.
Defined.

(** X2: every trade in a page of the search endpoint is a trade of the
    collection that the query occurs in; the page is no longer than
    total_count, which is no more than the collection. *)
Theorem search_page_is_sound trades_db l w q page limit sort total pg trades t :
  objects w !! trades_db = Some l →
  (search_trades trades_db q page limit sort w).1 = PageReply total pg trades →
  t ∈ trades →
  t ∈ l ∧ matches_a_field q t ∧ pg = page
  ∧ length trades ≤ total ∧ total ≤ length l.
Proof.
  intros Hdb Hreply Ht.
  destruct (search_trades_page _ _ _ _ _ _ _ _ _ _ Hdb Hreply)
    as (Htotal & Hpg & _ & Htrades).
  assert (t ∈ List.filter (search_hit q) l) as Hkept
    by (rewrite Htrades in Ht; by eapply page_elem_kept).
  apply list_elem_of_In, filter_In in Hkept as [Hin Hhit].
  split; [by apply list_elem_of_In|]. split; [by apply search_hit_spec|].
  split; [done|]. split.
  - rewrite Htrades, Htotal. apply page_length_le.
  - rewrite Htotal. apply filter_length_le.
Qed.

Lemma search_page_is_sound_witness :
  trade4 ∈ sample_db ∧ matches_a_field "john" trade4 ∧ (1 = 1)%Z
  ∧ length [trade0; trade4; trade2] ≤ 3 ∧ 3 ≤ length sample_db.
Proof.
  apply (search_page_is_sound 0 sample_db sample_world "john" 1 4 "asc" 3 1
           [trade0; trade4; trade2] trade4 eq_refl).
  - vm_compute. reflexivity.
  - apply list_elem_of_In. simpl. tauto.
Defined.

(** ** More parameters, fewer trades *)

Lemma filter_length_mono {A} (p p' : A → bool) l :
  (∀ x, p x = true → p' x = true) →
  length (List.filter p l) ≤ length (List.filter p' l).
Proof.
  intros Himp. induction l as [|x l IH]; simpl; [done|].
  destruct (p x) eqn:Hp.
  - rewrite (Himp x Hp). simpl. lia.
  - destruct (p' x); simpl; lia.
Qed.

Lemma keeps_supplies_more q q' t :
  supplies_more q q' → keeps q' t = true → keeps q t = true.
Proof.
  intros (Ha & He & Hmax & Hmin & Hs & Hty) Hkeeps.
  apply keeps_parts in Hkeeps as (Ka & Ke & Kmax & Kmin & Ks & Kty).
  unfold keeps. rewrite !andb_true_iff. repeat split.
  - by destruct Ha as [->| ->].
  - by destruct He as [->| ->].
  - by destruct Hmax as [->| ->].
  - by destruct Hmin as [->| ->].
  - by destruct Hs as [->| ->].
  - by destruct Hty as [->| ->].
Qed.

(** X3: adding filter parameters to a request of the list endpoint never
    raises total_count: a request that supplies every parameter of another
    with the same values, and possibly more, counts at most as many. *)
Theorem more_parameters_fewer_trades trades_db l w q q' total pg trades total' pg' trades' :
  objects w !! trades_db = Some l →
  supplies_more q q' →
  (get_trades trades_db q w).1 = PageReply total pg trades →
  (get_trades trades_db q' w).1 = PageReply total' pg' trades' →
  total' ≤ total.
Proof.
  intros Hdb Hmore Hreply Hreply'.
  destruct (get_trades_page _ _ _ _ _ _ _ Hdb Hreply) as (-> & _).
  destruct (get_trades_page _ _ _ _ _ _ _ Hdb Hreply') as (-> & _).
  apply filter_length_mono. intros t. by apply keeps_supplies_more.
Qed.

Lemma more_parameters_fewer_trades_witness :
  (get_trades 0 (list_query 1 4 "desc") sample_world).1
    = PageReply 5 1 [trade2; trade0; trade1; trade3]
  ∧ (get_trades 0 (price_query (Py.FNum 100) (Py.FNum 250)) sample_world).1
    = PageReply 3 1 [trade4; trade0; trade1]
  ∧ 3 ≤ 5.
Proof.
  split; [vm_compute; reflexivity|]. split; [vm_compute; reflexivity|].
  apply (more_parameters_fewer_trades 0 sample_db sample_world
           (list_query 1 4 "desc") (price_query (Py.FNum 100) (Py.FNum 250))
           5 1 [trade2; trade0; trade1; trade3] 3 1 [trade4; trade0; trade1] eq_refl).
  - unfold supplies_more. simpl. tauto.
  - vm_compute. reflexivity.
  - vm_compute. reflexivity.
Defined.

(** ** Pages outside the valid range *)

Lemma clamp_index_range len i :
  (0 ≤ len)%Z → (0 ≤ Py.clamp_index len i ≤ len)%Z.
Proof. intros Hlen. unfold Py.clamp_index. destruct (Z.ltb_spec i 0); lia. Qed.

(** A slice that stops at index 0, or where it starts, is empty. *)
Lemma slice_stop_zero {A} (l : list A) start : Py.slice l start 0 = [].
Proof.
  unfold Py.slice.
  assert (0 ≤ Z.of_nat (length l))%Z as Hlen by lia.
  pose proof (clamp_index_range (Z.of_nat (length l)) start Hlen) as Hlo.
  assert (Py.clamp_index (Z.of_nat (length l)) 0 = 0)%Z as ->
    by (unfold Py.clamp_index; simpl; lia).
  replace (Z.to_nat (0 - _)) with 0 by lia. apply take_0.
Qed.

Lemma slice_same {A} (l : list A) start : Py.slice l start start = [].
Proof. unfold Py.slice. rewrite Z.sub_diag. apply take_0. Qed.

Lemma sort_with_nil {A} (key : A → Z) reverse : Py.sort_with key reverse [] = [].
Proof. by destruct reverse. Qed.

(** X4: the list endpoint does not validate page and limit.  With page=0 the
    slice is [filtered[-limit:0]] and with limit=0 it is
    [filtered[s:s]]: both are empty, so the page is empty whatever the
    collection holds, while total_count is still the filtered count. *)
Theorem page_zero_or_limit_zero_is_empty trades_db l w q total pg trades :
  objects w !! trades_db = Some l →
  q_page q = 0%Z ∨ q_limit q = 0%Z →
  (get_trades trades_db q w).1 = PageReply total pg trades →
  trades = [] ∧ total = length (List.filter (keeps q) l).
Proof.
  intros Hdb Hzero Hreply.
  destruct (get_trades_page _ _ _ _ _ _ _ Hdb Hreply) as (Htotal & _ & _ & Htrades).
  split; [|done]. rewrite Htrades. destruct Hzero as [Hz|Hz]; rewrite Hz.
  - replace ((0 - 1) * q_limit q + q_limit q)%Z with 0%Z by lia.
    by rewrite slice_stop_zero, sort_with_nil.
  - replace ((q_page q - 1) * 0 + 0)%Z with ((q_page q - 1) * 0)%Z by lia.
    by rewrite slice_same, sort_with_nil.
Qed.

Lemma page_zero_or_limit_zero_is_empty_witness :
  (get_trades 0 (list_query 0 4 "desc") sample_world).1 = PageReply 5 0 []
  ∧ @nil Trade = []
  ∧ 5 = length (List.filter (keeps (list_query 0 4 "desc")) sample_db).
Proof.
  split; [vm_compute; reflexivity|].
  apply (page_zero_or_limit_zero_is_empty 0 sample_db sample_world
           (list_query 0 4 "desc") 5 0 [] eq_refl).
  - by left.
  - vm_compute. reflexivity.
Defined.

Lemma slice_negative_stop {A} (l : list A) stop :
  (stop < 0)%Z → Py.slice l 0 stop = take (length l - Z.to_nat (- stop)) l.
Proof.
  intros Hneg. unfold Py.slice, Py.clamp_index.
  destruct (Z.ltb_spec stop 0); [|lia]. destruct (Z.ltb_spec 0 0); [lia|].
  replace (Z.to_nat (Z.min 0 (Z.of_nat (length l)))) with 0 by lia.
  rewrite drop_0. f_equal. lia.
Qed.

(** X5: a negative limit is not rejected either.  On page 1 the slice is
    [filtered[0:limit]], everything but the last -limit trades: limit=-1
    returns all but one trade of the filtered collection. *)
Theorem negative_limit_drops_from_the_end trades_db l w q total pg trades :
  objects w !! trades_db = Some l →
  q_page q = 1%Z → (q_limit q < 0)%Z →
  (get_trades trades_db q w).1 = PageReply total pg trades →
  trades ≡ₚ take (total - Z.to_nat (- q_limit q)) (List.filter (keeps q) l)
  ∧ length trades = total - Z.to_nat (- q_limit q).
Proof.
  intros Hdb Hpage Hlimit Hreply.
  destruct (get_trades_page _ _ _ _ _ _ _ Hdb Hreply) as (Htotal & _ & _ & Htrades).
  assert (trades ≡ₚ take (total - Z.to_nat (- q_limit q)) (List.filter (keeps q) l))
    as Hperm.
  { rewrite Htrades, sort_with_perm, Hpage, Htotal.
    replace ((1 - 1) * q_limit q)%Z with 0%Z by lia.
    by rewrite Z.add_0_l, slice_negative_stop. }
  split; [done|]. rewrite Hperm, length_take, <- Htotal. lia.
Qed.

Lemma negative_limit_drops_from_the_end_witness :
  (get_trades 0 (list_query 1 (-1) "desc") sample_world).1
    = PageReply 5 1 [trade2; trade0; trade1; trade3]
  ∧ [trade2; trade0; trade1; trade3]
    ≡ₚ take (5 - Z.to_nat (- -1)) (List.filter (keeps (list_query 1 (-1) "desc")) sample_db)
  ∧ length [trade2; trade0; trade1; trade3] = 5 - Z.to_nat (- -1).
Proof.
  split; [vm_compute; reflexivity|].
  apply (negative_limit_drops_from_the_end 0 sample_db sample_world
           (list_query 1 (-1) "desc") 5 1 [trade2; trade0; trade1; trade3] eq_refl).
  - reflexivity.
  - reflexivity.
  - vm_compute. reflexivity.
Defined.

(** ** Bounds that nothing meets *)

Lemma float_le_nan_r x : Py.float_le x Py.FNaN = false.
Proof. by destruct x as [?|[]|]. Qed.

Lemma float_le_nan_l x : Py.float_le Py.FNaN x = false.
Proof. by destruct x as [?|[]|]. Qed.

(** X6: NaN is truthy, so a max_price or min_price of NaN is applied, and no
    price compares with it: the request that is answered with a page has
    total_count 0 and no trades. *)
Theorem nan_bound_matches_nothing trades_db l w q total pg trades :
  objects w !! trades_db = Some l →
  q_max_price q = Some Py.FNaN ∨ q_min_price q = Some Py.FNaN →
  (get_trades trades_db q w).1 = PageReply total pg trades →
  total = 0 ∧ trades = [].
Proof.
  intros Hdb Hnan Hreply.
  destruct (get_trades_page _ _ _ _ _ _ _ Hdb Hreply) as (Htotal & _ & _ & Htrades).
  assert (List.filter (keeps q) l = []) as Hnone.
  { clear Htotal Htrades Hreply Hdb. induction l as [|t l IH]; simpl; [done|].
    assert (keeps q t = false) as ->; [|done].
    destruct (keeps q t) eqn:Hk; [|done].
    apply keeps_parts in Hk as (_ & _ & Hmax & Hmin & _).
    destruct Hnan as [Hq|Hq]; [unfold applied in Hmax|unfold applied in Hmin];
      rewrite Hq in *; simpl in *; unfold Py.float_ge in *;
      by rewrite ?float_le_nan_r, ?float_le_nan_l in *. }
  rewrite Hnone in Htotal, Htrades. split; [done|].
  rewrite Htrades. unfold Py.slice. rewrite drop_nil, take_nil. apply sort_with_nil.
Qed.

Lemma nan_bound_matches_nothing_witness :
  (get_trades 0 (price_query (Py.FNum 1) Py.FNaN) sample_world).1 = PageReply 0 1 []
  ∧ 0 = 0 ∧ @nil Trade = [].
Proof.
  split; [vm_compute; reflexivity|].
  apply (nan_bound_matches_nothing 0 sample_db sample_world
           (price_query (Py.FNum 1) Py.FNaN) 0 1 [] eq_refl).
  - by left.
  - vm_compute. reflexivity.
Defined.

(** ** What the sort parameter changes *)

(** X7: trades of one page that have the same date stay in the order the
    collection has them, whether the page is sorted ascending or
    descending. *)
Theorem same_date_keeps_collection_order trades_db l w q total pg trades k :
  objects w !! trades_db = Some l →
  (get_trades trades_db q w).1 = PageReply total pg trades →
  List.filter (λ t, date_key t =? k)%Z trades
  = List.filter (λ t, date_key t =? k)%Z
      (Py.slice (List.filter (keeps q) l) ((q_page q - 1) * q_limit q)
                ((q_page q - 1) * q_limit q + q_limit q)).
Proof.
  intros Hdb Hreply.
  destruct (get_trades_page _ _ _ _ _ _ _ Hdb Hreply) as (_ & _ & _ & ->).
  apply sort_with_stable.
Qed.

Lemma same_date_keeps_collection_order_witness :
  (get_trades 0 (list_query 1 4 "desc") tie_world).1 = PageReply 3 1 [tie_a; tie_b; tie_c]
  ∧ List.filter (λ t, date_key t =? date_key tie_a)%Z [tie_a; tie_b; tie_c]
    = [tie_a; tie_b].
Proof.
  split; [vm_compute; reflexivity|].
  rewrite (same_date_keeps_collection_order 0 tie_db tie_world
             (list_query 1 4 "desc") 3 1 [tie_a; tie_b; tie_c] (date_key tie_a)
             eq_refl eq_refl).
  vm_compute. reflexivity.
Defined.

Lemma reply_of_other_sort found page limit sort sort' total pg trades :
  reply_of found page limit sort = PageReply total pg trades →
  ∃ trades', reply_of found page limit sort' = PageReply total pg trades'
             ∧ trades' ≡ₚ trades.
Proof.
  intros Hreply. apply reply_of_page in Hreply as (kept & -> & -> & -> & Hmixed & ->).
  unfold reply_of, page_of. rewrite Hmixed. eexists. split; [done|].
  by rewrite !sort_with_perm.
Qed.

(** X8: the sort parameter changes the order of a page and nothing else: with
    any other value of sort, both endpoints reply with the same
    total_count, the same page number and the same trades in some order
    (and reply with a page whenever they did before). *)
Theorem sort_only_reorders trades_db l w q sq page limit sort sort' total pg trades :
  objects w !! trades_db = Some l →
  ((get_trades trades_db q w).1 = PageReply total pg trades →
     ∃ trades', (get_trades trades_db (with_sort sort' q) w).1
                  = PageReply total pg trades' ∧ trades' ≡ₚ trades)
  ∧ ((search_trades trades_db sq page limit sort w).1 = PageReply total pg trades →
     ∃ trades', (search_trades trades_db sq page limit sort' w).1
                  = PageReply total pg trades' ∧ trades' ≡ₚ trades).
Proof.
  intros Hdb. split; intros Hreply.
  - destruct (get_trades_spec trades_db l q w Hdb) as (w1 & Hrun & _).
    destruct (get_trades_spec trades_db l (with_sort sort' q) w Hdb) as (w2 & -> & _).
    rewrite Hrun in Hreply. cbn [fst] in *.
    by apply (reply_of_other_sort _ _ _ (q_sort q)).
  - destruct (search_trades_spec trades_db l sq page limit sort w Hdb) as (w1 & Hrun & _).
    destruct (search_trades_spec trades_db l sq page limit sort' w Hdb) as (w2 & -> & _).
    rewrite Hrun in Hreply. cbn [fst] in *.
    by apply (reply_of_other_sort _ _ _ sort).
Qed.

Lemma sort_only_reorders_witness :
  ∃ trades', (get_trades 0 (with_sort "asc" (list_query 1 4 "desc")) sample_world).1
               = PageReply 5 1 trades'
             ∧ trades' ≡ₚ [trade2; trade0; trade1; trade3].
Proof.
  apply (proj1 (sort_only_reorders 0 sample_db sample_world (list_query 1 4 "desc")
                  "" 1 4 "desc" "asc" 5 1 [trade2; trade0; trade1; trade3] eq_refl)).
  vm_compute. reflexivity.
Defined.

(** ** Requests do not interfere *)

Lemma replies_depend_on_collection trades_db l w w' q sq page limit sort tid :
  objects w !! trades_db = Some l → objects w' !! trades_db = Some l →
  (get_trades trades_db q w').1 = (get_trades trades_db q w).1
  ∧ (search_trades trades_db sq page limit sort w').1
    = (search_trades trades_db sq page limit sort w).1
  ∧ (get_trade_by_id trades_db tid w').1 = (get_trade_by_id trades_db tid w).1.
Proof.
  intros Hdb Hdb'.
  destruct (get_trades_spec trades_db l q w Hdb) as (? & -> & _).
  destruct (get_trades_spec trades_db l q w' Hdb') as (? & -> & _).
  destruct (search_trades_spec trades_db l sq page limit sort w Hdb) as (? & -> & _).
  destruct (search_trades_spec trades_db l sq page limit sort w' Hdb') as (? & -> & _).
  by rewrite !(get_trade_by_id_spec _ l).
Qed.

Lemma collection_after_request trades_db l w q0 sq0 page0 limit0 sort0 tid0 w' :
  objects w !! trades_db = Some l →
  w' = (get_trades trades_db q0 w).2
  ∨ w' = (search_trades trades_db sq0 page0 limit0 sort0 w).2
  ∨ w' = (get_trade_by_id trades_db tid0 w).2 →
  objects w' !! trades_db = Some l.
Proof.
  intros Hdb [->|[->| ->]].
  - destruct (get_trades_spec trades_db l q0 w Hdb) as (? & -> & Hext).
    by eapply extends_lookup.
  - destruct (search_trades_spec trades_db l sq0 page0 limit0 sort0 w Hdb)
      as (? & -> & Hext).
    by eapply extends_lookup.
  - by rewrite (get_trade_by_id_spec _ l).
Qed.

(** X9: a request is answered the same whatever request was served before
    it: after a call to any of the three endpoints, with any parameters
    (also one that ended in the error reply), every endpoint replies as it
    would have before that call. *)
Theorem earlier_request_does_not_matter
    trades_db l w q0 sq0 page0 limit0 sort0 tid0 w' q sq page limit sort tid :
  objects w !! trades_db = Some l →
  w' = (get_trades trades_db q0 w).2
  ∨ w' = (search_trades trades_db sq0 page0 limit0 sort0 w).2
  ∨ w' = (get_trade_by_id trades_db tid0 w).2 →
  (get_trades trades_db q w').1 = (get_trades trades_db q w).1
  ∧ (search_trades trades_db sq page limit sort w').1
    = (search_trades trades_db sq page limit sort w).1
  ∧ (get_trade_by_id trades_db tid w').1 = (get_trade_by_id trades_db tid w).1.
Proof.
  intros Hdb Hafter. apply (replies_depend_on_collection trades_db l); [done|].
  by eapply collection_after_request.
Qed.

Lemma earlier_request_does_not_matter_witness :
  (get_trades 0 (list_query 1 2 "asc")
     (search_trades 0 "tesla" 1 4 "desc" sample_world).2).1
  = PageReply 5 1 [trade1; trade0].
Proof.
  rewrite (proj1 (earlier_request_does_not_matter 0 sample_db sample_world
                    (list_query 1 4 "desc") "tesla" 1 4 "desc" "0"
                    (search_trades 0 "tesla" 1 4 "desc" sample_world).2
                    (list_query 1 2 "asc") "" 1 4 "desc" "0" eq_refl
                    (or_intror (or_introl eq_refl)))).
  vm_compute. reflexivity.
Defined.

(** X10: the list endpoint with no filter parameter and the search endpoint
    with the empty query give the same reply for the same page, limit and
    sort. *)
Theorem unfiltered_list_is_empty_search trades_db l w page limit sort :
  objects w !! trades_db = Some l →
  (get_trades trades_db (list_query page limit sort) w).1
  = (search_trades trades_db "" page limit sort w).1.
Proof.
  intros Hdb.
  destruct (get_trades_spec trades_db l (list_query page limit sort) w Hdb)
    as (? & -> & _).
  destruct (search_trades_spec trades_db l "" page limit sort w Hdb) as (? & -> & _).
  cbn [fst]. f_equal. unfold filtered_of. simpl. f_equal.
  rewrite <- (filter_all l) at 1. symmetry. apply List.filter_ext, search_hit_empty.
Qed.

Lemma unfiltered_list_is_empty_search_witness :
  (search_trades 0 "" 2 2 "asc" sample_world).1 = PageReply 5 2 [trade3; trade2].
Proof.
  rewrite <- (unfiltered_list_is_empty_search 0 sample_db sample_world 2 2 "asc" eq_refl).
  vm_compute. reflexivity.
Defined.

(** ** Standard output *)

(** X11: lookup by id prints the line "Here" once per call, found or not; the
    list and search endpoints print nothing. *)
Theorem only_lookup_prints trades_db l w q sq page limit sort tid :
  objects w !! trades_db = Some l →
  stdout (get_trade_by_id trades_db tid w).2 = stdout w ++ ["Here"]
  ∧ stdout (get_trades trades_db q w).2 = stdout w
  ∧ stdout (search_trades trades_db sq page limit sort w).2 = stdout w.
Proof.
  intros Hdb. rewrite (get_trade_by_id_spec _ l) by done.
  destruct (get_trades_spec trades_db l q w Hdb) as (? & -> & _ & Hout1).
  destruct (search_trades_spec trades_db l sq page limit sort w Hdb)
    as (? & -> & _ & Hout2).
  done.
Qed.

Lemma only_lookup_prints_witness :
  stdout (get_trade_by_id 0 "9999" (get_trade_by_id 0 "3" sample_world).2).2
  = ["Here"; "Here"].
Proof.
  rewrite (proj1 (only_lookup_prints 0 sample_db
                    (get_trade_by_id 0 "3" sample_world).2
                    (list_query 1 4 "desc") "" 1 4 "desc" "9999" eq_refl)).
  reflexivity.
Defined.

(** ** Date bounds with a time zone *)

Lemma filter_r_aware op bound l :
  Py.is_aware bound = true → all_naive l → l ≠ [] →
  filter_r (λ t, Py.dt_compare op (trade_date_time t) bound) l
  = Raise Py.naive_aware_msg.
Proof.
  intros Haware Hl Hne. destruct l as [|t l]; [done|].
  inversion Hl as [|? ? Ht _]; subst. simpl.
  unfold Py.dt_compare, naive, Py.is_aware in *. rewrite Ht.
  by destruct (Py.dt_utcoffset bound).
Qed.

Lemma narrowed_pure_eq {P} (param : option P) truthy (p : P → Trade → bool) l :
  narrowed param truthy (λ x t, Ok (p x t)) l
  = Ok (List.filter (applied param truthy (λ x t, Ok (p x t))) l).
Proof.
  unfold narrowed, applied. destruct param as [x|]; [destruct (truthy x)|].
  - apply filter_r_pure.
  - by rewrite filter_all.
  - by rewrite filter_all.
Qed.

Lemma narrowed_date_eq op (param : option Py.datetime) l :
  naive_bound param → all_naive l →
  narrowed param always (λ e t, Py.dt_compare op (trade_date_time t) e) l
  = Ok (List.filter
          (applied param always (λ e t, Py.dt_compare op (trade_date_time t) e)) l).
Proof.
  intros Hparam Hl.
  destruct (narrowed_date_naive op param l Hparam Hl) as (kept & Heq & _).
  rewrite Heq. f_equal. by apply narrowed_Ok.
Qed.

(** X12: a start or end that carries a time zone cannot be compared with the
    naive dates of the collection: as soon as one trade reaches that
    filter, the reply is the error object with the TypeError message. *)
Theorem aware_bound_is_an_error trades_db l w q :
  objects w !! trades_db = Some l → all_naive l →
  (∀ e, q_end q = Some e → Py.is_aware e = true →
        List.filter (reaches_end q) l ≠ [] →
        (get_trades trades_db q w).1 = ErrorReply Py.naive_aware_msg)
  ∧ (∀ s, naive_bound (q_end q) → q_start q = Some s → Py.is_aware s = true →
          List.filter (reaches_start q) l ≠ [] →
          (get_trades trades_db q w).1 = ErrorReply Py.naive_aware_msg).
Proof.
  intros Hdb Hl.
  destruct (get_trades_spec trades_db l q w Hdb) as (w' & -> & _). cbn [fst].
  split.
  - intros e Hq Haware Hne. unfold filtered_of.
    rewrite (narrowed_pure_eq (q_asset_class q) Py.str_truthy
               (λ a trade, opt_str_eqb (asset_class trade) a)).
    cbn [result_bind]. rewrite Hq. unfold narrowed at 1. cbn [always].
    unfold Py.dt_le. rewrite filter_r_aware; [done|done| |done].
    by apply all_naive_filter.
  - intros s Hend Hq Haware Hne. unfold filtered_of.
    rewrite (narrowed_pure_eq (q_asset_class q) Py.str_truthy
               (λ a trade, opt_str_eqb (asset_class trade) a)).
    cbn [result_bind]. unfold Py.dt_le.
    rewrite (narrowed_date_eq Z.leb (q_end q)) by (by try apply all_naive_filter).
    cbn [result_bind].
    rewrite (narrowed_pure_eq (q_max_price q) Py.float_truthy
               (λ m trade, Py.float_le (price (trade_details trade)) m)).
    cbn [result_bind].
    rewrite (narrowed_pure_eq (q_min_price q) Py.float_truthy
               (λ m trade, Py.float_ge (price (trade_details trade)) m)).
    cbn [result_bind]. rewrite !(filter_filter _ _ l).
    rewrite Hq. unfold narrowed at 1. cbn [always].
    unfold Py.dt_ge. rewrite filter_r_aware; [done|done| |done].
    by apply all_naive_filter.
Qed.

Lemma sample_db_naive : all_naive sample_db.
Proof. repeat constructor. Qed.

Lemma aware_bound_is_an_error_witness :
  (get_trades 0 aware_end_query sample_world).1
  = ErrorReply "can't compare offset-naive and offset-aware datetimes".
Proof.
  apply (proj1 (aware_bound_is_an_error 0 sample_db sample_world aware_end_query
                  eq_refl sample_db_naive)
           (Py.mk_dt 63800000000000000 (Some 0%Z)) eq_refl eq_refl).
  vm_compute. congruence.
Defined.

Lemma get_trades_returns_page_witness :
  ∃ total trades,
    (get_trades 0 (price_query (Py.FNum 100) (Py.FNum 250)) sample_world).1
    = PageReply total 1 trades.
Proof.
  exact (get_trades_returns_page 0 sample_db sample_world
           (price_query (Py.FNum 100) (Py.FNum 250)) eq_refl sample_db_naive I I).
Defined.

Lemma search_trades_returns_page_witness :
  ∃ total trades,
    (search_trades 0 "bank" 3 2 "up" sample_world).1 = PageReply total 3 trades.
Proof.
  exact (search_trades_returns_page 0 sample_db sample_world "bank" 3 2 "up"
           eq_refl sample_db_naive).
Defined.

(** ** Walking through the pages *)

Lemma keeps_with_page page limit q : keeps (with_page page limit q) = keeps q.
Proof. reflexivity. Qed.

Lemma pages_from (R : nat → list Trade → Prop) (kept : list Trade)
    (L s n : nat) (pages : list (list Trade)) :
  (∀ k trades, R (S k) trades → trades ≡ₚ take L (drop (k * L) kept)) →
  Forall2 R (seq (S s) n) pages →
  concat pages ≡ₚ take (n * L) (drop (s * L) kept).
Proof.
  intros HR. revert s pages. induction n as [|n IH]; intros s pages Hall.
  - inversion Hall; subst. done.
  - simpl seq in Hall. inversion Hall as [|p tr ps rest Hp Hrest]; subst.
    simpl concat. rewrite (HR s tr Hp), (IH (S s) rest Hrest).
    replace (S s * L) with (s * L + L) by lia.
    rewrite <- drop_drop, take_take_drop.
    by replace (L + n * L) with (S n * L) by lia.
Qed.

(** X15: paging visits every filtered trade once: for limit >= 1, the pages
    1, 2, ..., n of the list endpoint hold together exactly the first
    n * limit trades of the filtered collection, each once, so all of it
    when n * limit reaches total_count. *)
Theorem pages_cover_the_filtered_collection trades_db l w q limit n pages :
  objects w !! trades_db = Some l →
  (1 ≤ limit)%Z →
  Forall2 (λ p trades, ∃ total pg,
             (get_trades trades_db (with_page (Z.of_nat p) limit q) w).1
             = PageReply total pg trades) (seq 1 n) pages →
  concat pages ≡ₚ take (n * Z.to_nat limit) (List.filter (keeps q) l)
  ∧ (length (List.filter (keeps q) l) ≤ n * Z.to_nat limit →
       concat pages ≡ₚ List.filter (keeps q) l).
Proof.
  intros Hdb Hlimit Hpages.
  assert (concat pages ≡ₚ take (n * Z.to_nat limit) (List.filter (keeps q) l)) as Hcat.
  { rewrite <- (drop_0 (List.filter (keeps q) l)).
    replace 0 with (0 * Z.to_nat limit) at 1 by lia.
    eapply pages_from; [|exact Hpages].
    intros k trades (total & pg & Hreply).
    destruct (get_trades_page _ _ _ _ _ _ _ Hdb Hreply) as (_ & _ & _ & ->).
    cbn [q_page q_limit q_sort with_page]. rewrite keeps_with_page, sort_with_perm.
    rewrite slice_zero_based by lia.
    by replace (Z.to_nat ((Z.of_nat (S k) - 1) * limit)) with (k * Z.to_nat limit) by lia. }
  split; [done|]. intros Hlen. by rewrite Hcat, take_ge.
Qed.

Lemma pages_cover_the_filtered_collection_witness :
  concat [[trade0; trade1]; [trade2; trade3]; [trade4]]
    ≡ₚ List.filter (keeps (list_query 1 2 "desc")) sample_db.
Proof.
  apply (pages_cover_the_filtered_collection 0 sample_db sample_world
           (list_query 1 2 "desc") 2 3 [[trade0; trade1]; [trade2; trade3]; [trade4]]
           eq_refl).
  - lia.
  - repeat (constructor; [eexists _, _; vm_compute; reflexivity|]). constructor.
  - vm_compute. lia.
Defined.

(** ** The generated collection, further *)

Section GeneratedCollection.
  Context {rng : Type} (randint : Z → Z → rng → Z * rng).
  Hypothesis randint_range :
    ∀ a b g, (a ≤ b)%Z → (a ≤ (randint a b g).1 ≤ b)%Z.

Lemma generate_trade_vocabulary i g :
  ∃ t g', generate_trade randint i g = (Ok t, g') ∧ in_vocabulary t.
Proof.
  unfold generate_trade.
  unfold bind at 1.
  destruct (pick_spec randint randint_range assetClasses g) as (a & g1 & -> & Ha);
    [done|].
  unfold bind at 1.
  destruct (pick_spec randint randint_range counterParties g1) as (c & g2 & -> & Hc);
    [done|].
  unfold bind at 1.
  destruct (pick_spec randint randint_range instrumentIds g2) as (ii & g3 & -> & Hii);
    [done|].
  unfold bind at 1.
  destruct (pick_spec randint randint_range instrumentNames g3) as (nm & g4 & -> & Hnm);
    [done|].
  unfold bind at 1.
  destruct (draw_spec randint randint_range 1 12 g4) as (month & g5 & -> & Hmonth);
    [lia|].
  unfold bind at 1.
  destruct (draw_spec randint randint_range 1 28 g5) as (day & g6 & -> & Hday); [lia|].
  unfold bind at 1, lift at 1. rewrite (datetime_new_2022 month day) by done.
  unfold bind at 1.
  destruct (pick_spec randint randint_range buySellIndicators g6)
    as (side & g7 & -> & Hside); [done|].
  unfold bind at 1.
  destruct (draw_spec randint randint_range 1 1000 g7) as (p & g8 & -> & Hp); [lia|].
  unfold bind at 1.
  destruct (draw_spec randint randint_range 1 50 g8) as (qty & g9 & -> & Hqty); [lia|].
  unfold bind at 1, lift at 1.
  destruct (index_in_range traders (i mod Z.of_nat (length traders)))
    as (who & -> & Hwho).
  { apply Z.mod_pos_bound. simpl. lia. }
  eexists _, _. split; [reflexivity|]. unfold in_vocabulary. simpl.
  split; [by exists a|]. split; [by exists c|].
  do 3 (split; [done|]). split; [by eapply list_elem_of_lookup_2|].
  split; [by exists p|]. split; [done|]. by exists month, day.
Qed.

Lemma generate_loop_Forall (P : Trade → Prop) :
  (∀ i g, ∃ t g', generate_trade randint i g = (Ok t, g') ∧ P t) →
  ∀ indices acc g,
    ∃ new g', generate_loop randint indices acc g = (Ok (acc ++ new), g')
              ∧ Forall P new.
Proof.
  intros Hone indices. induction indices as [|i rest IH]; intros acc g; simpl.
  - exists [], g. split; [by rewrite app_nil_r|constructor].
  - unfold bind. destruct (Hone i g) as (t & g1 & -> & Ht).
    destruct (IH (acc ++ [t]) g1) as (new & g' & -> & Hnew).
    exists (t :: new), g'. split; [by rewrite <- app_assoc|by constructor].
Qed.

(** X17: whatever is drawn, every generated trade has an asset class,
    counterparty, instrument id, instrument name, side and trader from the
    fixed lists, an integral price in 1..1000, a quantity in 1..50 and a
    naive date in 2022 at 14:30 with day at most 28. *)
Theorem generate_db_in_vocabulary g :
  ∃ db g', generate_db randint g = (Ok db, g') ∧ Forall in_vocabulary db.
Proof.
  destruct (generate_loop_Forall in_vocabulary generate_trade_vocabulary
              (seqZ 0 100) [] g) as (db & g' & Hrun & Hall).
  by exists db, g'.
Qed.

Lemma trader_count_generated name idxs db :
  Forall2 generated_as idxs db →
  length (List.filter (λ t, String.eqb (trader t) name) db)
  = length (List.filter
              (λ i, opt_str_eqb (traders !! Z.to_nat (i mod 5)) name) idxs).
Proof.
  induction 1 as [|i t idxs db (_ & Hwho & _) _ IH]; [done|].
  simpl List.filter. rewrite Hwho. simpl opt_str_eqb.
  destruct (String.eqb (trader t) name); simpl; by rewrite IH.
Qed.

(** X18: the traders are assigned in turn, so each of the five traders has
    exactly 20 of the 100 generated trades. *)
Theorem generate_db_twenty_per_trader g :
  ∃ db g', generate_db randint g = (Ok db, g')
    ∧ ∀ name, name ∈ traders →
        length (List.filter (λ t, String.eqb (trader t) name) db) = 20.
Proof.
  destruct (generate_loop_spec randint randint_range (seqZ 0 100) [] g)
    as (db & g' & Hrun & Hall).
  exists db, g'. split; [exact Hrun|]. intros name Hname.
  rewrite (trader_count_generated name _ _ Hall).
  apply list_elem_of_In in Hname. simpl in Hname.
  repeat destruct Hname as [<-|Hname]; try done; vm_compute; reflexivity.
Qed.

Lemma first_with_id_generated idxs db k i :
  Forall2 generated_as idxs db → NoDup idxs → idxs !! k = Some i →
  first_with_id (Py.str_of_int i) db = db !! k.
Proof.
  intros Hall. revert k. induction Hall as [|j t idxs db (Hid & _) _ IH];
    intros k Hnodup Hk; [done|].
  apply NoDup_cons in Hnodup as [Hj Hnodup]. simpl. rewrite Hid. simpl.
  destruct k as [|k]; simpl in *.
  - injection Hk as ->. by rewrite String.eqb_refl.
  - assert (j ≠ i) as Hne by (intros ->; apply Hj; by eapply list_elem_of_lookup_2).
    assert ((Py.str_of_int j =? Py.str_of_int i)%string = false) as ->.
    { apply String.eqb_neq. intros Heq. by apply (inj pretty) in Heq. }
    by apply IH.
Qed.

Lemma first_with_id_absent tid idxs db :
  Forall2 generated_as idxs db →
  (∀ i, i ∈ idxs → tid ≠ Py.str_of_int i) →
  first_with_id tid db = None.
Proof.
  induction 1 as [|j t idxs db (Hid & _) _ IH]; intros Habsent; [done|].
  simpl. rewrite Hid. simpl.
  assert ((Py.str_of_int j =? tid)%string = false) as ->.
  { apply String.eqb_neq. intros Heq. apply (Habsent j); [left|done]. }
  apply IH. intros i Hi. apply Habsent. by right.
Qed.

(** X19: lookup finds what the generator made: over the generated collection,
    the id str(i), for i in 0..99, is answered with the i-th trade, and any
    other id with the object {"error": "Trade not found"}. *)
Theorem generated_ids_are_found g :
  ∃ db g', generate_db randint g = (Ok db, g')
    ∧ ∀ w r, objects w !! r = Some db →
        (∀ i, (0 ≤ i < 100)%Z →
           ∃ t, db !! Z.to_nat i = Some t
                ∧ (get_trade_by_id r (Py.str_of_int i) w).1 = Ok (TradeReply t))
        ∧ (∀ tid, (∀ i, (0 ≤ i < 100)%Z → tid ≠ Py.str_of_int i) →
             (get_trade_by_id r tid w).1 = Ok (ErrorReply "Trade not found")).
Proof.
  destruct (generate_loop_spec randint randint_range (seqZ 0 100) [] g)
    as (db & g' & Hrun & Hall).
  exists db, g'. split; [exact Hrun|]. intros w r Hdb. split.
  - intros i Hi.
    assert (seqZ 0 100 !! Z.to_nat i = Some i) as Hidx
      by (rewrite lookup_seqZ; split; lia).
    destruct (Forall2_lookup_l _ _ _ _ _ Hall Hidx) as (t & Ht & _).
    exists t. split; [done|].
    rewrite (get_trade_by_id_spec _ db) by done. cbn [fst].
    by rewrite (first_with_id_generated _ _ _ _ Hall (NoDup_seqZ 0 100) Hidx), Ht.
  - intros tid Habsent.
    rewrite (get_trade_by_id_spec _ db) by done. cbn [fst].
    rewrite (first_with_id_absent tid _ _ Hall); [done|].
    intros i Hi. apply Habsent. apply elem_of_seqZ in Hi. lia.
Qed.

End GeneratedCollection.

Lemma generate_db_in_vocabulary_witness :
  ∃ db g', generate_db lcg_randint 7%Z = (Ok db, g') ∧ Forall in_vocabulary db.
Proof. exact (generate_db_in_vocabulary lcg_randint lcg_randint_range 7%Z). Defined.

Lemma generate_db_twenty_per_trader_witness :
  ∃ db g', generate_db lcg_randint 7%Z = (Ok db, g')
    ∧ ∀ name, name ∈ traders →
        length (List.filter (λ t, String.eqb (trader t) name) db) = 20.
Proof. exact (generate_db_twenty_per_trader lcg_randint lcg_randint_range 7%Z). Defined.

Lemma generated_ids_are_found_witness :
  ∃ db g', generate_db lcg_randint 7%Z = (Ok db, g')
    ∧ ∀ w r, objects w !! r = Some db →
        (∀ i, (0 ≤ i < 100)%Z →
           ∃ t, db !! Z.to_nat i = Some t
                ∧ (get_trade_by_id r (Py.str_of_int i) w).1 = Ok (TradeReply t))
        ∧ (∀ tid, (∀ i, (0 ≤ i < 100)%Z → tid ≠ Py.str_of_int i) →
             (get_trade_by_id r tid w).1 = Ok (ErrorReply "Trade not found")).
Proof. exact (generated_ids_are_found lcg_randint lcg_randint_range 7%Z). Defined.

(** ** Requests over the generated collection *)

Ltac each_of H :=
  apply list_elem_of_In in H; simpl in H;
  repeat destruct H as [<-|H]; try done.

Lemma trader_name_not_elsewhere name :
  name ∈ traders →
  (∀ c, c ∈ counterParties → Py.str_in (Py.lower name) (Py.lower c) = false)
  ∧ (∀ x, x ∈ instrumentIds → Py.str_in (Py.lower name) (Py.lower x) = false)
  ∧ (∀ x, x ∈ instrumentNames → Py.str_in (Py.lower name) (Py.lower x) = false)
  ∧ (∀ x, x ∈ traders → Py.str_in (Py.lower name) (Py.lower x) = String.eqb x name).
Proof.
  intros Hname. each_of Hname; repeat split; intros x Hx; each_of Hx.
Qed.

Lemma search_hit_trader_name name t :
  name ∈ traders → in_vocabulary t →
  search_hit name t = String.eqb (trader t) name.
Proof.
  intros Hname ((_ & _) & (c & Hc & Hcin) & Hid & Hnm & _ & Hwho & _).
  destruct (trader_name_not_elsewhere name Hname) as (Hcp & Hids & Hnames & Htraders).
  unfold search_hit. by rewrite Hc, (Hcp c), (Hids _ Hid), (Hnames _ Hnm), (Htraders _ Hwho).
Qed.

Lemma keeps_side_query side t :
  keeps (side_query side) t
  = if Py.str_truthy side
    then String.eqb (buySellIndicator (trade_details t)) side else true.
Proof. reflexivity. Qed.

Section RequestsOverGenerated.
  Context {rng : Type} (randint : Z → Z → rng → Z * rng).
  Hypothesis randint_range :
    ∀ a b g, (a ≤ b)%Z → (a ≤ (randint a b g).1 ≤ b)%Z.

Lemma generate_trade_both i g :
  ∃ t g', generate_trade randint i g = (Ok t, g') ∧ generated_trade i t.
Proof.
  destruct (generate_trade_spec randint randint_range i g) as (t & g1 & Hrun & Hgen).
  destruct (generate_trade_vocabulary randint randint_range i g)
    as (t' & g1' & Hrun' & Hvoc).
  rewrite Hrun in Hrun'. injection Hrun' as <- <-. by exists t, g1.
Qed.

Lemma generate_db_both g :
  ∃ db g', generate_db randint g = (Ok db, g')
           ∧ Forall2 generated_trade (seqZ 0 100) db.
Proof.
  unfold generate_db. generalize (seqZ 0 100). intros indices.
  assert (∀ acc g, ∃ new g', generate_loop randint indices acc g = (Ok (acc ++ new), g')
                             ∧ Forall2 generated_trade indices new) as Hloop.
  { induction indices as [|i rest IH]; intros acc g0; simpl.
    - exists [], g0. split; [by rewrite app_nil_r|constructor].
    - unfold bind. destruct (generate_trade_both i g0) as (t & g1 & -> & Ht).
      destruct (IH (acc ++ [t]) g1) as (new & g' & -> & Hnew).
      exists (t :: new), g'. split; [by rewrite <- app_assoc|by constructor]. }
  exact (Hloop [] g).
Qed.

(** X20: on the generated collection a search for the full name of one of the
    five traders is answered with a page, total_count is 20, and every
    trade on the page is that trader's: the name occurs in no
    counterparty, instrument id or instrument name of the vocabulary. *)
Theorem search_by_trader_name g :
  ∃ db g', generate_db randint g = (Ok db, g')
    ∧ ∀ w r name page limit sort,
        objects w !! r = Some db → name ∈ traders →
        ∃ trades, (search_trades r name page limit sort w).1 = PageReply 20 page trades
                  ∧ Forall (λ t, trader t = name) trades.
Proof.
  destruct (generate_db_both g) as (db & g' & Hrun & Hall).
  exists db, g'. split; [exact Hrun|]. intros w r name page limit sort Hdb Hname.
  assert (Forall in_vocabulary db) as Hvoc.
  { clear Hrun Hdb. induction Hall as [|i t idxs db [_ Ht] _ IH]; by constructor. }
  assert (Forall2 generated_as (seqZ 0 100) db) as Hgen.
  { eapply Forall2_impl; [exact Hall|]. by intros i t [Hg _]. }
  assert (all_naive db) as Hnaive.
  { clear Hrun Hdb Hvoc Hall. induction Hgen as [|i t idxs db (_ & _ & Ht) _ IH];
      by constructor. }
  assert (List.filter (search_hit name) db
          = List.filter (λ t, String.eqb (trader t) name) db) as Hhits.
  { apply filter_ext_in. intros t Ht. apply search_hit_trader_name; [done|].
    rewrite Forall_forall in Hvoc. by apply Hvoc, list_elem_of_In. }
  destruct (search_trades_spec r db name page limit sort w Hdb) as (w' & -> & _).
  cbn [fst]. rewrite Hhits.
  destruct (reply_of_naive (List.filter (λ t, String.eqb (trader t) name) db)
              page limit sort) as [trades Hreply]; [by apply all_naive_filter|].
  exists trades. split.
  - rewrite Hreply. f_equal.
    rewrite (trader_count_generated name _ _ Hgen).
    clear - Hname. each_of Hname; vm_compute; reflexivity.
  - apply reply_of_page in Hreply as (kept & [= <-] & _ & _ & _ & ->).
    apply Forall_forall. intros t Ht. apply page_elem_kept in Ht.
    apply list_elem_of_In, filter_In in Ht as [_ Ht]. by apply String.eqb_eq.
Qed.

(** X21: on the generated collection every trade is a BUY or a SELL, so the
    total_count of the list request for trade_type=BUY and that for
    trade_type=SELL add up to 100. *)
Theorem buy_and_sell_split_the_collection g :
  ∃ db g', generate_db randint g = (Ok db, g')
    ∧ ∀ w r, objects w !! r = Some db →
        ∃ buys sells trades trades',
          (get_trades r (side_query "BUY") w).1 = PageReply buys 1 trades
          ∧ (get_trades r (side_query "SELL") w).1 = PageReply sells 1 trades'
          ∧ buys + sells = 100.
Proof.
  destruct (generate_db_both g) as (db & g' & Hrun & Hall).
  exists db, g'. split; [exact Hrun|]. intros w r Hdb.
  assert (length db = 100) as Hlen
    by (rewrite <- (Forall2_length _ _ _ Hall); by rewrite length_seqZ).
  assert (all_naive db) as Hnaive.
  { clear Hrun Hdb Hlen. induction Hall as [|i t idxs db [(_ & _ & Ht) _] _ IH];
      by constructor. }
  destruct (get_trades_spec r db (side_query "BUY") w Hdb) as (w1 & -> & _).
  destruct (get_trades_spec r db (side_query "SELL") w Hdb) as (w2 & -> & _).
  cbn [fst].
  destruct (filtered_of_naive (side_query "BUY") db Hnaive I I) as (kb & Hkb & Hnb).
  destruct (filtered_of_naive (side_query "SELL") db Hnaive I I) as (ks & Hks & Hns).
  rewrite Hkb, Hks.
  destruct (reply_of_naive kb 1 4 "desc" Hnb) as [trades Hb].
  destruct (reply_of_naive ks 1 4 "desc" Hns) as [trades' Hs].
  exists (length kb), (length ks), trades, trades'.
  split; [exact Hb|]. split; [exact Hs|].
  apply filtered_of_Ok in Hkb as ->. apply filtered_of_Ok in Hks as ->.
  rewrite <- Hlen. clear - Hall.
  induction Hall as [|i t idxs db [_ Hvoc] _ IH]; [done|].
  destruct Hvoc as (_ & _ & _ & _ & Hside & _).
  assert ((String.eqb (buySellIndicator (trade_details t)) "BUY" = true
           ∧ String.eqb (buySellIndicator (trade_details t)) "SELL" = false)
          ∨ (String.eqb (buySellIndicator (trade_details t)) "BUY" = false
             ∧ String.eqb (buySellIndicator (trade_details t)) "SELL" = true)) as Hcase.
  { apply list_elem_of_In in Hside. simpl in Hside.
    destruct Hside as [<-|[<-|[]]]; [left|right]; split; reflexivity. }
  cbn [List.filter]. rewrite !keeps_side_query. cbn [Py.str_truthy].
  destruct Hcase as [[-> ->]|[-> ->]]; cbn [length]; lia.
Qed.

End RequestsOverGenerated.

Lemma search_by_trader_name_witness :
  ∃ db g', generate_db lcg_randint 7%Z = (Ok db, g')
    ∧ ∀ w r name page limit sort,
        objects w !! r = Some db → name ∈ traders →
        ∃ trades, (search_trades r name page limit sort w).1 = PageReply 20 page trades
                  ∧ Forall (λ t, trader t = name) trades.
Proof. exact (search_by_trader_name lcg_randint lcg_randint_range 7%Z). Defined.

Lemma buy_and_sell_split_the_collection_witness :
  ∃ db g', generate_db lcg_randint 7%Z = (Ok db, g')
    ∧ ∀ w r, objects w !! r = Some db →
        ∃ buys sells trades trades',
          (get_trades r (side_query "BUY") w).1 = PageReply buys 1 trades
          ∧ (get_trades r (side_query "SELL") w).1 = PageReply sells 1 trades'
          ∧ buys + sells = 100.
Proof. exact (buy_and_sell_split_the_collection lcg_randint lcg_randint_range 7%Z). Defined.
